(** * idrac_redfish_storage_controller: command orchestration, verified

    A shallow embedding of
    [plugins/modules/idrac_redfish_storage_controller.py].

    The module drives a remote Redfish endpoint.  Every request it makes goes
    through [invoke_request]; the remote end is a function from requests to
    replies, and the requests issued so far are kept in a trace so that
    "no action POST was issued" is a statement about that trace.  The module
    leaves through [module.exit_json] / [module.fail_json] (which raise
    [SystemExit] in Python and are therefore not caught by any [except]
    clause of the file) or through a Python exception. *)

From Stdlib Require Import String Ascii List ZArith Bool Lia.
Import ListNotations.
Set Warnings "-register-all".
Local Open Scope string_scope.
Local Open Scope list_scope.

(* ================================================================== *)
(** * Python values *)
(* ================================================================== *)

(** Decoded JSON documents and untyped Python values ([None] is [JNull]). *)
Inductive json : Type :=
| JNull
| JBool (b : bool)
| JNum (n : Z)
| JStr (s : string)
| JArr (l : list json)
| JObj (kv : list (string * json)).

(** A [dict] with string keys, kept in insertion order. *)
Fixpoint assoc {A : Type} (k : string) (kv : list (string * A)) : option A :=
  match kv with
  | [] => None
  | (k', v) :: rest => if String.eqb k k' then Some v else assoc k rest
  end.

(** [d.get(k)] on a dict: the value, or [None]. *)
Definition dict_get (kv : list (string * json)) (k : string) : json :=
  match assoc k kv with
  | Some v => v
  | None => JNull
  end.

(** [d[k] = v] on a dict: overwrite in place, or append a new key. *)
Fixpoint dict_set {A : Type} (kv : list (string * A)) (k : string) (v : A)
  : list (string * A) :=
  match kv with
  | [] => [(k, v)]
  | (k', v') :: rest =>
      if String.eqb k k' then (k', v) :: rest else (k', v') :: dict_set rest k v
  end.

(** Truth value of a Python object ([if x:], [not x], [bool(x)]). *)
Definition truthy (v : json) : bool :=
  match v with
  | JNull => false
  | JBool b => b
  | JNum n => negb (Z.eqb n 0)
  | JStr s => negb (String.eqb s "")
  | JArr l => match l with [] => false | _ => true end
  | JObj kv => match kv with [] => false | _ => true end
  end.

Definition is_none (v : json) : bool :=
  match v with JNull => true | _ => false end.

(** Python [==] on decoded JSON: lists compare element-wise, dicts compare
    as maps (order of keys is irrelevant), [True == 1] and [False == 0]. *)
Fixpoint py_eq (a b : json) {struct a} : bool :=
  match a, b with
  | JNull, JNull => true
  | JBool x, JBool y => Bool.eqb x y
  | JBool x, JNum n => Z.eqb n (if x then 1 else 0)
  | JNum n, JBool y => Z.eqb n (if y then 1 else 0)
  | JNum n, JNum m => Z.eqb n m
  | JStr s, JStr t => String.eqb s t
  | JArr l1, JArr l2 =>
      (fix go (l1 l2 : list json) {struct l1} : bool :=
         match l1, l2 with
         | [], [] => true
         | x :: xs, y :: ys => py_eq x y && go xs ys
         | _, _ => false
         end) l1 l2
  | JObj kv1, JObj kv2 =>
      Nat.eqb (length kv1) (length kv2) &&
      (fix go (kv : list (string * json)) {struct kv} : bool :=
         match kv with
         | [] => true
         | (k, v) :: rest =>
             match assoc k kv2 with
             | Some v' => py_eq v v'
             | None => false
             end && go rest
         end) kv1
  | _, _ => false
  end.

(** [v == "literal"]. *)
Definition eq_str (v : json) (s : string) : bool := py_eq v (JStr s).

(** [v in [s1, s2, ...]] for a list of string literals. *)
Definition in_strs (v : json) (l : list string) : bool :=
  existsb (fun s => eq_str v s) l.

(** [x in l] for a Python list of values. *)
Definition py_in (v : json) (l : list json) : bool :=
  existsb (fun w => py_eq w v) l.

(** [s in l] for a list of strings. *)
Definition str_in_list (s : string) (l : list string) : bool :=
  existsb (String.eqb s) l.

(** An optional string parameter as a Python value. *)
Definition oj (o : option string) : json :=
  match o with Some s => JStr s | None => JNull end.

(** An optional list-of-strings parameter as a Python value. *)
Definition ojl (o : option (list string)) : json :=
  match o with Some l => JArr (map JStr l) | None => JNull end.

(** What [str.format] prints for an optional string. *)
Definition fmt_opt (o : option string) : string :=
  match o with Some s => s | None => "None" end.

(* ------------------------------------------------------------------ *)
(** ** Strings *)

(** [s.split(sep)] for a one-character separator. *)
Fixpoint split (sep : ascii) (s : string) : list string :=
  match s with
  | EmptyString => [EmptyString]
  | String c r =>
      if Ascii.eqb c sep then EmptyString :: split sep r
      else match split sep r with
           | h :: t => String c h :: t
           | [] => [String c EmptyString]
           end
  end.

(** [s.split(sep)[-1]]. *)
Definition split_last (sep : ascii) (s : string) : string :=
  last (split sep s) EmptyString.

(** [needle in hay] on strings. *)
Fixpoint str_contains (needle hay : string) : bool :=
  String.prefix needle hay ||
  match hay with
  | EmptyString => false
  | String _ r => str_contains needle r
  end.

(** [s.endswith(suf)]. *)
Definition endswith (s suf : string) : bool :=
  let n := String.length s in
  let m := String.length suf in
  Nat.leb m n && String.eqb (String.substring (n - m) m s) suf.

(* ================================================================== *)
(** * The module's outcome *)
(* ================================================================== *)

(** A message: a literal, a template with the arguments of [.format], or a
    value handed over as it came from the remote end. *)
Inductive message : Type :=
| Text (s : string)
| Format (template : string) (args : list json)
| Value (v : json).

(** The keyword arguments of [exit_json] / [fail_json].  A boolean key that
    the call does not pass reads as [false]. *)
Record outcome : Type := mkOutcome {
  msg : option message;
  status_msg : option message;
  changed : bool;
  failed : bool;
  skipped : bool;
  unreachable : bool;
  task : option (string * string);   (* {"id": ..., "uri": ...} *)
  status : option json;
  error_info : option json
}.

Definition kw_msg (m : message) : outcome :=
  mkOutcome (Some m) None false false false false None None None.
Definition kw_msg_changed (m : message) : outcome :=
  mkOutcome (Some m) None true false false false None None None.
Definition kw_msg_failed (m : message) : outcome :=
  mkOutcome (Some m) None false true false false None None None.
Definition kw_msg_skipped (m : message) : outcome :=
  mkOutcome (Some m) None false false true false None None None.
Definition kw_msg_unreachable (m : message) : outcome :=
  mkOutcome (Some m) None false false false true None None None.
Definition kw_msg_error_failed (m : message) (e : json) : outcome :=
  mkOutcome (Some m) None false true false false None None (Some e).
Definition kw_status_msg_failed (m : message) : outcome :=
  mkOutcome None (Some m) false true false false None None None.
Definition kw_job (m : message) (t : string * string) (st : json)
           (c f : bool) : outcome :=
  mkOutcome (Some m) None c f false false (Some t) (Some st) None.

(** Python exceptions the file can meet.  Of the transport's own
    exceptions only [HTTPError] and [URLError] are modelled; [main] treats
    the others ([ConnectionError], [SSLValidationError], ...) like
    [TypeError]. *)
Inductive exn : Type :=
| HTTPError (body : json)
| URLError (reason : string)
| KeyError (key : string)
| TypeError (what : string)
| AttributeError (what : string)
| IndexError (what : string)
| UnboundLocalError (name : string).

(** [str(e)]; the text Python composes is kept short. *)
Definition exn_str (e : exn) : string :=
  match e with
  | HTTPError _ => "HTTP Error"
  | URLError r => r
  | KeyError k => "'" ++ k ++ "'"
  | TypeError w => w
  | AttributeError w => w
  | IndexError w => w
  | UnboundLocalError n => n
  end.

(* ================================================================== *)
(** * Requests, the remote end, and the monad *)
(* ================================================================== *)

Inductive method : Type := GET | POST | PATCH.

Definition method_eqb (a b : method) : bool :=
  match a, b with
  | GET, GET | POST, POST | PATCH, PATCH => true
  | _, _ => false
  end.

Record request : Type := mkRequest {
  req_method : method;
  req_uri : string;
  req_data : option json
}.

Record response : Type := mkResponse {
  success : bool;
  status_code : Z;
  json_data : json;
  headers : list (string * string)
}.

(** What the transport answers: a response, an [HTTPError] carrying the
    decoded error body, or a [URLError]. *)
Inductive reply : Type :=
| Resp (r : response)
| HTTPFail (body : json)
| URLFail (reason : string).

(** The remote system as seen during one invocation: what it answers is a
    function of the request.  The job a submitted action creates is observed
    only through [wait_for_job_completion], which is a collaborator. *)
Definition remote : Type := method -> string -> option json -> reply.

Inductive result (A : Type) : Type :=
| Ret (a : A)
| Exit (o : outcome)
| Raise (e : exn).
Arguments Ret {A} a.
Arguments Exit {A} o.
Arguments Raise {A} e.

(** A computation threads the trace of requests issued so far, most recent
    first. *)
Definition trace : Type := list request.
Definition M (A : Type) : Type := trace -> result A * trace.

Definition ret {A : Type} (a : A) : M A := fun t => (Ret a, t).

Definition bind {A B : Type} (m : M A) (k : A -> M B) : M B :=
  fun t =>
    match m t with
    | (Ret a, t') => k a t'
    | (Exit o, t') => (Exit o, t')
    | (Raise e, t') => (Raise e, t')
    end.

Notation "x <- m ;; k" := (bind m (fun x => k))
  (at level 61, m at next level, right associativity).
Notation "' pat <- m ;; k" :=
  (bind m (fun x => match x with pat => k end))
  (at level 61, pat pattern, m at next level, right associativity).
Notation "m ;;; k" := (bind m (fun _ => k))
  (at level 61, right associativity).

Definition raise {A : Type} (e : exn) : M A := fun t => (Raise e, t).

(** [module.exit_json(...)] with the given keyword arguments. *)
Definition exit_json {A : Type} (o : outcome) : M A := fun t => (Exit o, t).

(** [module.fail_json(msg=m)]. *)
Definition fail_json {A : Type} (m : message) : M A :=
  exit_json (kw_msg_failed m).

(** [if c: body] where [body] does not bind anything. *)
Definition when (c : bool) (body : M unit) : M unit :=
  if c then body else ret tt.

(** [try: body  except HTTPError as err: handler(err)]. *)
Definition try_http {A : Type} (body : M A) (handler : json -> M A) : M A :=
  fun t =>
    match body t with
    | (Raise (HTTPError b), t') => handler b t'
    | other => other
    end.

(** [redfish_obj.invoke_request(method, uri, data=data)]. *)
Definition invoke_request (rf : remote) (m : method) (uri : string)
           (data : option json) : M response :=
  fun t =>
    let t' := mkRequest m uri data :: t in
    match rf m uri data with
    | Resp r => (Ret r, t')
    | HTTPFail b => (Raise (HTTPError b), t')
    | URLFail r => (Raise (URLError r), t')
    end.

(** [for x in l: body(x)]. *)
Fixpoint for_each {A : Type} (l : list A) (body : A -> M unit) : M unit :=
  match l with
  | [] => ret tt
  | x :: rest => body x ;;; for_each rest body
  end.

(** [for x in l: acc.append(body(x))], returning [acc]. *)
Fixpoint for_collect {A B : Type} (l : list A) (body : A -> M B) : M (list B) :=
  match l with
  | [] => ret []
  | x :: rest => y <- body x ;; ys <- for_collect rest body ;; ret (y :: ys)
  end.

(* ------------------------------------------------------------------ *)
(** ** Python operations that can raise *)

(** [d.get(k)]. *)
Definition py_get (d : json) (k : string) : M json :=
  match d with
  | JObj kv => ret (dict_get kv k)
  | _ => raise (AttributeError "object has no attribute 'get'")
  end.

(** [d.get(k, default)]. *)
Definition py_get_default (d : json) (k : string) (default : json) : M json :=
  match d with
  | JObj kv => ret (match assoc k kv with Some v => v | None => default end)
  | _ => raise (AttributeError "object has no attribute 'get'")
  end.

(** [d[k]] with a string key. *)
Definition py_item (d : json) (k : string) : M json :=
  match d with
  | JObj kv =>
      match assoc k kv with
      | Some v => ret v
      | None => raise (KeyError k)
      end
  | _ => raise (TypeError "object is not subscriptable by a string key")
  end.

(** [l[0]] on an optional list parameter. *)
Definition py_first {A : Type} (l : option (list A)) : M A :=
  match l with
  | None => raise (TypeError "'NoneType' object is not subscriptable")
  | Some [] => raise (IndexError "list index out of range")
  | Some (x :: _) => ret x
  end.

(** A value used where a string method is called on it. *)
Definition as_str (v : json) : M string :=
  match v with
  | JStr s => ret s
  | JNull => raise (AttributeError "'NoneType' object has no attribute")
  | _ => raise (AttributeError "object has no such string attribute")
  end.

(** A value iterated over by [for]: a list yields its elements, a dict its
    keys, a string its characters. *)
Definition as_list (v : json) : M (list json) :=
  match v with
  | JArr l => ret l
  | JObj kv => ret (map (fun e => JStr (fst e)) kv)
  | JStr s => ret (map (fun c => JStr (String c EmptyString)) (list_ascii_of_string s))
  | _ => raise (TypeError "object is not iterable")
  end.

(** A value handed to the transport as the resource path. *)
Definition as_uri (v : json) : M string :=
  match v with
  | JStr s => ret s
  | _ => raise (TypeError "the resource path must be a string")
  end.

(** [job_uri = resp.headers.get("Location"); job_id = job_uri.split("/")[-1]]. *)
Definition job_of_location (resp : response) : M (response * string * string) :=
  match assoc "Location" (headers resp) with
  | Some job_uri => ret (resp, job_uri, split_last "/" job_uri)
  | None => raise (AttributeError "'NoneType' object has no attribute 'split'")
  end.

(** [try: body  except Exception: handler]. *)
Definition try_any {A : Type} (body : M A) (handler : M A) : M A :=
  fun t =>
    match body t with
    | (Raise _, t') => handler t'
    | other => other
    end.

(** An operand of integer arithmetic. *)
Definition as_int (v : json) : M Z :=
  match v with
  | JNum n => ret n
  | JBool b => ret (if b then 1 else 0)%Z
  | _ => raise (TypeError "unsupported operand type(s)")
  end.

(** [s in container]: list membership, dict key membership or substring. *)
Definition py_contains (container : json) (s : string) : M bool :=
  match container with
  | JArr l => ret (py_in (JStr s) l)
  | JObj kv => ret (match assoc s kv with Some _ => true | None => false end)
  | JStr t => ret (str_contains s t)
  | _ => raise (TypeError "argument is not iterable")
  end.

(** [l[0]]: the first element of a list, the first character of a string. *)
Definition py_head (v : json) : M json :=
  match v with
  | JArr (x :: _) => ret x
  | JArr [] => raise (IndexError "list index out of range")
  | JStr (String c _) => ret (JStr (String c EmptyString))
  | JStr EmptyString => raise (IndexError "string index out of range")
  | JObj kv => raise (KeyError "0")
  | _ => raise (TypeError "object is not subscriptable")
  end.

(* ================================================================== *)
(** * Constants of the module *)
(* ================================================================== *)

Definition SYSTEMS_URI : string := "/redfish/v1/Systems/".
Definition SYSTEM_ID : string := "System.Embedded.1".
Definition MANAGER_ID : string := "iDRAC.Embedded.1".

(** URI templates; each takes the arguments its [.format] call is given. *)
Definition RAID_ACTION_URI (system_id action : string) : string :=
  "/redfish/v1/Systems/" ++ system_id
  ++ "/Oem/Dell/DellRaidService/Actions/DellRaidService." ++ action.
Definition CONTROLLER_URI (system_id controller_id : string) : string :=
  "/redfish/v1/Dell/Systems/" ++ system_id ++ "/Storage/DellController/"
  ++ controller_id.
Definition VOLUME_URI (system_id controller_id : string) : string :=
  "/redfish/v1/Systems/" ++ system_id ++ "/Storage/" ++ controller_id
  ++ "/Volumes".
Definition PD_URI (controller_id drive_id : string) : string :=
  "/redfish/v1/Systems/System.Embedded.1/Storage/" ++ controller_id
  ++ "/Drives/" ++ drive_id.
Definition JOB_URI_OEM (job_id : string) : string :=
  "/redfish/v1/Managers/iDRAC.Embedded.1/Oem/Dell/Jobs/" ++ job_id.
Definition CONTROLLERS_URI (system_id controller_id : string) : string :=
  "/redfish/v1/Systems/" ++ system_id ++ "/Storage/" ++ controller_id
  ++ "/Controllers/" ++ controller_id.
Definition MANAGER_URI : string := "/redfish/v1/Managers/iDRAC.Embedded.1".
Definition SETTINGS_URI (system_id controller_id : string) : string :=
  "/redfish/v1/Systems/" ++ system_id ++ "/Storage/" ++ controller_id
  ++ "/Controllers/" ++ controller_id ++ "/Settings".

Definition OCE_MIN_PD_RAID_MAPPING : list (string * Z) :=
  [("RAID0", 1%Z); ("RAID5", 1%Z); ("RAID6", 1%Z); ("RAID10", 2%Z)].

Definition JOB_SUBMISSION : string :=
  "Successfully submitted the job that performs the '{0}' operation.".
Definition JOB_COMPLETION : string :=
  "Successfully performed the '{0}' operation.".
Definition JOB_EXISTS : string :=
  "Unable to complete the operation because another job already exists. Wait for the pending job to complete and retry the operation.".
Definition CHANGES_FOUND : string := "Changes found to be applied.".
Definition NO_CHANGES_FOUND : string := "No changes found to be applied.".
Definition TARGET_ERR_MSG : string :=
  "The Fully Qualified Device Descriptor (FQDD) of the target {0} must be only one.".
Definition CNTRL_ERROR_MSG : string :=
  "Unable to locate the storage controller with the ID: {0}".
Definition PD_ERROR_MSG : string :=
  "Unable to locate the physical disk with the ID: {0}".
Definition VD_ERROR_MSG : string :=
  "Unable to locate the virtual disk with the ID: {0}".
Definition ENCRYPT_ERR_MSG : string :=
  "The storage controller '{0}' does not support encryption.".
Definition PHYSICAL_DISK_ERR : string := "Volume is not encryption capable.".
Definition DRIVE_NOT_SECURE_ERASE : string :=
  "Drive {0} does not support secure erase operation.".
Definition DRIVE_NOT_READY : string := "Drive {0} is not in ready state.".
Definition OCE_RAID_TYPE_ERR : string :=
  "Online Capacity Expansion is not supported for {0} virtual disks.".
Definition OCE_SIZE_100MB : string :=
  "Minimum Online Capacity Expansion size must be greater than 100 MB of the current size {0}.".
Definition OCE_TARGET_EMPTY : string := "Provided list of targets is empty.".
Definition OCE_TARGET_RAID1_ERR : string :=
  "Cannot add more than two disks to RAID1 virtual disk.".
Definition UNSUPPORTED_APPLY_TIME : string := "Apply time {0} is not supported.".
Definition MAINTENANCE_OFFSET : string :=
  "The maintenance time must be post-fixed with local offset to {0}.".
Definition MAINTENANCE_TIME : string :=
  "The specified maintenance time window occurs in the past, provide a future time to schedule the maintenance window.".
Definition HBA_MODE : string :=
  "Other attributes cannot be updated when ControllerMode is provided as input.".
Definition INVALID_ATTRIBUTES : string := "The following attributes are invalid: {0}".
Definition CONTROLLER_ID_REQUIRED : string :=
  "controller_id is required to perform this operation.".
Definition JOB_COMPLETION_ATTRIBUTES : string :=
  "Successfully applied the controller attributes.".
Definition JOB_SUBMISSION_ATTRIBUTES : string :=
  "Successfully submitted the job that configures the controller attributes.".
Definition ERR_MSG : string :=
  "Unable to configure the controller attribute(s) settings.".

(* ================================================================== *)
(** * The Ansible module object *)
(* ================================================================== *)

(** [module.params] after argument parsing: an option that was not given is
    [None]; [mode], [apply_time], [job_wait] and [job_wait_timeout] have
    defaults. *)
Record params_t : Type := mkParams {
  attributes : option (list (string * json));
  command : option string;
  controller_id : option string;
  volume_id : option (list string);
  target : option (list string);
  key : option string;
  key_id : option string;
  old_key : option string;
  mode : string;
  apply_time : string;
  maintenance_window : option (string * Z);   (* start_time, duration *)
  job_wait : bool;
  job_wait_timeout : Z;
  size : option Z
}.

Record module_t : Type := mkModule {
  params : params_t;
  check_mode : bool
}.

(** [command == "literal"]. *)
Definition cmd_is (c : option string) (s : string) : bool :=
  match c with Some c' => String.eqb c' s | None => false end.

(** [command in ["a", "b", ...]]. *)
Definition cmd_in (c : option string) (l : list string) : bool :=
  existsb (cmd_is c) l.

(** The two exits every idempotency check ends in. *)
Definition exit_changes_found {A : Type} : M A :=
  exit_json (kw_msg_changed (Text CHANGES_FOUND)).
Definition exit_no_changes_found {A : Type} : M A :=
  exit_json (kw_msg (Text NO_CHANGES_FOUND)).

(* ================================================================== *)
(** * Command handlers *)
(* ================================================================== *)

Definition check_id_exists (rf : remote) (key_name : string)
           (item_id : option string) (uri : string -> string -> string)
  : M unit :=
  let m := Format "{0} with id '{1}' not found in system"
                  [JStr key_name; oj item_id] in
  try_http
    (resp <- invoke_request rf GET (uri SYSTEM_ID (fmt_opt item_id)) None ;;
     when (negb (success resp)) (exit_json (kw_msg_failed m)))
    (fun body => exit_json (kw_msg_error_failed m body)).

Definition ctrl_key (module : module_t) (rf : remote)
  : M (response * string * string) :=
  let p := params module in
  let cm := check_mode module in
  check_id_exists rf "controller_id" (controller_id p) CONTROLLER_URI ;;;
  ctrl_resp <- invoke_request rf GET
                 (CONTROLLER_URI SYSTEM_ID (fmt_opt (controller_id p))) None ;;
  security_status <- py_get (json_data ctrl_resp) "SecurityStatus" ;;
  when (eq_str security_status "EncryptionNotCapable")
       (fail_json (Format ENCRYPT_ERR_MSG [oj (controller_id p)])) ;;;
  ctrl_key_id <- py_get (json_data ctrl_resp) "KeyID" ;;
  payload <-
    (if cmd_is (command p) "SetControllerKey" then
       if cm && is_none ctrl_key_id then exit_changes_found
       else if (cm && negb (is_none ctrl_key_id))
               || (negb cm && negb (is_none ctrl_key_id))
       then exit_no_changes_found
       else ret (JObj [("TargetFQDD", oj (controller_id p));
                       ("Key", oj (key p)); ("Keyid", oj (key_id p))])
     else if cmd_is (command p) "ReKey" then
       when cm exit_changes_found ;;;
       if String.eqb (mode p) "LKM"
       then ret (JObj [("TargetFQDD", oj (controller_id p));
                       ("Mode", JStr (mode p)); ("NewKey", oj (key p));
                       ("Keyid", oj (key_id p)); ("OldKey", oj (old_key p))])
       else ret (JObj [("TargetFQDD", oj (controller_id p));
                       ("Mode", JStr (mode p))])
     else if cmd_is (command p) "RemoveControllerKey" then
       if cm && negb (is_none ctrl_key_id) then exit_changes_found
       else if (cm && is_none ctrl_key_id) || (negb cm && is_none ctrl_key_id)
       then exit_no_changes_found
       else ret (JObj [("TargetFQDD", oj (controller_id p))])
     else if cmd_is (command p) "EnableControllerEncryption" then
       if cm && negb (eq_str security_status "SecurityKeyAssigned")
       then exit_changes_found
       else if (cm && eq_str security_status "SecurityKeyAssigned")
               || (negb cm && eq_str security_status "SecurityKeyAssigned")
       then exit_no_changes_found
       else
         let payload := [("TargetFQDD", oj (controller_id p));
                         ("Mode", JStr (mode p))] in
         if String.eqb (mode p) "LKM"
         then ret (JObj (dict_set (dict_set payload "Key" (oj (key p)))
                                  "Keyid" (oj (key_id p))))
         else ret (JObj payload)
     else ret (JObj [])) ;;
  resp <- invoke_request rf POST
            (RAID_ACTION_URI SYSTEM_ID (fmt_opt (command p))) (Some payload) ;;
  job_of_location resp.

Definition ctrl_reset_config (module : module_t) (rf : remote)
  : M (response * string * string) :=
  let p := params module in
  let cm := check_mode module in
  check_id_exists rf "controller_id" (controller_id p) CONTROLLER_URI ;;;
  member_resp <- invoke_request rf GET
                   (VOLUME_URI SYSTEM_ID (fmt_opt (controller_id p))) None ;;
  members <- py_get (json_data member_resp) "Members" ;;
  if cm && truthy members then exit_changes_found
  else if (cm && negb (truthy members)) || (negb cm && negb (truthy members))
  then exit_no_changes_found
  else
    resp <- invoke_request rf POST
              (RAID_ACTION_URI SYSTEM_ID (fmt_opt (command p)))
              (Some (JObj [("TargetFQDD", oj (controller_id p))])) ;;
    job_of_location resp.

Definition hot_spare_config (module : module_t) (rf : remote)
  : M (response * string * string) :=
  let p := params module in
  let cm := check_mode module in
  let volume := volume_id p in
  drive_id <- py_first (target p) ;;
  let controller_id := split_last ":" drive_id in
  pd_resp <- try_http
               (invoke_request rf GET (PD_URI controller_id drive_id) None)
               (fun _ => fail_json (Format PD_ERROR_MSG [JStr drive_id])) ;;
  hot_spare <- py_get (json_data pd_resp) "HotspareType" ;;
  if (cm && eq_str hot_spare "None" && cmd_is (command p) "AssignSpare")
     || (cm && negb (eq_str hot_spare "None")
         && cmd_is (command p) "UnassignSpare")
  then exit_changes_found
  else if (cm && in_strs hot_spare ["Dedicated"; "Global"]
           && cmd_is (command p) "AssignSpare")
          || (negb cm && in_strs hot_spare ["Dedicated"; "Global"]
              && cmd_is (command p) "AssignSpare")
          || (cm && eq_str hot_spare "None"
              && cmd_is (command p) "UnassignSpare")
          || (negb cm && eq_str hot_spare "None"
              && cmd_is (command p) "UnassignSpare")
  then exit_no_changes_found
  else
    let payload := [("TargetFQDD", JStr drive_id)] in
    let payload :=
      match volume with
      | Some v =>
          if cmd_is (command p) "AssignSpare"
          then dict_set payload "VirtualDiskArray" (JArr (map JStr v))
          else payload
      | None => payload
      end in
    resp <- invoke_request rf POST
              (RAID_ACTION_URI SYSTEM_ID (fmt_opt (command p)))
              (Some (JObj payload)) ;;
    job_of_location resp.

(** [pd_resp.json_data["Oem"]["Dell"]["DellPhysicalDisk"]["RaidStatus"]]. *)
Definition raid_status_of (pd_resp : response) : M json :=
  oem <- py_item (json_data pd_resp) "Oem" ;;
  dell <- py_item oem "Dell" ;;
  disk <- py_item dell "DellPhysicalDisk" ;;
  py_item disk "RaidStatus".

Definition change_pd_status (module : module_t) (rf : remote)
  : M (response * string * string) :=
  let p := params module in
  let cm := check_mode module in
  drive_id <- py_first (target p) ;;
  let controller_id := split_last ":" drive_id in
  let state := if cmd_is (command p) "ChangePDStateToOnline"
               then "Online" else "Offline" in
  raid_status <- try_http
                   (pd_resp <- invoke_request rf GET
                                 (PD_URI controller_id drive_id) None ;;
                    raid_status_of pd_resp)
                   (fun _ => fail_json (Format PD_ERROR_MSG [JStr drive_id])) ;;
  if cm && negb (eq_str raid_status state) then exit_changes_found
  else if (cm && eq_str raid_status state)
          || (negb cm && eq_str raid_status state)
  then exit_no_changes_found
  else
    resp <- invoke_request rf POST
              (RAID_ACTION_URI SYSTEM_ID "ChangePDState")
              (Some (JObj [("TargetFQDD", JStr drive_id);
                           ("State", JStr state)])) ;;
    job_of_location resp.

(** [l.count("literal")]. *)
Definition count_str (l : list json) (s : string) : nat :=
  length (filter (fun v => eq_str v s) l).

(** The [try] of the source encloses the whole loop and its handler names
    the loop variable [ctrl]; the handler is attached here to each iteration,
    which reads the same variable at the same moment. *)
Definition convert_raid_status (module : module_t) (rf : remote)
  : M (response * string * string) :=
  let p := params module in
  let cm := check_mode module in
  let command := command p in
  tgt <- match target p with
         | Some l => ret l
         | None => raise (TypeError "'NoneType' object is not iterable")
         end ;;
  pd_ready_state <-
    for_collect tgt (fun ctrl =>
      try_http
        (let controller_id := split_last ":" ctrl in
         pd_resp <- invoke_request rf GET (PD_URI controller_id ctrl) None ;;
         raid_status_of pd_resp)
        (fun _ => fail_json (Format PD_ERROR_MSG [JStr ctrl]))) ;;
  if (cmd_is command "ConvertToRAID" && cm
      && Nat.ltb 0 (count_str pd_ready_state "NonRAID"))
     || (cmd_is command "ConvertToNonRAID" && cm
         && Nat.ltb 0 (count_str pd_ready_state "Ready"))
  then exit_changes_found
  else if (cmd_is command "ConvertToRAID" && cm
           && Nat.eqb (length pd_ready_state) (count_str pd_ready_state "Ready"))
          || (cmd_is command "ConvertToRAID" && negb cm
              && Nat.eqb (length pd_ready_state)
                         (count_str pd_ready_state "Ready"))
          || (cmd_is command "ConvertToNonRAID" && cm
              && Nat.eqb (length pd_ready_state)
                         (count_str pd_ready_state "NonRAID"))
          || (cmd_is command "ConvertToNonRAID" && negb cm
              && Nat.eqb (length pd_ready_state)
                         (count_str pd_ready_state "NonRAID"))
  then exit_no_changes_found
  else
    resp <- invoke_request rf POST
              (RAID_ACTION_URI SYSTEM_ID (fmt_opt command))
              (Some (JObj [("PDArray", JArr (map JStr tgt))])) ;;
    job_of_location resp.

Definition target_identify_pattern (module : module_t) (rf : remote)
  : M response :=
  let p := params module in
  payload <-
    match target p, volume_id p with
    | Some _, None => t0 <- py_first (target p) ;; ret [("TargetFQDD", JStr t0)]
    | None, Some _ => v0 <- py_first (volume_id p) ;; ret [("TargetFQDD", JStr v0)]
    | Some _, Some _ => t0 <- py_first (target p) ;; ret [("TargetFQDD", JStr t0)]
    | None, None => ret [("TargetFQDD", JNull)]
    end ;;
  when (check_mode module) exit_changes_found ;;;
  invoke_request rf POST (RAID_ACTION_URI SYSTEM_ID (fmt_opt (command p)))
                 (Some (JObj payload)).

Definition lock_virtual_disk (module : module_t) (rf : remote)
  : M (response * string * string) :=
  let p := params module in
  let cm := check_mode module in
  v0 <- py_first (volume_id p) ;;
  let controller_id := split_last ":" v0 in
  check_id_exists rf "controller_id" (Some controller_id) CONTROLLER_URI ;;;
  let volume_uri := (VOLUME_URI SYSTEM_ID controller_id ++ "/" ++ v0)%string in
  lock_status <-
    try_http
      (volume_resp <- invoke_request rf GET volume_uri None ;;
       links <- py_get (json_data volume_resp) "Links" ;;
       when (truthy links)
            (links' <- py_get (json_data volume_resp) "Links" ;;
             drives <- py_get links' "Drives" ;;
             drives <- as_list drives ;;
             for_each drives (fun disk =>
               drive_link <- py_item disk "@odata.id" ;;
               drive_link <- as_uri drive_link ;;
               drive_resp <- invoke_request rf GET drive_link None ;;
               encryption_ability <-
                 py_get (json_data drive_resp) "EncryptionAbility" ;;
               when (negb (eq_str encryption_ability "SelfEncryptingDrive"))
                    (fail_json (Text PHYSICAL_DISK_ERR)))) ;;;
       oem <- py_get (json_data volume_resp) "Oem" ;;
       dell <- py_get oem "Dell" ;;
       dell_volume <- py_get dell "DellVolume" ;;
       py_get dell_volume "LockStatus")
      (fun _ => fail_json (Format PD_ERROR_MSG [JStr controller_id])) ;;
  if eq_str lock_status "Unlocked" && cm then exit_changes_found
  else if eq_str lock_status "Locked" then exit_no_changes_found
  else
    resp <- invoke_request rf POST
              (RAID_ACTION_URI SYSTEM_ID "LockVirtualDisk")
              (Some (JObj [("TargetFQDD", JStr v0)])) ;;
    job_of_location resp.

(** [OCE_MIN_PD_RAID_MAPPING[raid_type]]. *)
Definition oce_min_pd (raid_type : json) : M Z :=
  match raid_type with
  | JStr s =>
      match assoc s OCE_MIN_PD_RAID_MAPPING with
      | Some m => ret m
      | None => raise (KeyError s)
      end
  | JArr _ | JObj _ => raise (TypeError "unhashable type")
  | _ => raise (KeyError "raid_type")
  end.

(** [[each_drive for each_drive in target if each_drive not in current_pd]]. *)
Definition drives_not_in (tgt current_pd : list string) : list string :=
  filter (fun each_drive => negb (str_in_list each_drive current_pd)) tgt.

(** The member drive names of a volume: the last path segment of every
    linked drive. *)
Definition current_pd_of (volume_resp : response) : M (list string) :=
  links <- py_get (json_data volume_resp) "Links" ;;
  if truthy links then
    links' <- py_get (json_data volume_resp) "Links" ;;
    drives <- py_get links' "Drives" ;;
    drives <- as_list drives ;;
    for_collect drives (fun disk =>
      link <- py_item disk "@odata.id" ;;
      link <- as_str link ;;
      ret (split_last "/" link))
  else ret [].

Definition online_capacity_expansion (module : module_t) (rf : remote)
  : M (response * string * string) :=
  let p := params module in
  let cm := check_mode module in
  let tgt := target p in
  let volume_id : list (option string) :=
    match volume_id p with
    | Some l => map Some l
    | None => [None]
    end in
  when (negb (Nat.eqb (length volume_id) 1))
       (exit_json (kw_msg_failed (Format TARGET_ERR_MSG [JStr "virtual drive"]))) ;;;
  let volume_id0 := hd None volume_id in
  v0 <- as_str (oj volume_id0) ;;
  let controller_id := split_last ":" v0 in
  let volume_uri := (VOLUME_URI SYSTEM_ID controller_id ++ "/" ++ v0)%string in
  volume_resp <-
    try_http (invoke_request rf GET volume_uri None)
             (fun _ => exit_json (kw_msg_failed
                                    (Format VD_ERROR_MSG [oj volume_id0]))) ;;
  try_http
    (raid_type <- py_get (json_data volume_resp) "RAIDType" ;;
     when (in_strs raid_type ["RAID50"; "RAID60"])
          (exit_json (kw_msg_failed (Format OCE_RAID_TYPE_ERR [raid_type]))) ;;;
     payload <-
       match tgt with
       | Some tgt =>
           when (match tgt with [] => true | _ => false end)
                (exit_json (kw_msg_failed (Text OCE_TARGET_EMPTY))) ;;;
           when (eq_str raid_type "RAID1")
                (fail_json (Text OCE_TARGET_RAID1_ERR)) ;;;
           current_pd <- current_pd_of volume_resp ;;
           let drives_to_add := drives_not_in tgt current_pd in
           let n := Z.of_nat (length drives_to_add) in
           let nonempty := match drives_to_add with [] => false | _ => true end in
           c1 <- (if cm && nonempty
                  then m <- oce_min_pd raid_type ;; ret (Z.eqb (n mod m) 0)
                  else ret false) ;;
           (if c1 then exit_changes_found
            else
              c2 <- (if Z.eqb n 0 then ret true
                     else m <- oce_min_pd raid_type ;;
                          ret (negb (Z.eqb (n mod m) 0))) ;;
              when c2 exit_no_changes_found) ;;;
           ret (Some (JObj [("TargetFQDD", JStr v0);
                            ("PDArray", JArr (map JStr drives_to_add))]))
       | None =>
           match size p with
           | Some sz =>
               if negb (Z.eqb sz 0) then
                 vd_size <- py_get (json_data volume_resp) "CapacityBytes" ;;
                 vd_size <- as_int vd_size ;;
                 let vd_size_MB := (vd_size / (1024 * 1024))%Z in
                 when (Z.ltb (sz - vd_size_MB) 100)
                      (exit_json (kw_msg_failed
                                    (Format OCE_SIZE_100MB [JNum vd_size_MB]))) ;;;
                 ret (Some (JObj [("TargetFQDD", JStr v0); ("Size", JNum sz)]))
               else ret None
           | None => ret None
           end
       end ;;
     resp <- invoke_request rf POST
               (RAID_ACTION_URI SYSTEM_ID "OnlineCapacityExpansion") payload ;;
     job_of_location resp)
    (fun body =>
       e <- py_get body "error" ;;
       info <- py_get_default e "@Message.ExtendedInfo" (JArr [JObj []]) ;;
       first <- py_head info ;;
       err <- py_get first "Message" ;;
       exit_json (kw_msg_failed (Value err))).

(* ------------------------------------------------------------------ *)
(** ** Collaborators imported from [module_utils]

    These functions are imported by the module and are not part of it; the
    development is parametric in them. *)

Record collaborators : Type := mkCollaborators {
  wait_for_job_completion : remote -> string -> bool -> Z -> M (response * string);
  strip_substr_dict : json -> json;
  get_dynamic_uri : remote -> json -> option string -> M json;
  validate_and_get_first_resource_id_uri :
    module_t -> remote -> string -> M (json * json);
  get_idrac_firmware_version : remote -> M string;
  get_scheduled_job_resp : remote -> string -> M json;
  LooseVersion_ge : string -> string -> bool
}.

(** Returns the first URL that contains [id], or [None]. *)
Fixpoint match_id_in_list (id : option string) (member_list : list json)
  : M json :=
  match member_list with
  | [] => ret JNull
  | each_dict :: rest =>
      url <- py_item each_dict "@odata.id" ;;
      found <- match id with
               | Some i => py_contains url i
               | None => raise (TypeError "'in <string>' requires string as left operand")
               end ;;
      if found then ret url else match_id_in_list id rest
  end.

Definition validate_secure_erase (ext : collaborators) (module : module_t)
           (rf : remote) : M (json * string) :=
  let p := params module in
  drive_id <- py_first (target p) ;;
  '(uri, err_msg) <- validate_and_get_first_resource_id_uri ext module rf SYSTEMS_URI ;;
  when (truthy err_msg) (exit_json (kw_msg_failed (Value err_msg))) ;;;
  storage <- get_dynamic_uri ext rf uri (Some "Storage") ;;
  storage_uri <- py_item storage "@odata.id" ;;
  let job_type := "RealTimeNoRebootConfiguration" in
  storage_member_list <- get_dynamic_uri ext rf storage_uri (Some "Members") ;;
  storage_member_list <- as_list storage_member_list ;;
  controller_uri <- match_id_in_list (controller_id p) storage_member_list ;;
  when (is_none controller_uri)
       (exit_json (kw_msg_failed (Format CNTRL_ERROR_MSG [oj (controller_id p)]))) ;;;
  drives_list <- get_dynamic_uri ext rf controller_uri (Some "Drives") ;;
  drives_list <- as_list drives_list ;;
  drive_uri <- match_id_in_list (Some drive_id) drives_list ;;
  when (is_none drive_uri)
       (exit_json (kw_msg (Format PD_ERROR_MSG [JStr drive_id; JBool true]))) ;;;
  drive_detail <- get_dynamic_uri ext rf drive_uri None ;;
  firm_ver <- get_idrac_firmware_version ext rf ;;
  when (LooseVersion_ge ext firm_ver "3.0")
       (oem <- py_get_default drive_detail "Oem" (JObj []) ;;
        dell_oem <- py_get_default oem "Dell" (JObj []) ;;
        dell_disk <- (fun t =>
                        match py_item dell_oem "DellPhysicalDisk" t with
                        | (Raise (KeyError _), t') =>
                            py_get_default dell_oem "DellPCIeSSD" (JObj []) t'
                        | other => other
                        end) ;;
        drive_ready <- py_get_default dell_disk "RaidStatus" (JObj []) ;;
        when (negb (eq_str drive_ready "Ready"))
             (exit_json (kw_msg_skipped (Format DRIVE_NOT_READY [JStr drive_id]))) ;;;
        capable <- py_get_default dell_disk "SystemEraseCapability" (JObj []) ;;
        when (negb (eq_str capable "CryptographicErasePD"))
             (exit_json (kw_msg_skipped
                           (Format DRIVE_NOT_SECURE_ERASE [JStr drive_id])))) ;;;
  ret (drive_uri, job_type).

Definition secure_erase (ext : collaborators) (module : module_t) (rf : remote)
  : M (response * string * string) :=
  '(drive_uri, job_type) <- validate_secure_erase ext module rf ;;
  scheduled_job <- get_scheduled_job_resp ext rf job_type ;;
  when (truthy scheduled_job) (exit_json (kw_msg (Text JOB_EXISTS))) ;;;
  action_uri <- get_dynamic_uri ext rf drive_uri (Some "Actions") ;;
  erase <- py_get action_uri "#Drive.SecureErase" ;;
  secure_erase_uri <- py_get erase "target" ;;
  secure_erase_uri <- as_uri secure_erase_uri ;;
  resp <- invoke_request rf POST secure_erase_uri (Some (JStr "{}")) ;;
  job_of_location resp.

(** Truth value of an optional string parameter. *)
Definition truthy_opt (o : option string) : bool := truthy (oj o).

(** [target is not None and not 1 >= len(target)]. *)
Definition more_than_one (l : option (list string)) : bool :=
  match l with
  | Some l' => negb (Nat.leb (length l') 1)
  | None => false
  end.

Definition validate_inputs (module : module_t) : M unit :=
  let p := params module in
  let command := command p in
  if cmd_is command "ReKey" && String.eqb (mode p) "LKM" then
    when (negb (truthy_opt (key p) && truthy_opt (key_id p)
                && truthy_opt (old_key p)))
         (fail_json (Format "All of the following: key, key_id and old_key are required for '{0}' operation."
                            [oj command]))
  else if cmd_is command "EnableControllerEncryption"
          && String.eqb (mode p) "LKM" then
    when (negb (truthy_opt (key p) && truthy_opt (key_id p)))
         (fail_json (Format "All of the following: key, key_id are required for '{0}' operation."
                            [oj command]))
  else if cmd_in command ["AssignSpare"; "UnassignSpare"; "BlinkTarget";
                          "UnBlinkTarget"; "LockVirtualDisk"] then
    when (more_than_one (target p))
         (fail_json (Format TARGET_ERR_MSG [JStr "physical disk"])) ;;;
    when (more_than_one (volume_id p))
         (fail_json (Format TARGET_ERR_MSG [JStr "virtual drive"]))
  else if cmd_in command ["ChangePDStateToOnline"; "ChangePDStateToOffline";
                          "SecureErase"] then
    when (more_than_one (target p))
         (fail_json (Format TARGET_ERR_MSG [JStr "physical disk"]))
  else ret tt.

(* ================================================================== *)
(** * Attribute settings *)
(* ================================================================== *)

Definition get_current_time (rf : remote) : M (json * json) :=
  try_any
    (resp <- invoke_request rf GET MANAGER_URI None ;;
     curr_time <- py_get (json_data resp) "DateTime" ;;
     date_offset <- py_get (json_data resp) "DateTimeLocalOffset" ;;
     ret (curr_time, date_offset))
    (ret (JNull, JNull)).

Definition validate_time (module : module_t) (rf : remote) (mtime : string)
  : M unit :=
  '(curr_time, date_offset) <- get_current_time rf ;;
  ends <- match date_offset with
          | JStr off => ret (endswith mtime off)
          | _ => raise (TypeError "endswith first arg must be str or a tuple of str")
          end ;;
  when (negb ends)
       (exit_json (kw_status_msg_failed (Format MAINTENANCE_OFFSET [date_offset]))) ;;;
  earlier <- match curr_time with
             | JStr now => ret (String.ltb mtime now)
             | _ => raise (TypeError "'<' not supported between instances")
             end ;;
  when earlier (exit_json (kw_status_msg_failed (Text MAINTENANCE_TIME))).

Definition get_attributes (module : module_t) (rf : remote) : M json :=
  try_http
    (resp <- invoke_request rf GET
               (CONTROLLERS_URI SYSTEM_ID
                                (fmt_opt (controller_id (params module)))) None ;;
     ret (json_data resp))
    (fun _ => ret (JObj [])).

(** [each not in curr_attr.keys()]. *)
Definition not_in_keys (curr_attr : json) (each : string) : M bool :=
  match curr_attr with
  | JObj kv => ret (match assoc each kv with Some _ => false | None => true end)
  | _ => raise (AttributeError "object has no attribute 'keys'")
  end.

(** The loop of [check_attr_exists]: walks the requested names in order and
    carries [invalid_attr], [pending_attr] and [diff]. *)
Fixpoint check_attr_loop (curr_attr : json) (inp_attr : list (string * json))
         (names : list string)
         (acc : list string * list (string * json) * bool)
  : M (list string * list (string * json) * bool) :=
  match names with
  | [] => ret acc
  | each :: rest =>
      let '(invalid_attr, pending_attr, diff) := acc in
      absent <- not_in_keys curr_attr each ;;
      if absent
      then check_attr_loop curr_attr inp_attr rest
                           (invalid_attr ++ [each], pending_attr, diff)
      else
        cur <- py_item curr_attr each ;;
        if negb (py_eq cur (dict_get inp_attr each))
        then check_attr_loop curr_attr inp_attr rest
               (invalid_attr,
                dict_set pending_attr each (dict_get inp_attr each), true)
        else check_attr_loop curr_attr inp_attr rest acc
  end.

Definition check_attr_exists (module : module_t) (curr_attr : json)
           (inp_attr : list (string * json)) : M (list (string * json)) :=
  '(invalid_attr, pending_attr, diff) <-
    check_attr_loop curr_attr inp_attr (map fst inp_attr) ([], [], false) ;;
  when (match invalid_attr with [] => false | _ => true end)
       (exit_json (kw_msg_failed
                     (Format INVALID_ATTRIBUTES [JArr (map JStr invalid_attr)]))) ;;;
  (if diff && check_mode module then exit_changes_found
   else when (negb diff) exit_no_changes_found) ;;;
  ret pending_attr.

Definition get_redfish_apply_time (module : module_t) (rf : remote)
           (apply_time : string) (time_settings : json)
  : M (list (string * json)) :=
  let time_set : list (string * json) := [] in
  if truthy time_settings then
    if str_contains "Maintenance" apply_time then
      supported <- py_contains time_settings apply_time ;;
      if negb supported then
        exit_json (kw_status_msg_failed
                     (Format UNSUPPORTED_APPLY_TIME [JStr apply_time]))
      else
        let time_set := dict_set time_set "ApplyTime" (JStr apply_time) in
        m_win <- match maintenance_window (params module) with
                 | Some w => ret w
                 | None => raise (AttributeError "'NoneType' object has no attribute 'get'")
                 end ;;
        validate_time module rf (fst m_win) ;;;
        let time_set :=
          dict_set time_set "MaintenanceWindowStartTime" (JStr (fst m_win)) in
        let time_set :=
          dict_set time_set "MaintenanceWindowDurationInSeconds"
                   (JNum (snd m_win)) in
        ret time_set
    else ret (dict_set time_set "ApplyTime" (JStr apply_time))
  else ret time_set.

Definition apply_attributes (module : module_t) (rf : remote)
           (pending : list (string * json)) (time_settings : json)
  : M (string * list (string * json)) :=
  let p := params module in
  let payload :=
    [("Oem", JObj [("Dell", JObj [("DellStorageController", JObj pending)])])] in
  time_set <- get_redfish_apply_time module rf (apply_time p) time_settings ;;
  let payload :=
    match time_set with
    | [] => payload
    | _ => dict_set payload "@Redfish.SettingsApplyTime" (JObj time_set)
    end in
  resp <-
    try_http
      (resp <- invoke_request rf PATCH
                 (SETTINGS_URI SYSTEM_ID (fmt_opt (controller_id p)))
                 (Some (JObj payload)) ;;
       has_error <- (if Z.eqb (status_code resp) 202
                     then py_contains (json_data resp) "error"
                     else ret false) ;;
       when has_error
            (e <- py_get (json_data resp) "error" ;;
             info <- py_get_default e "@Message.ExtendedInfo" (JArr [JObj []]) ;;
             first <- py_head info ;;
             msg_err_id <- py_get first "MessageId" ;;
             created <- py_contains msg_err_id "Created" ;;
             when (negb created)
                  (exit_json (kw_msg_error_failed (Text ERR_MSG)
                                                  (json_data resp)))) ;;;
       ret resp)
      (fun body =>
         err <- py_get body "error" ;;
         exit_json (kw_msg_error_failed (Text ERR_MSG) err)) ;;
  match assoc "Location" (headers resp) with
  | Some loc => ret (split_last "/" loc, time_set)
  | None => raise (KeyError "Location")
  end.

Definition set_attributes (module : module_t) (rf : remote)
  : M (string * list (string * json)) :=
  resp_data <- get_attributes module rf ;;
  oem <- py_get resp_data "Oem" ;;
  dell <- py_get oem "Dell" ;;
  curr_attr <- py_get dell "DellStorageController" ;;
  inp_attr <- match attributes (params module) with
              | Some a => ret a
              | None => raise (AttributeError "'NoneType' object has no attribute 'get'")
              end ;;
  when (truthy (dict_get inp_attr "ControllerMode")
        && Nat.ltb 1 (length inp_attr))
       (exit_json (kw_msg_failed (Text HBA_MODE))) ;;;
  pending <- check_attr_exists module curr_attr inp_attr ;;
  settings <- py_get_default resp_data "@Redfish.Settings" (JObj []) ;;
  time_settings <- py_get_default settings "SupportedApplyTimes" (JArr []) ;;
  apply_attributes module rf pending time_settings.

(* ================================================================== *)
(** * [main] *)
(* ================================================================== *)

(** [bool(module.params["attributes"])]. *)
Definition attributes_given (p : params_t) : bool :=
  match attributes p with
  | Some (_ :: _) => true
  | _ => false
  end.

(** The [if]/[elif] chain of [main] that routes a command to its handler.
    The result is the binding of [resp, job_uri, job_id] afterwards; [None]
    means [job_id] was never assigned. *)
Definition run_command (ext : collaborators) (module : module_t) (rf : remote)
  : M (option (response * string * string)) :=
  let command := command (params module) in
  if cmd_is command "ResetConfig" then
    r <- ctrl_reset_config module rf ;; ret (Some r)
  else if cmd_in command ["SetControllerKey"; "ReKey"; "RemoveControllerKey";
                          "EnableControllerEncryption"] then
    r <- ctrl_key module rf ;; ret (Some r)
  else if cmd_in command ["AssignSpare"; "UnassignSpare"] then
    r <- hot_spare_config module rf ;; ret (Some r)
  else if cmd_in command ["BlinkTarget"; "UnBlinkTarget"] then
    resp <- target_identify_pattern module rf ;;
    when (success resp && Z.eqb (status_code resp) 200)
         (exit_json (kw_msg_changed (Format JOB_COMPLETION [oj command]))) ;;;
    ret None
  else if cmd_in command ["ConvertToRAID"; "ConvertToNonRAID"] then
    r <- convert_raid_status module rf ;; ret (Some r)
  else if cmd_in command ["ChangePDStateToOnline"; "ChangePDStateToOffline"] then
    r <- change_pd_status module rf ;; ret (Some r)
  else if cmd_is command "LockVirtualDisk" then
    r <- lock_virtual_disk module rf ;; ret (Some r)
  else if cmd_is command "OnlineCapacityExpansion" then
    r <- online_capacity_expansion module rf ;; ret (Some r)
  else if cmd_is command "SecureErase" then
    r <- secure_erase ext module rf ;; ret (Some r)
  else ret None.

(** The [changed, failed] pair read off the polled job. *)
Definition job_flags (job_data : json) : M (bool * bool) :=
  job_state <- py_item job_data "JobState" ;;
  if eq_str job_state "Failed" then ret (false, true) else ret (true, false).

(** The attribute branch of [main]. *)
Definition run_attributes (ext : collaborators) (module : module_t)
           (rf : remote) : M unit :=
  let p := params module in
  when (match controller_id p with None => true | Some _ => false end)
       (exit_json (kw_msg_failed (Text CONTROLLER_ID_REQUIRED))) ;;;
  check_id_exists rf "controller_id" (controller_id p) CONTROLLER_URI ;;;
  '(job_id, time_set) <- set_attributes module rf ;;
  let job_uri := JOB_URI_OEM job_id in
  at_ <- py_item (JObj time_set) "ApplyTime" ;;
  job_data <-
    (if eq_str at_ "Immediate" && job_wait p then
       '(resp, _) <- wait_for_job_completion ext rf job_uri (job_wait p)
                                             (job_wait_timeout p) ;;
       let job_data := strip_substr_dict ext (json_data resp) in
       '(c, f) <- job_flags job_data ;;
       exit_json (kw_job (Text JOB_COMPLETION_ATTRIBUTES) (job_id, job_uri)
                         job_data c f)
     else
       '(resp, _) <- wait_for_job_completion ext rf job_uri false
                                             (job_wait_timeout p) ;;
       ret (strip_substr_dict ext (json_data resp))) ;;
  exit_json (kw_job (Text JOB_SUBMISSION_ATTRIBUTES) (job_id, job_uri)
                    job_data false false).

(** What [main] does with the job of a command once the handler returned. *)
Definition report_job (ext : collaborators) (module : module_t) (rf : remote)
           (job : option (response * string * string)) : M unit :=
  let p := params module in
  job_id <- match job with
            | Some (_, _, job_id) => ret job_id
            | None => raise (UnboundLocalError "job_id")
            end ;;
  let oem_job_url := JOB_URI_OEM job_id in
  job_data <-
    (if job_wait p then
       '(resp, _) <- wait_for_job_completion ext rf oem_job_url (job_wait p)
                                             (job_wait_timeout p) ;;
       let job_data := strip_substr_dict ext (json_data resp) in
       '(c, f) <- job_flags job_data ;;
       exit_json (kw_job (Format JOB_COMPLETION [oj (command p)])
                         (job_id, oem_job_url) job_data c f)
     else
       '(resp, _) <- wait_for_job_completion ext rf oem_job_url (job_wait p)
                                             (job_wait_timeout p) ;;
       ret (strip_substr_dict ext (json_data resp))) ;;
  exit_json (kw_job (Format JOB_SUBMISSION [oj (command p)])
                    (job_id, oem_job_url) job_data false false).

(** The body of the [with Redfish(...)] block. *)
Definition main_body (ext : collaborators) (module : module_t) (rf : remote)
  : M unit :=
  job <- run_command ext module rf ;;
  when (attributes_given (params module)) (run_attributes ext module rf) ;;;
  report_job ext module rf job.

(** The [except] clauses of [main]. *)
Definition main_handlers {A : Type} (body : M A) : M A :=
  fun t =>
    match body t with
    | (Raise (HTTPError b), t') =>
        exit_json (kw_msg_error_failed (Text (exn_str (HTTPError b))) b) t'
    | (Raise (URLError r), t') =>
        exit_json (kw_msg_unreachable (Text (exn_str (URLError r)))) t'
    | (Raise (KeyError k), t') => fail_json (Text (exn_str (KeyError k))) t'
    | (Raise (TypeError w), t') => fail_json (Text (exn_str (TypeError w))) t'
    | (Raise (AttributeError w), t') =>
        fail_json (Text (exn_str (AttributeError w))) t'
    | other => other
    end.

Definition main (ext : collaborators) (module : module_t) (rf : remote)
  : M unit :=
  when (negb (attributes_given (params module))) (validate_inputs module) ;;;
  main_handlers (main_body ext module rf).

(** One invocation, from an empty trace. *)
Definition run {A : Type} (m : M A) : result A * trace := m [].

(** Requests of the trace that change the remote system. *)
Definition is_post (r : request) : bool := method_eqb (req_method r) POST.
Definition is_patch (r : request) : bool := method_eqb (req_method r) PATCH.
Definition posts (t : trace) : list request := filter is_post t.
Definition patches (t : trace) : list request := filter is_patch t.

(* ================================================================== *)
(** * Command variants and observed state *)
(* ================================================================== *)

(** The rows of the idempotency table: the sixteen commands, with
    OnlineCapacityExpansion split by the parameter that drives it. *)
Inductive variant : Type :=
| ResetConfig | AssignSpare | SetControllerKey | RemoveControllerKey | ReKey
| UnassignSpare | EnableControllerEncryption | BlinkTarget | UnBlinkTarget
| ConvertToRAID | ConvertToNonRAID | ChangePDStateToOnline
| ChangePDStateToOffline | LockVirtualDisk
| OnlineCapacityExpansionByTarget | OnlineCapacityExpansionBySize
| SecureErase.

Definition command_name (v : variant) : string :=
  match v with
  | ResetConfig => "ResetConfig"
  | AssignSpare => "AssignSpare"
  | SetControllerKey => "SetControllerKey"
  | RemoveControllerKey => "RemoveControllerKey"
  | ReKey => "ReKey"
  | UnassignSpare => "UnassignSpare"
  | EnableControllerEncryption => "EnableControllerEncryption"
  | BlinkTarget => "BlinkTarget"
  | UnBlinkTarget => "UnBlinkTarget"
  | ConvertToRAID => "ConvertToRAID"
  | ConvertToNonRAID => "ConvertToNonRAID"
  | ChangePDStateToOnline => "ChangePDStateToOnline"
  | ChangePDStateToOffline => "ChangePDStateToOffline"
  | LockVirtualDisk => "LockVirtualDisk"
  | OnlineCapacityExpansionByTarget => "OnlineCapacityExpansion"
  | OnlineCapacityExpansionBySize => "OnlineCapacityExpansion"
  | SecureErase => "SecureErase"
  end.

Definition nonempty {A : Type} (l : option (list A)) : bool :=
  match l with Some (_ :: _) => true | _ => false end.

Definition single {A : Type} (l : option (list A)) : bool :=
  match l with Some [_] => true | _ => false end.

Definition given {A : Type} (o : option A) : bool :=
  match o with Some _ => true | None => false end.

(** The parameters a variant reads are present in the shape it reads them:
    a drive command names a drive, a volume command names a volume, an
    expansion names exactly one volume and either at least one drive or a
    size. *)
Definition carries (v : variant) (p : params_t) : bool :=
  match v with
  | ResetConfig | SetControllerKey | RemoveControllerKey | ReKey
  | EnableControllerEncryption => true
  | AssignSpare | UnassignSpare | ChangePDStateToOnline
  | ChangePDStateToOffline | SecureErase => nonempty (target p)
  | ConvertToRAID | ConvertToNonRAID => given (target p)
  | BlinkTarget | UnBlinkTarget =>
      match target p, volume_id p with
      | Some t, _ => nonempty (Some t)
      | None, Some vs => nonempty (Some vs)
      | None, None => true
      end
  | LockVirtualDisk => nonempty (volume_id p)
  | OnlineCapacityExpansionByTarget =>
      single (volume_id p) && nonempty (target p)
  | OnlineCapacityExpansionBySize =>
      single (volume_id p) && negb (given (target p)) && given (size p)
  end.

(** [p] is a request for variant [v]. *)
Definition requests (p : params_t) (v : variant) : bool :=
  cmd_is (command p) (command_name v) && carries v p.

(** What a handler observes of the remote system before it decides. *)
Inductive snapshot : Type :=
| Controller (SecurityStatus KeyID : json)
| Drive (HotspareType : json)
| DriveStates (RaidStatus : list json)
| Volumes (Members : json)
| Volume (EncryptionAbility : list json) (LockStatus : option json)
| Expansion (RAIDType : json) (current_pd : list string)
| Capacity (RAIDType CapacityBytes : json)
| Unobserved.

(** Pure readers: a GET that answers, [.get] on a dict, [[...]] on a dict. *)
Definition get_resp (rf : remote) (uri : string) : option response :=
  match rf GET uri None with
  | Resp r => Some r
  | _ => None
  end.

Definition field (d : json) (k : string) : option json :=
  match d with
  | JObj kv => Some (dict_get kv k)
  | _ => None
  end.

Definition item (d : json) (k : string) : option json :=
  match d with
  | JObj kv => assoc k kv
  | _ => None
  end.

Definition obind {A B : Type} (o : option A) (f : A -> option B) : option B :=
  match o with Some a => f a | None => None end.

(** The controller exists: its resource answers with [success]. *)
Definition controller_found (rf : remote) (cid : option string)
  : option response :=
  obind (get_resp rf (CONTROLLER_URI SYSTEM_ID (fmt_opt cid)))
        (fun r => if success r then Some r else None).

Definition read_raid_status (rf : remote) (drive_id : string) : option json :=
  obind (get_resp rf (PD_URI (split_last ":" drive_id) drive_id)) (fun r =>
  obind (item (json_data r) "Oem") (fun oem =>
  obind (item oem "Dell") (fun dell =>
  obind (item dell "DellPhysicalDisk") (fun disk =>
  item disk "RaidStatus")))).

(** Reads every element of a list, or fails at the first that does not
    resolve. *)
Fixpoint traverse {A B : Type} (f : A -> option B) (l : list A)
  : option (list B) :=
  match l with
  | [] => Some []
  | a :: rest =>
      obind (f a) (fun b =>
      obind (traverse f rest) (fun bs => Some (b :: bs)))
  end.

Definition read_raid_statuses (rf : remote) (drives : list string)
  : option (list json) :=
  traverse (read_raid_status rf) drives.

(** The entries of [Links.Drives] of a volume document. *)
Definition linked_drives (d : json) : option (list json) :=
  obind (field d "Links") (fun links =>
  if truthy links then
    obind (field links "Drives") (fun drives =>
    match drives with
    | JArr l => Some l
    | _ => None
    end)
  else Some []).

Definition link_of (disk : json) : option string :=
  match item disk "@odata.id" with
  | Some (JStr s) => Some s
  | _ => None
  end.

Definition read_ability (rf : remote) (disk : json) : option json :=
  obind (link_of disk) (fun link =>
  obind (get_resp rf link) (fun r =>
  field (json_data r) "EncryptionAbility")).

Definition read_abilities (rf : remote) (drives : list json)
  : option (list json) :=
  traverse (read_ability rf) drives.

Definition read_member_name (disk : json) : option string :=
  obind (link_of disk) (fun link => Some (split_last "/" link)).

Definition read_member_names (drives : list json) : option (list string) :=
  traverse read_member_name drives.

Definition read_lock_status (d : json) : option json :=
  obind (field d "Oem") (fun oem =>
  obind (field oem "Dell") (fun dell =>
  obind (field dell "DellVolume") (fun dv =>
  field dv "LockStatus"))).

Definition volume_uri_of (v0 : string) : string :=
  (VOLUME_URI SYSTEM_ID (split_last ":" v0) ++ "/" ++ v0)%string.

(** The state a request for [v] observes when every resource it reads
    resolves; [None] when one does not. *)
Definition read_snapshot (v : variant) (p : params_t) (rf : remote)
  : option snapshot :=
  match v with
  | SetControllerKey | RemoveControllerKey | ReKey
  | EnableControllerEncryption =>
      obind (controller_found rf (controller_id p)) (fun r =>
      obind (field (json_data r) "SecurityStatus") (fun ss =>
      obind (field (json_data r) "KeyID") (fun kid =>
      Some (Controller ss kid))))
  | ResetConfig =>
      obind (controller_found rf (controller_id p)) (fun _ =>
      obind (get_resp rf (VOLUME_URI SYSTEM_ID (fmt_opt (controller_id p))))
            (fun r =>
      obind (field (json_data r) "Members") (fun m => Some (Volumes m))))
  | AssignSpare | UnassignSpare =>
      match target p with
      | Some (d :: _) =>
          obind (get_resp rf (PD_URI (split_last ":" d) d)) (fun r =>
          obind (field (json_data r) "HotspareType") (fun hs =>
          Some (Drive hs)))
      | _ => None
      end
  | ChangePDStateToOnline | ChangePDStateToOffline =>
      match target p with
      | Some (d :: _) =>
          obind (read_raid_status rf d) (fun s => Some (DriveStates [s]))
      | _ => None
      end
  | ConvertToRAID | ConvertToNonRAID =>
      match target p with
      | Some l => obind (read_raid_statuses rf l) (fun ss => Some (DriveStates ss))
      | None => None
      end
  | LockVirtualDisk =>
      match volume_id p with
      | Some (v0 :: _) =>
          obind (controller_found rf (Some (split_last ":" v0))) (fun _ =>
          obind (get_resp rf (volume_uri_of v0)) (fun r =>
          obind (linked_drives (json_data r)) (fun drives =>
          obind (read_abilities rf drives) (fun abl =>
          Some (Volume abl (read_lock_status (json_data r)))))))
      | _ => None
      end
  | OnlineCapacityExpansionByTarget =>
      match volume_id p with
      | Some [v0] =>
          obind (get_resp rf (volume_uri_of v0)) (fun r =>
          obind (field (json_data r) "RAIDType") (fun rt =>
          obind (linked_drives (json_data r)) (fun drives =>
          obind (read_member_names drives) (fun names =>
          Some (Expansion rt names)))))
      | _ => None
      end
  | OnlineCapacityExpansionBySize =>
      match volume_id p with
      | Some [v0] =>
          obind (get_resp rf (volume_uri_of v0)) (fun r =>
          obind (field (json_data r) "RAIDType") (fun rt =>
          obind (field (json_data r) "CapacityBytes") (fun c =>
          Some (Capacity rt c))))
      | _ => None
      end
  | BlinkTarget | UnBlinkTarget | SecureErase => Some Unobserved
  end.

(* ------------------------------------------------------------------ *)
(** ** The idempotency table

    The three predicates below follow the rows of the table of the
    specification ("NoOp when", "Apply when") and the validations that come
    before a handler decides.  They are what the handlers are compared
    with. *)

(** [OCE_MIN_PD_RAID_MAPPING.get(raid_type)]. *)
Definition min_increment (raid_type : json) : option Z :=
  match raid_type with
  | JStr s => assoc s OCE_MIN_PD_RAID_MAPPING
  | _ => None
  end.

(** Number of requested drives that are not yet members. *)
Definition to_add (p : params_t) (current_pd : list string) : Z :=
  match target p with
  | Some tgt => Z.of_nat (length (drives_not_in tgt current_pd))
  | None => 0%Z
  end.

(** Commands that can end in "no changes". *)
Definition noop_capable (v : variant) : bool :=
  match v with
  | ReKey | BlinkTarget | UnBlinkTarget | OnlineCapacityExpansionBySize
  | SecureErase => false
  | _ => true
  end.

(** Column "NoOp when": the observed state is already the one the command
    would establish. *)
Definition at_target (v : variant) (p : params_t) (s : snapshot) : bool :=
  match v, s with
  | SetControllerKey, Controller _ kid => negb (is_none kid)
  | RemoveControllerKey, Controller _ kid => is_none kid
  | EnableControllerEncryption, Controller ss _ =>
      eq_str ss "SecurityKeyAssigned"
  | AssignSpare, Drive hs => in_strs hs ["Dedicated"; "Global"]
  | UnassignSpare, Drive hs => eq_str hs "None"
  | ConvertToRAID, DriveStates l => forallb (fun x => eq_str x "Ready") l
  | ConvertToNonRAID, DriveStates l => forallb (fun x => eq_str x "NonRAID") l
  | ChangePDStateToOnline, DriveStates l =>
      forallb (fun x => eq_str x "Online") l
  | ChangePDStateToOffline, DriveStates l =>
      forallb (fun x => eq_str x "Offline") l
  | LockVirtualDisk, Volume _ (Some ls) => eq_str ls "Locked"
  | ResetConfig, Volumes m => negb (truthy m)
  | OnlineCapacityExpansionByTarget, Expansion rt cur =>
      Z.eqb (to_add p cur) 0
      || match min_increment rt with
         | Some m => negb (Z.eqb (to_add p cur mod m) 0)
         | None => false
         end
  | _, _ => false
  end.

(** Column "Apply when", for the values the table enumerates. *)
Definition would_change (v : variant) (p : params_t) (s : snapshot) : bool :=
  match v, s with
  | SetControllerKey, Controller _ kid => is_none kid
  | RemoveControllerKey, Controller _ kid => negb (is_none kid)
  | EnableControllerEncryption, Controller ss _ =>
      negb (eq_str ss "SecurityKeyAssigned")
  | ReKey, Controller _ _ => true
  | AssignSpare, Drive hs => eq_str hs "None"
  | UnassignSpare, Drive hs => negb (eq_str hs "None")
  | ConvertToRAID, DriveStates l => existsb (fun x => eq_str x "NonRAID") l
  | ConvertToNonRAID, DriveStates l => existsb (fun x => eq_str x "Ready") l
  | ChangePDStateToOnline, DriveStates l =>
      negb (forallb (fun x => eq_str x "Online") l)
  | ChangePDStateToOffline, DriveStates l =>
      negb (forallb (fun x => eq_str x "Offline") l)
  | LockVirtualDisk, Volume _ (Some ls) => eq_str ls "Unlocked"
  | ResetConfig, Volumes m => truthy m
  | BlinkTarget, Unobserved | UnBlinkTarget, Unobserved => true
  | OnlineCapacityExpansionByTarget, Expansion rt cur =>
      negb (Z.eqb (to_add p cur) 0)
      && match min_increment rt with
         | Some m => Z.eqb (to_add p cur mod m) 0
         | None => false
         end
  | _, _ => false
  end.

(** The validations a handler performs on the observed state before it
    compares it with the target: the controller supports encryption, every
    member drive of the volume is self-encrypting, the RAID type can be
    expanded. *)
Definition guards_pass (v : variant) (s : snapshot) : bool :=
  match v, s with
  | (SetControllerKey | RemoveControllerKey | ReKey
     | EnableControllerEncryption), Controller ss _ =>
      negb (eq_str ss "EncryptionNotCapable")
  | LockVirtualDisk, Volume abl _ =>
      forallb (fun a => eq_str a "SelfEncryptingDrive") abl
  | OnlineCapacityExpansionByTarget, Expansion rt _ =>
      negb (in_strs rt ["RAID50"; "RAID60"]) && negb (eq_str rt "RAID1")
  | OnlineCapacityExpansionBySize, Capacity rt _ =>
      negb (in_strs rt ["RAID50"; "RAID60"])
  | _, _ => true
  end.

(** The two verdicts of an idempotency check. *)
Definition no_changes : outcome := kw_msg (Text NO_CHANGES_FOUND).
Definition changes_found : outcome := kw_msg_changed (Text CHANGES_FOUND).

(* ================================================================== *)
(** * Statements: verdicts, payloads and the readers of the attribute engine *)
(* ================================================================== *)

(** The action a variant posts to. *)
Definition action_of (v : variant) : string :=
  match v with
  | ChangePDStateToOnline | ChangePDStateToOffline => "ChangePDState"
  | _ => command_name v
  end.

(** The outcome a computation left with, if it left through [exit_json] or
    [fail_json]. *)
Definition exit_of {A : Type} (r : result A) : option outcome :=
  match r with
  | Exit o => Some o
  | _ => None
  end.

(** How a handler leaves when a validation of the observed state fails. *)
Definition guard_failure (v : variant) (p : params_t) (s : snapshot)
  : outcome :=
  match v, s with
  | LockVirtualDisk, _ => kw_msg_failed (Text PHYSICAL_DISK_ERR)
  | (OnlineCapacityExpansionByTarget | OnlineCapacityExpansionBySize),
    (Expansion rt _ | Capacity rt _) =>
      if in_strs rt ["RAID50"; "RAID60"]
      then kw_msg_failed (Format OCE_RAID_TYPE_ERR [rt])
      else kw_msg_failed (Text OCE_TARGET_RAID1_ERR)
  | _, _ => kw_msg_failed (Format ENCRYPT_ERR_MSG [oj (controller_id p)])
  end.

(** What the table prescribes for variant [v] in state [s]:
    a failed validation ends in a failure; at the target state the handler
    reports "no changes"; where a change is due, a dry run reports "changes
    found" and a real run posts the action.  Only the last case issues a
    POST. *)
Definition verdict {A : Type} (v : variant) (p : params_t) (cm : bool)
           (s : snapshot) (r : result A * trace) : Prop :=
  (guards_pass v s = false ->
   exit_of (fst r) = Some (guard_failure v p s) /\ posts (snd r) = [])
  /\ (guards_pass v s = true -> at_target v p s = true ->
      exit_of (fst r) = Some no_changes /\ posts (snd r) = [])
  /\ (guards_pass v s = true -> would_change v p s = true -> cm = true ->
      exit_of (fst r) = Some changes_found /\ posts (snd r) = [])
  /\ (guards_pass v s = true -> would_change v p s = true -> cm = false ->
      exit_of (fst r) <> Some no_changes
      /\ exists d, posts (snd r)
                   = [mkRequest POST (RAID_ACTION_URI SYSTEM_ID (action_of v)) d]).

Definition key_variant (v : variant) : bool :=
  match v with
  | SetControllerKey | RemoveControllerKey | ReKey | EnableControllerEncryption => true
  | _ => false
  end.

Definition spare_variant (v : variant) : bool :=
  match v with AssignSpare | UnassignSpare => true | _ => false end.

Definition pd_state_variant (v : variant) : bool :=
  match v with
  | ChangePDStateToOnline | ChangePDStateToOffline => true
  | _ => false
  end.

Definition convert_variant (v : variant) : bool :=
  match v with
  | ConvertToRAID | ConvertToNonRAID => true
  | _ => false
  end.

(** The handler of an HTTP error raised by the expansion request. *)
Definition oce_http_handler (body : json) : M (response * string * string) :=
  e <- py_get body "error" ;;
  info <- py_get_default e "@Message.ExtendedInfo" (JArr [JObj []]) ;;
  first <- py_head info ;;
  err <- py_get first "Message" ;;
  exit_json (kw_msg_failed (Value err)).

(** The expansion request itself. *)
Definition oce_submit (rf : remote) (payload : option json)
  : M (response * string * string) :=
  try_http
    (resp <- invoke_request rf POST
               (RAID_ACTION_URI SYSTEM_ID "OnlineCapacityExpansion") payload ;;
     job_of_location resp)
    oce_http_handler.

(** The payload of an expansion by target. *)
Definition oce_target_payload (v0 : string) (drives_to_add : list string)
  : json :=
  JObj [("TargetFQDD", JStr v0); ("PDArray", JArr (map JStr drives_to_add))].

Definition blink_variant (v : variant) : bool :=
  match v with BlinkTarget | UnBlinkTarget => true | _ => false end.

(** Variants whose handler consults [check_mode]. *)
Definition dry_run_aware (v : variant) : bool :=
  match v with
  | OnlineCapacityExpansionBySize | SecureErase => false
  | _ => true
  end.

(** Commands declared always-mutating. *)
Definition always_mutating (v : variant) : bool :=
  match v with
  | ReKey | BlinkTarget | UnBlinkTarget => true
  | _ => false
  end.

(** The drives an expansion by target would add. *)
Definition drives_to_add (p : params_t) (current_pd : list string)
  : list string :=
  match target p with
  | Some tgt => drives_not_in tgt current_pd
  | None => []
  end.

(** The payload of an expansion by size. *)
Definition oce_size_payload (v0 : string) (sz : Z) : json :=
  JObj [("TargetFQDD", JStr v0); ("Size", JNum sz)].

(** The volume a request names first. *)
Definition volume_of (p : params_t) : string :=
  match volume_id p with
  | Some (v0 :: _) => v0
  | _ => ""
  end.

Definition MB : Z := (1024 * 1024)%Z.

(** The controller's current attribute map, read as [set_attributes] does. *)
Definition read_attributes (rf : remote) (cid : option string)
  : option (json * list (string * json)) :=
  obind (get_resp rf (CONTROLLERS_URI SYSTEM_ID (fmt_opt cid))) (fun r =>
  obind (field (json_data r) "Oem") (fun oem =>
  obind (field oem "Dell") (fun dell =>
  obind (field dell "DellStorageController") (fun curr =>
  match curr with
  | JObj kv => Some (json_data r, kv)
  | _ => None
  end)))).

(** The ControllerMode rule of [set_attributes] as the source tests it. *)
Definition hba_rule_trips (inp_attr : list (string * json)) : bool :=
  truthy (dict_get inp_attr "ControllerMode") && Nat.ltb 1 (length inp_attr).

(** ControllerMode is among the requested names, and it is not alone. *)
Definition controller_mode_with_others (inp_attr : list (string * json))
  : bool :=
  given (assoc "ControllerMode" inp_attr) && Nat.ltb 1 (length inp_attr).

(** Requested names that the current attribute map does not have, in the
    order of the request. *)
Definition absent_names (curr : list (string * json))
           (inp_attr : list (string * json)) : list string :=
  filter (fun k => negb (given (assoc k curr))) (map fst inp_attr).

(** The remote system's clock, read as [get_current_time] does. *)
Definition read_clock (rf : remote) : option (string * string) :=
  obind (get_resp rf MANAGER_URI) (fun r =>
  obind (field (json_data r) "DateTime") (fun now =>
  obind (field (json_data r) "DateTimeLocalOffset") (fun off =>
  match now, off with
  | JStr n, JStr o => Some (n, o)
  | _, _ => None
  end))).

(** The apply times that name a maintenance window. *)
Definition maintenance_apply_time (a : string) : bool :=
  String.eqb a "AtMaintenanceWindowStart"
  || String.eqb a "InMaintenanceWindowOnReset".

(** The body of a settings-apply request. *)
Definition settings_payload (pending time_set : list (string * json)) : json :=
  let payload :=
    [("Oem", JObj [("Dell", JObj [("DellStorageController", JObj pending)])])] in
  JObj match time_set with
       | [] => payload
       | _ => dict_set payload "@Redfish.SettingsApplyTime" (JObj time_set)
       end.

(** A computation that issues no request. *)
Definition quiet {A : Type} (m : M A) : Prop := forall t, snd (m t) = t.

(** A computation that leaves through [exit_json] only with [failed=true]. *)
Definition only_fails {A : Type} (m : M A) : Prop :=
  forall t o, fst (m t) = Exit o -> failed o = true.

(* ================================================================== *)
(** * Example systems *)
(* ================================================================== *)

(** A remote end that serves a fixed table of resources and answers every
    other request with an HTTP error. *)
Definition serve (table : list (method * string * reply)) : remote :=
  fun m uri _ =>
    match find (fun e => method_eqb (fst (fst e)) m
                         && String.eqb (snd (fst e)) uri) table with
    | Some e => snd e
    | None => HTTPFail (JObj [])
    end.

Definition ok (doc : json) : reply := Resp (mkResponse true 200 doc []).
Definition accepted (location : string) : reply :=
  Resp (mkResponse true 202 (JObj []) [("Location", location)]).

(** Collaborators that read the job resource once and keep it as it is,
    resolve the first system, and read a document (or one member of it) for
    [get_dynamic_uri]. *)
Definition plain_ext : collaborators :=
  mkCollaborators
    (fun rf uri _ _ => resp <- invoke_request rf GET uri None ;; ret (resp, ""))
    (fun doc => doc)
    (fun rf uri label =>
       uri' <- as_uri uri ;;
       resp <- invoke_request rf GET uri' None ;;
       match label with
       | Some l => py_get (json_data resp) l
       | None => ret (json_data resp)
       end)
    (fun _ _ uri => ret (JStr (uri ++ SYSTEM_ID), JStr ""))
    (fun _ => ret "6.10.00.00")
    (fun _ _ => ret (JObj []))
    (fun _ _ => true).

(** A request for a command, with the defaults of the argument spec. *)
Definition request_for (c : string) (cid : option string)
           (vol tgt : option (list string)) (sz : option Z) : params_t :=
  mkParams None (Some c) cid vol tgt None None None "LKM" "Immediate" None
           false 120 sz.

Definition controller1 : string := "RAID.Slot.1-1".
Definition drive0 : string := "Disk.Bay.0:Enclosure.Internal.0-1:RAID.Slot.1-1".
Definition drive1 : string := "Disk.Bay.1:Enclosure.Internal.0-1:RAID.Slot.1-1".
Definition drive2 : string := "Disk.Bay.2:Enclosure.Internal.0-1:RAID.Slot.1-1".
Definition volume0 : string := "Disk.Virtual.0:RAID.Slot.1-1".

Definition drive_path (d : string) : string := PD_URI controller1 d.
Definition action_path (a : string) : string := RAID_ACTION_URI SYSTEM_ID a.
Definition job_location : string :=
  "/redfish/v1/TaskService/Tasks/JID_123456789012".

(** A drive document. *)
Definition drive_doc (hot_spare raid_status ability : string) : json :=
  JObj [("HotspareType", JStr hot_spare);
        ("EncryptionAbility", JStr ability);
        ("Oem", JObj [("Dell", JObj [("DellPhysicalDisk",
                                     JObj [("RaidStatus", JStr raid_status)])])])].

(** A volume document with its member drives. *)
Definition volume_doc (raid_type lock : string) (capacity : Z)
           (members : list string) : json :=
  JObj [("RAIDType", JStr raid_type);
        ("CapacityBytes", JNum capacity);
        ("Links", JObj [("Drives",
                         JArr (map (fun d => JObj [("@odata.id",
                                                    JStr (drive_path d))])
                                   members))]);
        ("Oem", JObj [("Dell", JObj [("DellVolume",
                                     JObj [("LockStatus", JStr lock)])])])].

(** A controller document. *)
Definition controller_doc (security_status : string) (key_id : json) : json :=
  JObj [("SecurityStatus", JStr security_status); ("KeyID", key_id)].

(** A controller that cannot encrypt and therefore holds no key. *)
Definition rf_not_capable : remote :=
  serve [(GET, CONTROLLER_URI SYSTEM_ID controller1,
          ok (controller_doc "EncryptionNotCapable" JNull));
         (POST, action_path "RemoveControllerKey", accepted job_location);
         (POST, action_path "ReKey", accepted job_location)].

(** A controller with a key assigned. *)
Definition rf_key_assigned : remote :=
  serve [(GET, CONTROLLER_URI SYSTEM_ID controller1,
          ok (controller_doc "SecurityKeyAssigned" (JStr "mykeyid123")));
         (POST, action_path "SetControllerKey", accepted job_location);
         (POST, action_path "ReKey", accepted job_location)].


(** A locked volume one of whose two member drives is not self-encrypting. *)
Definition rf_locked_mixed : remote :=
  serve [(GET, CONTROLLER_URI SYSTEM_ID controller1,
          ok (controller_doc "SecurityKeyAssigned" (JStr "mykeyid123")));
         (GET, volume_uri_of volume0,
          ok (volume_doc "RAID1" "Locked" 379584512000 [drive0; drive1]));
         (GET, drive_path drive0,
          ok (drive_doc "None" "Online" "SelfEncryptingDrive"));
         (GET, drive_path drive1, ok (drive_doc "None" "Online" "None"));
         (POST, action_path "LockVirtualDisk", accepted job_location)].

(** A RAID1 volume of two drives. *)
Definition rf_raid1 : remote :=
  serve [(GET, volume_uri_of volume0,
          ok (volume_doc "RAID1" "Unlocked" 379584512000 [drive0; drive1]));
         (POST, action_path "OnlineCapacityExpansion", accepted job_location)].

(** A RAID10 volume of two drives, 362,000 MB large. *)
Definition rf_raid10 : remote :=
  serve [(GET, volume_uri_of volume0,
          ok (volume_doc "RAID10" "Unlocked" 379584512000 [drive0; drive1]));
         (POST, action_path "OnlineCapacityExpansion", accepted job_location)].

(** One drive, with the given hot-spare type and RAID status. *)
Definition rf_drive (hot_spare raid_status : string) : remote :=
  serve [(GET, drive_path drive0,
          ok (drive_doc hot_spare raid_status "SelfEncryptingDrive"));
         (POST, action_path "AssignSpare", accepted job_location);
         (POST, action_path "UnassignSpare", accepted job_location);
         (POST, action_path "ConvertToRAID", accepted job_location);
         (POST, action_path "ConvertToNonRAID", accepted job_location);
         (POST, action_path "ChangePDState", accepted job_location)].

Definition storage_path : string :=
  "/redfish/v1/Systems/System.Embedded.1/Storage".
Definition erase_path : string :=
  (drive_path drive0 ++ "/Actions/Drive.SecureErase")%string.

(** A ready drive that supports cryptographic erase. *)
Definition rf_erasable : remote :=
  serve [(GET, (SYSTEMS_URI ++ SYSTEM_ID)%string,
          ok (JObj [("Storage", JObj [("@odata.id", JStr storage_path)])]));
         (GET, storage_path,
          ok (JObj [("Members",
                     JArr [JObj [("@odata.id",
                                  JStr (storage_path ++ "/" ++ controller1))]])]));
         (GET, (storage_path ++ "/" ++ controller1)%string,
          ok (JObj [("Drives",
                     JArr [JObj [("@odata.id", JStr (drive_path drive0))]])]));
         (GET, drive_path drive0,
          ok (JObj [("Oem", JObj [("Dell", JObj [("DellPhysicalDisk",
                       JObj [("RaidStatus", JStr "Ready");
                             ("SystemEraseCapability",
                              JStr "CryptographicErasePD")])])]);
                    ("Actions", JObj [("#Drive.SecureErase",
                                       JObj [("target", JStr erase_path)])])]));
         (POST, erase_path, accepted job_location)].

(** A volume of two self-encrypting drives with the given lock status. *)
Definition rf_volume (lock : string) : remote :=
  serve [(GET, CONTROLLER_URI SYSTEM_ID controller1,
          ok (controller_doc "SecurityKeyAssigned" (JStr "mykeyid123")));
         (GET, volume_uri_of volume0,
          ok (volume_doc "RAID1" lock 379584512000 [drive0; drive1]));
         (GET, drive_path drive0,
          ok (drive_doc "None" "Online" "SelfEncryptingDrive"));
         (GET, drive_path drive1,
          ok (drive_doc "None" "Online" "SelfEncryptingDrive"));
         (POST, action_path "LockVirtualDisk", accepted job_location)].

Definition drive3 : string := "Disk.Bay.3:Enclosure.Internal.0-1:RAID.Slot.1-1".

(** A request for attribute settings on a controller. *)
Definition settings_for (cid : string) (attrs : list (string * json))
           (apply : string) (window : option (string * Z)) : params_t :=
  mkParams (Some attrs) None (Some cid) None None None None None "LKM" apply
           window false 120 None.

(** A controller whose attributes can be set, a manager clock at 06:00 with
    offset -05:00, and a job resource in the given state. *)
Definition attributes_doc (supported : list string) : json :=
  JObj [("Oem", JObj [("Dell", JObj [("DellStorageController",
           JObj [("ControllerMode", JStr "RAID");
                 ("CopybackMode", JStr "On")])])]);
        ("@Redfish.Settings",
         JObj [("SupportedApplyTimes", JArr (map JStr supported))])].

Definition job_doc (state : string) : json :=
  JObj [("Id", JStr "JID_123456789012"); ("JobState", JStr state);
        ("PercentComplete", JNum 100)].

Definition rf_settings (supported : list string) (job_state : string) : remote :=
  serve [(GET, CONTROLLER_URI SYSTEM_ID controller1,
          ok (controller_doc "EncryptionCapable" JNull));
         (GET, CONTROLLERS_URI SYSTEM_ID controller1,
          ok (attributes_doc supported));
         (GET, MANAGER_URI,
          ok (JObj [("DateTime", JStr "2022-09-30T06:00:00-05:00");
                    ("DateTimeLocalOffset", JStr "-05:00")]));
         (PATCH, SETTINGS_URI SYSTEM_ID controller1, accepted job_location);
         (GET, JOB_URI_OEM "JID_123456789012", ok (job_doc job_state))].

Definition all_apply_times : list string :=
  ["Immediate"; "OnReset"; "AtMaintenanceWindowStart";
   "InMaintenanceWindowOnReset"].

(** The same request, with [job_wait] set. *)
Definition waiting (p : params_t) : params_t :=
  mkParams (attributes p) (command p) (controller_id p) (volume_id p)
           (target p) (key p) (key_id p) (old_key p) (mode p) (apply_time p)
           (maintenance_window p) true (job_wait_timeout p) (size p).

(** A controller without a key whose SetControllerKey job ends in the given
    state. *)
Definition rf_job (job_state : string) : remote :=
  serve [(GET, CONTROLLER_URI SYSTEM_ID controller1,
          ok (controller_doc "EncryptionCapable" JNull));
         (POST, action_path "SetControllerKey", accepted job_location);
         (GET, JOB_URI_OEM "JID_123456789012", ok (job_doc job_state))].

(** A controller that advertises no apply times at all. *)
Definition rf_no_apply_times : remote :=
  serve [(GET, CONTROLLER_URI SYSTEM_ID controller1,
          ok (controller_doc "EncryptionCapable" JNull));
         (GET, CONTROLLERS_URI SYSTEM_ID controller1,
          ok (JObj [("Oem", JObj [("Dell", JObj [("DellStorageController",
                      JObj [("ControllerMode", JStr "RAID");
                            ("CopybackMode", JStr "On")])])])]));
         (GET, MANAGER_URI,
          ok (JObj [("DateTime", JStr "2022-09-30T06:00:00-05:00");
                    ("DateTimeLocalOffset", JStr "-05:00")]));
         (PATCH, SETTINGS_URI SYSTEM_ID controller1, accepted job_location);
         (GET, JOB_URI_OEM "JID_123456789012", ok (job_doc "Scheduled"))].

(* ================================================================== *)
(** * Statements about validation, payloads and error paths *)
(* ================================================================== *)

(** Commands whose handler starts by looking the controller up. *)
Definition controller_command (p : params_t) : bool :=
  cmd_in (command p) ["ResetConfig"; "SetControllerKey"; "ReKey";
                      "RemoveControllerKey"; "EnableControllerEncryption"].

(** The message of [check_id_exists] for a controller. *)
Definition controller_not_found (cid : option string) : message :=
  Format "{0} with id '{1}' not found in system" [JStr "controller_id"; oj cid].

(** The resource [check_id_exists] reads for a controller. *)
Definition controller_uri_of (p : params_t) : string :=
  CONTROLLER_URI SYSTEM_ID (fmt_opt (controller_id p)).


(** Commands that act on one drive, named by [target]. *)
Definition single_target_command (p : params_t) : bool :=
  cmd_in (command p) ["AssignSpare"; "UnassignSpare"; "BlinkTarget";
                      "UnBlinkTarget"; "LockVirtualDisk";
                      "ChangePDStateToOnline"; "ChangePDStateToOffline";
                      "SecureErase"].

(** Commands for which [validate_inputs] also counts the volumes. *)
Definition single_volume_command (p : params_t) : bool :=
  cmd_in (command p) ["AssignSpare"; "UnassignSpare"; "BlinkTarget";
                      "UnBlinkTarget"; "LockVirtualDisk"].

(** Commands that read [target[0]] before anything else. *)
Definition first_target_command (p : params_t) : bool :=
  cmd_in (command p) ["AssignSpare"; "UnassignSpare"; "BlinkTarget";
                      "UnBlinkTarget"; "ChangePDStateToOnline";
                      "ChangePDStateToOffline"; "SecureErase"].

(** The two conversions between RAID and non-RAID drives. *)
Definition convert_command (p : params_t) : bool :=
  cmd_in (command p) ["ConvertToRAID"; "ConvertToNonRAID"].

(** [d.get(k, default)] as a reader. *)
Definition field_default (d : json) (k : string) (default : json)
  : option json :=
  match d with
  | JObj kv => Some (match assoc k kv with Some v => v | None => default end)
  | _ => None
  end.

(** The part of a drive document that [validate_secure_erase] consults:
    [Oem.Dell.DellPhysicalDisk], or [Oem.Dell.DellPCIeSSD] when the former
    key is absent. *)
Definition erase_disk_of (drive_detail : json) : option json :=
  obind (field_default drive_detail "Oem" (JObj [])) (fun oem =>
  obind (field_default oem "Dell" (JObj [])) (fun dell =>
  match item dell "DellPhysicalDisk" with
  | Some disk => Some disk
  | None => field_default dell "DellPCIeSSD" (JObj [])
  end)).

(** The target of the SecureErase action of a drive. *)
Definition erase_target_of (actions : json) : option string :=
  obind (field actions "#Drive.SecureErase") (fun erase =>
  obind (field erase "target") (fun target =>
  match target with
  | JStr uri => Some uri
  | _ => None
  end)).

(** A member of a Redfish collection. *)
Definition member (uri : string) : json := JObj [("@odata.id", JStr uri)].

(** A drive that is not in the Ready state. *)
Definition rf_not_ready : remote :=
  serve [(GET, (SYSTEMS_URI ++ SYSTEM_ID)%string,
          ok (JObj [("Storage", member storage_path)]));
         (GET, storage_path,
          ok (JObj [("Members",
                     JArr [member (storage_path ++ "/" ++ controller1)])]));
         (GET, (storage_path ++ "/" ++ controller1)%string,
          ok (JObj [("Drives", JArr [member (drive_path drive0)])]));
         (GET, drive_path drive0,
          ok (JObj [("Oem", JObj [("Dell", JObj [("DellPCIeSSD",
                       JObj [("RaidStatus", JStr "Online");
                             ("SystemEraseCapability", JStr "None")])])]);
                    ("Actions", JObj [("#Drive.SecureErase",
                                       JObj [("target", JStr erase_path)])])]));
         (POST, erase_path, accepted job_location)].

(** The requested attributes whose value differs from the current one, in
    the order of the request. *)
Definition differing (curr inp : list (string * json))
  : list (string * json) :=
  filter (fun kv => negb (py_eq (dict_get curr (fst kv)) (snd kv))) inp.

(** The apply times a controller document advertises:
    [resp_data.get("@Redfish.Settings", {}).get("SupportedApplyTimes", [])]. *)
Definition supported_apply_times (doc : json) : option json :=
  obind (field_default doc "@Redfish.Settings" (JObj [])) (fun settings =>
  field_default settings "SupportedApplyTimes" (JArr [])).

(** [l[0]] as a reader. *)
Definition head_of (v : json) : option json :=
  match v with
  | JArr (x :: _) => Some x
  | JStr (String c _) => Some (JStr (String c EmptyString))
  | _ => None
  end.

(** The message id of the error a settings-apply response carries:
    [json_data.get("error").get("@Message.ExtendedInfo", [{}])[0].get("MessageId")]. *)
Definition message_id_of (body : json) : option json :=
  obind (item body "error") (fun e =>
  obind (field_default e "@Message.ExtendedInfo" (JArr [JObj []])) (fun info =>
  obind (head_of info) (fun first => field first "MessageId"))).

(** The settings resource of the controller of a request. *)
Definition settings_uri_of (p : params_t) : string :=
  SETTINGS_URI SYSTEM_ID (fmt_opt (controller_id p)).

(** The attributes resource of the controller of a request. *)
Definition attributes_uri_of (p : params_t) : string :=
  CONTROLLERS_URI SYSTEM_ID (fmt_opt (controller_id p)).

(** [resp.status_code == 202 and "error" in resp.json_data] as a reader. *)
Definition has_error_of (resp : response) : option bool :=
  if Z.eqb (status_code resp) 202 then
    match json_data resp with
    | JArr l => Some (py_in (JStr "error") l)
    | JObj kv => Some (given (assoc "error" kv))
    | JStr t => Some (str_contains "error" t)
    | _ => None
    end
  else Some false.

(** What [main] does once [set_attributes] has returned the job and the
    apply-time directive (lines 1138-1154 of the source). *)
Definition report_settings_job (ext : collaborators) (module : module_t)
           (rf : remote) (job_id : string) (time_set : list (string * json))
  : M unit :=
  let p := params module in
  let job_uri := JOB_URI_OEM job_id in
  at_ <- py_item (JObj time_set) "ApplyTime" ;;
  job_data <-
    (if eq_str at_ "Immediate" && job_wait p then
       '(resp, _) <- wait_for_job_completion ext rf job_uri (job_wait p)
                                             (job_wait_timeout p) ;;
       let job_data := strip_substr_dict ext (json_data resp) in
       '(c, f) <- job_flags job_data ;;
       exit_json (kw_job (Text JOB_COMPLETION_ATTRIBUTES) (job_id, job_uri)
                         job_data c f)
     else
       '(resp, _) <- wait_for_job_completion ext rf job_uri false
                                             (job_wait_timeout p) ;;
       ret (strip_substr_dict ext (json_data resp))) ;;
  exit_json (kw_job (Text JOB_SUBMISSION_ATTRIBUTES) (job_id, job_uri)
                    job_data false false).

(** The device a blink request names: the first target when targets are
    given, else the first volume. *)
Definition blink_target (p : params_t) : json :=
  match target p, volume_id p with
  | Some (t0 :: _), _ => JStr t0
  | None, Some (v0 :: _) => JStr v0
  | _, _ => JNull
  end.

(** The payload [ctrl_key] builds for a key command. *)
Definition key_payload (v : variant) (p : params_t) : list (string * json) :=
  match v with
  | SetControllerKey =>
      [("TargetFQDD", oj (controller_id p)); ("Key", oj (key p));
       ("Keyid", oj (key_id p))]
  | ReKey =>
      if String.eqb (mode p) "LKM"
      then [("TargetFQDD", oj (controller_id p)); ("Mode", JStr (mode p));
            ("NewKey", oj (key p)); ("Keyid", oj (key_id p));
            ("OldKey", oj (old_key p))]
      else [("TargetFQDD", oj (controller_id p)); ("Mode", JStr (mode p))]
  | RemoveControllerKey => [("TargetFQDD", oj (controller_id p))]
  | EnableControllerEncryption =>
      if String.eqb (mode p) "LKM"
      then [("TargetFQDD", oj (controller_id p)); ("Mode", JStr (mode p));
            ("Key", oj (key p)); ("Keyid", oj (key_id p))]
      else [("TargetFQDD", oj (controller_id p)); ("Mode", JStr (mode p))]
  | _ => []
  end.

(** The members of a payload that hold key material. *)
Definition key_material : list string := ["Key"; "NewKey"; "OldKey"; "Keyid"].

(** The first target of a request. *)
Definition target_of (p : params_t) : string :=
  match target p with
  | Some (d :: _) => d
  | _ => ""
  end.


(** The request that reads a drive. *)
Definition drive_request (d : string) : request :=
  mkRequest GET (PD_URI (split_last ":" d) d) None.

(** Commands that read the one drive they act on. *)
Definition drive_variant (v : variant) : bool :=
  match v with
  | AssignSpare | UnassignSpare | ChangePDStateToOnline
  | ChangePDStateToOffline => true
  | _ => false
  end.


(* ================================================================== *)
(** * ome_firmware_baseline_compliance_info

    A shallow embedding of
    [plugins/modules/ome_firmware_baseline_compliance_info.py], over the
    same values, requests and monad.  The module only reads: it ends with
    [exit_json(baseline_compliance_info=data)], which is the value [main]
    returns, with [fail_json], or with an exception. *)
(* ================================================================== *)

Module Ome.

Definition base_line_path : string := "UpdateService/Baselines".
Definition baselines_report_by_device_ids_path : string :=
  "UpdateService/Actions/UpdateService.GetBaselinesReportByDeviceids".
Definition device_is_list_path : string := "DeviceService/Devices".
Definition group_service_path : string := "GroupService/Groups".

(** ["UpdateService/Baselines({Id})/DeviceComplianceReports".format(Id=...)],
    given the text of the id. *)
Definition baselines_compliance_report_path (id : string) : string :=
  "UpdateService/Baselines(" ++ id ++ ")/DeviceComplianceReports".

(** [group_service_path + "({group_id})/Devices".format(group_id=...)],
    given the text of the id. *)
Definition group_id_path (group_id : string) : string :=
  group_service_path ++ "(" ++ group_id ++ ")/Devices".

(** The options of the module that its functions read. *)
Record params_t : Type := mkParams {
  baseline_name : option string;
  device_service_tags : option (list string);
  device_ids : option (list Z);
  device_group_names : option (list string)
}.

(** The successful exit of the module. *)
Inductive report : Type :=
| BaselineComplianceInfo (data : json).

(** [try: body  except (URLError, HTTPError, SSLValidationError,
    ConnectionError, TypeError, ValueError) as err: raise err]. *)
Definition reraising {A : Type} (body : M A) : M A :=
  fun t =>
    match body t with
    | (Raise (HTTPError b), t') => raise (HTTPError b) t'
    | (Raise (URLError r), t') => raise (URLError r) t'
    | (Raise (TypeError w), t') => raise (TypeError w) t'
    | other => other
    end.

(** A dict whose keys are Python values, in insertion order; [d.update({k:
    v})] keeps the place and the key object of a key that is already
    there. *)
Fixpoint update (d : list (json * json)) (k v : json) : list (json * json) :=
  match d with
  | [] => [(k, v)]
  | (k', v') :: rest =>
      if py_eq k' k then (k', v) :: rest else (k', v') :: update rest k v
  end.

(** Only values that can be hashed can be keys. *)
Definition hashable (k : json) : bool :=
  match k with
  | JArr _ | JObj _ => false
  | _ => true
  end.

(** [x in service_tags]. *)
Definition in_tags (x : json) (service_tags : option (list string)) : M bool :=
  match service_tags with
  | Some l => ret (py_in x (map JStr l))
  | None => raise (TypeError "argument of type 'NoneType' is not iterable")
  end.

(** The loop of [_get_device_id_from_service_tags]. *)
Fixpoint service_tag_loop (devices_list : list json)
         (service_tags : option (list string))
         (service_tag_dict : list (json * json)) : M (list (json * json)) :=
  match devices_list with
  | [] => ret service_tag_dict
  | item :: rest =>
      tag <- py_item item "DeviceServiceTag" ;;
      found <- in_tags tag service_tags ;;
      if found then
        id <- py_item item "Id" ;;
        tag <- py_item item "DeviceServiceTag" ;;
        if hashable id
        then service_tag_loop rest service_tags (update service_tag_dict id tag)
        else raise (TypeError "unhashable type")
      else service_tag_loop rest service_tags service_tag_dict
  end.

Definition _get_device_id_from_service_tags
           (service_tags : option (list string)) (rf : remote)
  : M (list (json * json)) :=
  reraising
    (resp <- invoke_request rf GET device_is_list_path None ;;
     if success resp then
       devices_list <- py_item (json_data resp) "value" ;;
       devices_list <- as_list devices_list ;;
       service_tag_loop devices_list service_tags []
     else fail_json (Text "Failed to fetch the device information.")).

(** [len(x)]. *)
Definition py_len (v : json) : M nat :=
  match v with
  | JArr l => ret (length l)
  | JObj kv => ret (length kv)
  | JStr s => ret (String.length s)
  | _ => raise (TypeError "object has no len()")
  end.

(** The [for ... else] of [get_baseline_id_from_name]. *)
Fixpoint baseline_loop (baseline_list : list json) (baseline_name : string)
  : M json :=
  match baseline_list with
  | [] => fail_json (Text "Specified I(baseline_name) does not exist in the system.")
  | baseline :: rest =>
      name <- py_item baseline "Name" ;;
      if eq_str name baseline_name then py_item baseline "Id"
      else baseline_loop rest baseline_name
  end.

Definition get_baseline_id_from_name (rf : remote) (p : params_t) : M json :=
  reraising
    (match baseline_name p with
     | Some name =>
         resp <- invoke_request rf GET base_line_path None ;;
         if success resp then
           baseline_list <- py_item (json_data resp) "value" ;;
           n <- py_len baseline_list ;;
           if Nat.ltb 0 n then
             baseline_list <- as_list baseline_list ;;
             baseline_loop baseline_list name
           else fail_json (Text "No baseline exists in the system.")
         else ret (JNum 0)
     | None => fail_json (Text "I(baseline_name) is a mandatory option.")
     end).

(** The inner loop of [get_device_ids_from_group_names]: the id of the first
    group with the name, if there is one. *)
Fixpoint group_loop (grp_list_resp : list json) (name : string)
  : M (list json) :=
  match grp_list_resp with
  | [] => ret []
  | group :: rest =>
      n <- py_item group "Name" ;;
      if eq_str n name then id <- py_item group "Id" ;; ret [id]
      else group_loop rest name
  end.

(** The loop over the devices of one group. *)
Fixpoint device_loop (grp_list_value : list json) : M (list json) :=
  match grp_list_value with
  | [] => ret []
  | device_item :: rest =>
      id <- py_item device_item "Id" ;;
      ids <- device_loop rest ;;
      ret (id :: ids)
  end.

Section Rendering.

(** [str(x)] as [str.format] prints a value into a path. *)
Variable py_str : json -> string.

(** The loop of [get_device_ids_from_group_ids]. *)
Fixpoint group_id_loop (grou_id_list : list json) (rf : remote)
  : M (list json) :=
  match grou_id_list with
  | [] => ret []
  | group_id :: rest =>
      resp <- invoke_request rf GET (group_id_path (py_str group_id)) None ;;
      here <- (if success resp then
                 grp_list_value <- py_item (json_data resp) "value" ;;
                 grp_list_value <- as_list grp_list_value ;;
                 device_loop grp_list_value
               else fail_json (Text "Failed to fetch the device ids from specified I(device_group_names).")) ;;
      there <- group_id_loop rest rf ;;
      ret (here ++ there)
  end.

Definition get_device_ids_from_group_ids (grou_id_list : list json)
           (rf : remote) : M (list json) :=
  reraising (group_id_loop grou_id_list rf).

(** The outer loop of [get_device_ids_from_group_names]. *)
Fixpoint name_loop (grp_name_list : list string) (grp_list_resp : json)
  : M (list json) :=
  match grp_name_list with
  | [] => ret []
  | name :: rest =>
      groups <- as_list grp_list_resp ;;
      here <- group_loop groups name ;;
      there <- name_loop rest grp_list_resp ;;
      ret (here ++ there)
  end.

Definition get_device_ids_from_group_names (p : params_t) (rf : remote)
  : M (list json) :=
  reraising
    (resp <- invoke_request rf GET group_service_path None ;;
     group_id_list <-
       (if success resp then
          grp_list_resp <- py_item (json_data resp) "value" ;;
          match device_group_names p with
          | Some grp_name_list => name_loop grp_name_list grp_list_resp
          | None => raise (TypeError "'NoneType' object is not iterable")
          end
        else fail_json (Text "Failed to fetch the specified I(device_group_names).")) ;;
     get_device_ids_from_group_ids group_id_list rf).

Definition get_identifiers (rf : remote) (p : params_t)
  : M (list json * string) :=
  match device_ids p with
  | Some ids => ret (map JNum ids, "device_ids")
  | None =>
      match device_group_names p with
      | Some _ =>
          ids <- get_device_ids_from_group_names p rf ;;
          ret (ids, "device_group_names")
      | None =>
          service_tags_mapper <-
            _get_device_id_from_service_tags (device_service_tags p) rf ;;
          ret (map fst service_tags_mapper, "device_service_tags")
      end
  end.

Definition get_baselines_report_by_device_ids (rf : remote) (p : params_t)
  : M json :=
  reraising
    ('(device_ids, identifier) <- get_identifiers rf p ;;
     if match device_ids with [] => false | _ => true end
        || String.eqb identifier "device_ids"
     then
       resp <- invoke_request rf POST baselines_report_by_device_ids_path
                 (Some (JObj [("Ids", JArr device_ids)])) ;;
       ret (json_data resp)
     else
       match assoc identifier
               [("device_group_names",
                 "Device details not available as the group name(s) provided are invalid.");
                ("device_service_tags",
                 "Device details not available as the service tag(s) provided are invalid.")]
       with
       | Some message => fail_json (Text message)
       | None => raise (KeyError identifier)
       end).

Definition get_baseline_compliance_reports (rf : remote) (p : params_t)
  : M json :=
  reraising
    (baseline_id <- get_baseline_id_from_name rf p ;;
     let path := baselines_compliance_report_path (py_str baseline_id) in
     resp <- invoke_request rf GET path None ;;
     if success resp then py_item (json_data resp) "value"
     else ret (JArr [])).

(** [all(not identifer for identifer in [device_ids, device_service_tags,
    device_group_names, baseline_name])]. *)
Definition nothing_given (p : params_t) : bool :=
  negb (nonempty (device_ids p))
  && negb (nonempty (device_service_tags p))
  && negb (nonempty (device_group_names p))
  && negb (truthy (oj (baseline_name p))).

Definition validate_inputs (p : params_t) : M unit :=
  when (nothing_given p)
       (fail_json (Text "one of the following is required: device_ids, device_service_tags, device_group_names, baseline_name to generate device based compliance report.")).

(** The [except] clauses of [main]. *)
Definition main_handlers {A : Type} (body : M A) : M A :=
  fun t =>
    match body t with
    | (Raise (HTTPError b), t') =>
        exit_json (kw_msg_error_failed (Text (exn_str (HTTPError b))) b) t'
    | (Raise (URLError r), t') => fail_json (Text (exn_str (URLError r))) t'
    | (Raise (TypeError w), t') => fail_json (Text (exn_str (TypeError w))) t'
    | other => other
    end.

Definition main (p : params_t) (rf : remote) : M report :=
  main_handlers
    (validate_inputs p ;;;
     data <- match baseline_name p with
             | Some _ => get_baseline_compliance_reports rf p
             | None => get_baselines_report_by_device_ids rf p
             end ;;
     if truthy data then ret (BaselineComplianceInfo data)
     else fail_json (Text "Failed to fetch the compliance baseline information.")).

End Rendering.

(** ** Readers and examples *)

(** [update] on the keys alone: a key that is already there stays where it
    is. *)
Definition add_key (keys : list json) (k : json) : list json :=
  if existsb (fun k' => py_eq k' k) keys then keys else keys ++ [k].

(** A device as [_get_device_id_from_service_tags] reads it: its id, which
    must be hashable, and its service tag. *)
Definition read_device (d : json) : option (json * json) :=
  obind (item d "Id") (fun id =>
  obind (item d "DeviceServiceTag") (fun tag =>
  if hashable id then Some (id, tag) else None)).

(** The ids of the devices that carry one of the tags, in the order of the
    device list, each once. *)
Definition tagged_ids (tags : list string) (devices : list (json * json))
  : list json :=
  fold_left add_key
    (map fst (filter (fun d => py_in (snd d) (map JStr tags)) devices)) [].

(** A group as [get_device_ids_from_group_names] reads it: its name and its
    id. *)
Definition read_group (g : json) : option (json * json) :=
  obind (item g "Name") (fun n =>
  obind (item g "Id") (fun id => Some (n, id))).

(** The group ids a list of names resolves to: for every name, in order, the
    id of the first group with that name, if there is one. *)
Definition group_ids (names : list string) (groups : list (json * json))
  : list json :=
  flat_map (fun name =>
              match find (fun g => eq_str (fst g) name) groups with
              | Some g => [snd g]
              | None => []
              end) names.

(** The request for the devices of a group. *)
Definition group_request (py_str : json -> string) (group_id : json)
  : request :=
  mkRequest GET (group_id_path (py_str group_id)) None.

(** The ids of the devices of a group, when the group can be read. *)
Definition read_members (py_str : json -> string) (rf : remote)
           (group_id : json) : option (list json) :=
  obind (get_resp rf (group_id_path (py_str group_id))) (fun resp =>
  if success resp then
    obind (item (json_data resp) "value") (fun v =>
    match v with
    | JArr l => traverse (fun d => item d "Id") l
    | _ => None
    end)
  else None).

(** A baseline, group or device that is not the one looked for: it has the
    key and another value under it. *)
Definition other (k : string) (wanted : string) (entry : json) : bool :=
  match item entry k with
  | Some v => negb (eq_str v wanted)
  | None => false
  end.

(** The digits of a number. *)
Fixpoint digits (u : Decimal.uint) : string :=
  match u with
  | Decimal.Nil => ""
  | Decimal.D0 u => String "0" (digits u)
  | Decimal.D1 u => String "1" (digits u)
  | Decimal.D2 u => String "2" (digits u)
  | Decimal.D3 u => String "3" (digits u)
  | Decimal.D4 u => String "4" (digits u)
  | Decimal.D5 u => String "5" (digits u)
  | Decimal.D6 u => String "6" (digits u)
  | Decimal.D7 u => String "7" (digits u)
  | Decimal.D8 u => String "8" (digits u)
  | Decimal.D9 u => String "9" (digits u)
  end.

(** [str] on the values the examples use: numbers in decimal, strings as
    they are. *)
Definition plain_str (v : json) : string :=
  match v with
  | JNum n =>
      match Z.to_int n with
      | Decimal.Pos u => digits u
      | Decimal.Neg u => "-" ++ digits u
      end
  | JStr s => s
  | JBool true => "True"
  | JBool false => "False"
  | _ => "None"
  end.

Definition baseline (name : string) (id : Z) : json :=
  JObj [("Id", JNum id); ("Name", JStr name)].

Definition device (id : Z) (tag : string) : json :=
  JObj [("Id", JNum id); ("DeviceServiceTag", JStr tag)].

Definition group (name : string) (id : Z) : json :=
  JObj [("Id", JNum id); ("Name", JStr name)].

Definition values (l : list json) : reply := ok (JObj [("value", JArr l)]).

(** An appliance with two baselines, three devices and two groups; the
    first baseline has one compliance report, the second none. *)
Definition appliance : remote :=
  serve [(GET, base_line_path,
          values [baseline "baseline1" 8; baseline "baseline2" 9]);
         (GET, baselines_compliance_report_path "8",
          values [JObj [("DeviceId", JNum 11603);
                        ("ComplianceStatus", JStr "OK")]]);
         (GET, baselines_compliance_report_path "9", values []);
         (GET, device_is_list_path,
          values [device 11603 "MXL1234"; device 11604 "MXL4567";
                  device 11605 "PQR8910"]);
         (GET, group_service_path,
          values [group "Servers" 1010; group "Chassis" 1020]);
         (GET, group_id_path "1010",
          values [device 11603 "MXL1234"; device 11604 "MXL4567"]);
         (GET, group_id_path "1020", values [device 11605 "PQR8910"]);
         (POST, baselines_report_by_device_ids_path,
          ok (JArr [JObj [("BaselineName", JStr "baseline1")]]))].

End Ome.

(* ================================================================== *)
(** * Proofs *)
(* ================================================================== *)

Arguments RAID_ACTION_URI : simpl never.
Arguments CONTROLLER_URI : simpl never.
Arguments VOLUME_URI : simpl never.
Arguments PD_URI : simpl never.
Arguments JOB_URI_OEM : simpl never.
Arguments CONTROLLERS_URI : simpl never.
Arguments SETTINGS_URI : simpl never.
Arguments split_last : simpl never.
Arguments volume_uri_of : simpl never.
Arguments eq_str : simpl never.
Arguments in_strs : simpl never.

(* ------------------------------------------------------------------ *)
(** ** Running the monad on resources that resolve *)

Lemma obind_some {A B : Type} (o : option A) (f : A -> option B) (b : B) :
  obind o f = Some b -> exists a, o = Some a /\ f a = Some b.
Proof.
  destruct o as [a|]; simpl; intros H; [exists a; auto | discriminate].
Qed.

Lemma run_get (rf : remote) (uri : string) (r : response) (t : trace) :
  get_resp rf uri = Some r ->
  invoke_request rf GET uri None t = (Ret r, mkRequest GET uri None :: t).
Proof.
  unfold get_resp, invoke_request. destruct (rf GET uri None); intros H;
    inversion H; reflexivity.
Qed.

Lemma run_py_get (d : json) (k : string) (v : json) (t : trace) :
  field d k = Some v -> py_get d k t = (Ret v, t).
Proof.
  destruct d; simpl; intros H; inversion H; reflexivity.
Qed.

Lemma run_py_item (d : json) (k : string) (v : json) (t : trace) :
  item d k = Some v -> py_item d k t = (Ret v, t).
Proof.
  destruct d; simpl; intros H; try discriminate.
  unfold py_item. rewrite H. reflexivity.
Qed.

Lemma run_check_id_exists (rf : remote) (k : string) (cid : option string)
      (r : response) (t : trace) :
  controller_found rf cid = Some r ->
  check_id_exists rf k cid CONTROLLER_URI t
  = (Ret tt, mkRequest GET (CONTROLLER_URI SYSTEM_ID (fmt_opt cid)) None :: t)
  /\ get_resp rf (CONTROLLER_URI SYSTEM_ID (fmt_opt cid)) = Some r.
Proof.
  unfold controller_found. intros H.
  apply obind_some in H. destruct H as [r' [Hg Hs]].
  destruct (success r') eqn:E; inversion Hs; subst.
  split; [|assumption].
  unfold check_id_exists, try_http, bind.
  rewrite (run_get _ _ _ _ Hg). rewrite E. reflexivity.
Qed.

(** Destructs the chain of readers of a [read_snapshot] hypothesis. *)
Ltac read_chain H :=
  repeat match type of H with
         | obind _ _ = Some _ =>
             let a := fresh "x" in
             let Ha := fresh "R" in
             apply obind_some in H; destruct H as [a [Ha H]]
         end.

(** Runs the head of a [bind] with a reader fact from the context. *)
Ltac mrun :=
  repeat (unfold bind at 1;
          first
            [ erewrite run_get by eassumption
            | erewrite run_py_get by eassumption
            | erewrite run_py_item by eassumption ];
          cbv beta iota).

(* ------------------------------------------------------------------ *)
(** ** The handlers against the idempotency table *)

Lemma requests_command p v :
  requests p v = true ->
  command p = Some (command_name v) /\ carries v p = true.
Proof.
  unfold requests, cmd_is. intros H. apply andb_prop in H. destruct H as [H1 H2].
  split; [|exact H2].
  destruct (command p); [|discriminate]. apply String.eqb_eq in H1. congruence.
Qed.

Lemma eq_str_inv v s : eq_str v s = true -> v = JStr s.
Proof.
  destruct v; simpl; try discriminate. intros H. apply String.eqb_eq in H. congruence.
Qed.

Lemma bind_ret_l {A B : Type} (a : A) (k : A -> M B) (t : trace) :
  bind (ret a) k t = k a t.
Proof. reflexivity. Qed.

Lemma ctrl_key_verdict v module rf s :
  key_variant v = true ->
  command (params module) = Some (command_name v) ->
  read_snapshot v (params module) rf = Some s ->
  verdict v (params module) (check_mode module) s (ctrl_key module rf []).
Proof.
  intros Hv Hc Hs.
  assert (exists r ss kid,
      s = Controller ss kid
      /\ controller_found rf (controller_id (params module)) = Some r
      /\ field (json_data r) "SecurityStatus" = Some ss
      /\ field (json_data r) "KeyID" = Some kid) as (r & ss & kid & -> & R & R1 & R2).
  { destruct v; try discriminate; simpl in Hs; read_chain Hs; inversion Hs; eauto 10. }
  clear Hs.
  destruct (run_check_id_exists rf "controller_id" _ _ [] R) as [E1 E2].
  remember (ctrl_key module rf []) as res eqn:Hres.
  unfold ctrl_key in Hres. unfold bind at 1 in Hres. rewrite E1 in Hres.
  cbv beta iota in Hres.
  unfold bind at 1 in Hres. erewrite run_get in Hres by eassumption. cbv beta iota in Hres.
  unfold bind at 1 in Hres. erewrite run_py_get in Hres by eassumption. cbv beta iota in Hres.
  assert (G : guards_pass v (Controller ss kid) = negb (eq_str ss "EncryptionNotCapable")).
  { destruct v; try discriminate; reflexivity. }
  unfold verdict. rewrite G.
  destruct (eq_str ss "EncryptionNotCapable") eqn:Enc.
  - (* the controller does not support encryption *)
    subst res. simpl.
    repeat split; try discriminate.
    destruct v; try discriminate; reflexivity.
  - unfold when at 1 in Hres. unfold bind at 1 in Hres. unfold ret at 1 in Hres.
    cbv beta iota in Hres.
    unfold bind at 1 in Hres. erewrite run_py_get in Hres by eassumption. cbv beta iota in Hres.
    rewrite Hc in Hres.
    destruct v; try discriminate; simpl in Hres |- *;
      (split; [discriminate|]);
      repeat split; intros; subst res;
      repeat match goal with
             | H : negb _ = true |- _ => apply negb_true_iff in H
             | H : is_none _ = _ |- _ => rewrite H
             | H : eq_str _ _ = _ |- _ => rewrite H
             | H : check_mode _ = _ |- _ => rewrite H
             | H : false = true |- _ => discriminate H
             end; simpl;
      try reflexivity; try discriminate;
      try (destruct (check_mode module); reflexivity).
    all: unfold bind, ret, invoke_request, job_of_location;
      try destruct (String.eqb (mode _) "LKM");
      match goal with
      | |- context [?f POST ?u ?d] =>
          destruct (f POST u d) as [resp| |]; simpl;
          try destruct (assoc "Location" (headers resp)); simpl
      end;
      try discriminate; try (eexists; reflexivity).
Qed.

(** Closes a goal about a handler that has reached its POST. *)
Ltac post_tail :=
  unfold bind, ret, invoke_request, job_of_location;
  match goal with
  | |- context [?f POST ?u ?d] =>
      destruct (f POST u d) as [resp| |]; simpl;
      try destruct (assoc "Location" (headers resp)); simpl
  end;
  try discriminate; try (eexists; reflexivity).

(** Uses the boolean facts of the context to settle the conditions of a
    handler. *)
Ltac settle :=
  repeat match goal with
         | H : negb _ = true |- _ => apply negb_true_iff in H
         | H : negb _ = false |- _ => apply negb_false_iff in H
         | H : false = true |- _ => discriminate H
         | H : true = false |- _ => discriminate H
         | H : ?b = true |- context [?b] => rewrite H
         | H : ?b = false |- context [?b] => rewrite H
         end;
  rewrite ?andb_false_r, ?andb_true_r, ?orb_false_r, ?orb_true_r;
  cbn [andb orb negb];
  rewrite ?andb_false_r, ?andb_true_r, ?orb_false_r, ?orb_true_r.

Lemma ctrl_reset_config_verdict module rf s :
  command (params module) = Some (command_name ResetConfig) ->
  read_snapshot ResetConfig (params module) rf = Some s ->
  verdict ResetConfig (params module) (check_mode module) s
          (ctrl_reset_config module rf []).
Proof.
  intros Hc Hs. simpl in Hs. read_chain Hs. inversion Hs; subst s; clear Hs.
  destruct (run_check_id_exists rf "controller_id" _ _ [] R) as [E1 _].
  remember (ctrl_reset_config module rf []) as res eqn:Hres.
  unfold ctrl_reset_config in Hres. unfold bind at 1 in Hres.
  rewrite E1 in Hres. cbv beta iota in Hres.
  unfold bind at 1 in Hres. erewrite run_get in Hres by eassumption.
  cbv beta iota in Hres.
  unfold bind at 1 in Hres. erewrite run_py_get in Hres by eassumption.
  cbv beta iota in Hres. rewrite Hc in Hres.
  unfold verdict; simpl.
  split; [discriminate|].
  repeat split; intros; subst res; settle; simpl;
    try reflexivity; try (destruct (check_mode module); reflexivity).
  all: post_tail.
Qed.

Lemma in_strs_none hs l :
  eq_str hs "None" = true -> str_in_list "None" l = false -> in_strs hs l = false.
Proof.
  intros H. apply eq_str_inv in H. subst hs.
  unfold in_strs, str_in_list, eq_str. simpl.
  induction l as [|a l IH]; simpl; [reflexivity|].
  intros E. apply orb_false_iff in E. destruct E as [E1 E2].
  rewrite E1. simpl. apply IH. exact E2.
Qed.

Lemma in_strs_not_none hs :
  in_strs hs ["Dedicated"; "Global"] = true -> eq_str hs "None" = false.
Proof.
  unfold in_strs. simpl. rewrite orb_false_r. intros H.
  apply orb_prop in H. destruct H as [H|H]; apply eq_str_inv in H; subst; reflexivity.
Qed.

Lemma hot_spare_config_verdict v module rf s :
  spare_variant v = true ->
  requests (params module) v = true ->
  read_snapshot v (params module) rf = Some s ->
  verdict v (params module) (check_mode module) s (hot_spare_config module rf []).
Proof.
  intros Hv Hq Hs. apply requests_command in Hq. destruct Hq as [Hc _].
  assert (exists d ds r hs,
      target (params module) = Some (d :: ds) /\ s = Drive hs
      /\ get_resp rf (PD_URI (split_last ":" d) d) = Some r
      /\ field (json_data r) "HotspareType" = Some hs)
    as (d & ds & r & hs & Ht & -> & R & R1).
  { destruct v; try discriminate; simpl in Hs;
      destruct (target (params module)) as [[|d ds]|]; try discriminate;
      read_chain Hs; inversion Hs; eauto 10. }
  clear Hs.
  remember (hot_spare_config module rf []) as res eqn:Hres.
  unfold hot_spare_config in Hres. rewrite Ht in Hres.
  unfold bind at 1 in Hres. simpl py_first in Hres. unfold ret at 1 in Hres.
  cbv beta iota in Hres.
  unfold bind at 1, try_http at 1 in Hres. erewrite run_get in Hres by eassumption.
  cbv beta iota in Hres.
  unfold bind at 1 in Hres. erewrite run_py_get in Hres by eassumption.
  cbv beta iota in Hres. rewrite Hc in Hres.
  unfold verdict.
  destruct v; try discriminate; simpl in Hres |- *;
    (split; [discriminate|]);
    repeat split; intros; subst res;
    repeat match goal with
           | H : in_strs _ _ = true |- _ =>
               rewrite H; apply in_strs_not_none in H
           | H : eq_str ?hs "None" = true |- _ =>
               rewrite (in_strs_none hs ["Dedicated"; "Global"] H eq_refl)
           end;
    settle; simpl;
    try reflexivity; try (destruct (check_mode module); reflexivity).
  all: post_tail.
Qed.

Lemma run_raid_status rf d s t :
  read_raid_status rf d = Some s ->
  (pd_resp <- invoke_request rf GET (PD_URI (split_last ":" d) d) None ;;
   raid_status_of pd_resp) t
  = (Ret s, mkRequest GET (PD_URI (split_last ":" d) d) None :: t).
Proof.
  unfold read_raid_status. intros H. read_chain H.
  unfold raid_status_of. mrun. erewrite run_py_item by eassumption. reflexivity.
Qed.

Lemma change_pd_status_verdict v module rf s :
  pd_state_variant v = true ->
  requests (params module) v = true ->
  read_snapshot v (params module) rf = Some s ->
  verdict v (params module) (check_mode module) s (change_pd_status module rf []).
Proof.
  intros Hv Hq Hs. apply requests_command in Hq. destruct Hq as [Hc _].
  assert (exists d ds x,
      target (params module) = Some (d :: ds) /\ s = DriveStates [x]
      /\ read_raid_status rf d = Some x)
    as (d & ds & x & Ht & -> & R).
  { destruct v; try discriminate; simpl in Hs;
      destruct (target (params module)) as [[|d ds]|]; try discriminate;
      read_chain Hs; inversion Hs; eauto 10. }
  clear Hs.
  remember (change_pd_status module rf []) as res eqn:Hres.
  unfold change_pd_status in Hres. rewrite Ht in Hres.
  unfold bind at 1 in Hres. simpl py_first in Hres. unfold ret at 1 in Hres.
  cbv beta iota in Hres.
  unfold bind at 1, try_http at 1 in Hres.
  rewrite (run_raid_status _ _ _ _ R) in Hres.
  cbv beta iota in Hres. rewrite Hc in Hres.
  unfold verdict.
  destruct v; try discriminate; simpl in Hres |- *;
    rewrite ?andb_true_r in *;
    (split; [discriminate|]);
    repeat split; intros; subst res;
    settle; simpl;
    try reflexivity; try (destruct (check_mode module); reflexivity).
  all: post_tail.
Qed.

(* ------------------------------------------------------------------ *)
(** ** Loops over resources that resolve *)

Lemma for_collect_traverse {A B : Type} (read : A -> option B) (f : A -> M B) :
  (forall a b t, read a = Some b ->
                 exists t', f a t = (Ret b, t') /\ posts t' = posts t) ->
  forall l bs t, traverse read l = Some bs ->
                 exists t', for_collect l f t = (Ret bs, t') /\ posts t' = posts t.
Proof.
  intros Hf. induction l as [|a l IH]; simpl; intros bs t H.
  - inversion H. exists t. split; reflexivity.
  - read_chain H. inversion H; subst bs.
    destruct (Hf a x t R) as (t1 & E1 & P1).
    destruct (IH x0 t1 R0) as (t2 & E2 & P2).
    exists t2. split; [|congruence].
    unfold bind at 1. rewrite E1. unfold bind at 1. rewrite E2. reflexivity.
Qed.

Lemma count_forallb (l : list json) (s : string) :
  Nat.eqb (length l) (count_str l s) = forallb (fun x => eq_str x s) l.
Proof.
  unfold count_str.
  assert (L : forall l', length (filter (fun v => eq_str v s) l') <= length l').
  { induction l' as [|a l' IH]; simpl; [lia|]. destruct (eq_str a s); simpl; lia. }
  induction l as [|a l IH]; [reflexivity|].
  cbn [length filter forallb]. destruct (eq_str a s); cbn [length andb].
  - exact IH.
  - apply Nat.eqb_neq. specialize (L l). lia.
Qed.

Lemma count_existsb (l : list json) (s : string) :
  Nat.ltb 0 (count_str l s) = existsb (fun x => eq_str x s) l.
Proof.
  unfold count_str. induction l as [|a l IH]; simpl; [reflexivity|].
  destruct (eq_str a s); simpl; [reflexivity|exact IH].
Qed.

Lemma forallb_not_existsb (l : list json) (a b : string) :
  String.eqb a b = false ->
  forallb (fun x => eq_str x a) l = true ->
  existsb (fun x => eq_str x b) l = false.
Proof.
  intros Hab. induction l as [|x l IH]; simpl; [reflexivity|].
  intros H. apply andb_prop in H. destruct H as [H1 H2].
  apply eq_str_inv in H1. subst x.
  unfold eq_str at 1. simpl. rewrite Hab. simpl. apply IH. exact H2.
Qed.

Lemma existsb_not_forallb (l : list json) (a b : string) :
  String.eqb a b = false ->
  existsb (fun x => eq_str x b) l = true ->
  forallb (fun x => eq_str x a) l = false.
Proof.
  intros Hab H. destruct (forallb (fun x => eq_str x a) l) eqn:E; [|reflexivity].
  rewrite (forallb_not_existsb l a b Hab E) in H. discriminate.
Qed.

Lemma convert_raid_status_verdict v module rf s :
  convert_variant v = true ->
  requests (params module) v = true ->
  read_snapshot v (params module) rf = Some s ->
  verdict v (params module) (check_mode module) s
          (convert_raid_status module rf []).
Proof.
  intros Hv Hq Hs. apply requests_command in Hq. destruct Hq as [Hc _].
  assert (exists l ss,
      target (params module) = Some l /\ s = DriveStates ss
      /\ read_raid_statuses rf l = Some ss)
    as (l & ss & Ht & -> & R).
  { destruct v; try discriminate; simpl in Hs;
      destruct (target (params module)) as [l|]; try discriminate;
      read_chain Hs; inversion Hs; eauto 10. }
  clear Hs.
  remember (convert_raid_status module rf []) as res eqn:Hres.
  unfold convert_raid_status in Hres. rewrite Ht in Hres.
  unfold bind at 1 in Hres. unfold ret at 1 in Hres. cbv beta iota in Hres.
  unfold bind at 1 in Hres.
  match type of Hres with
  | context [for_collect l ?f []] =>
      destruct (for_collect_traverse (read_raid_status rf) f) with (l := l) (bs := ss) (t := @nil request)
        as (t1 & E1 & P1);
      [ intros a b t Ha; unfold try_http; rewrite (run_raid_status _ _ _ _ Ha);
        eexists; split; reflexivity
      | exact R
      | rewrite E1 in Hres ]
  end.
  cbv beta iota in Hres. rewrite Hc in Hres.
  rewrite !count_forallb, !count_existsb in Hres.
  simpl in P1.
  unfold verdict.
  destruct v; try discriminate; simpl in Hres |- *;
    (split; [discriminate|]);
    repeat split; intros; subst res;
    repeat match goal with
           | H : forallb (fun x => eq_str x "Ready") _ = true |- _ =>
               rewrite H; apply (forallb_not_existsb _ "Ready" "NonRAID" eq_refl) in H
           | H : forallb (fun x => eq_str x "NonRAID") _ = true |- _ =>
               rewrite H; apply (forallb_not_existsb _ "NonRAID" "Ready" eq_refl) in H
           | H : existsb (fun x => eq_str x "NonRAID") _ = true |- _ =>
               rewrite H; apply (existsb_not_forallb _ "Ready" "NonRAID" eq_refl) in H
           | H : existsb (fun x => eq_str x "Ready") _ = true |- _ =>
               rewrite H; apply (existsb_not_forallb _ "NonRAID" "Ready" eq_refl) in H
           end;
    settle; simpl;
    try reflexivity; try assumption;
    try (destruct (check_mode module); simpl; first [reflexivity | assumption]).
  all: unfold bind, ret, invoke_request, job_of_location;
    match goal with
    | |- context [?f POST ?u ?d] =>
        destruct (f POST u d) as [resp| |]; simpl;
        try destruct (assoc "Location" (headers resp)); simpl
    end;
    try discriminate; rewrite ?P1; try (eexists; reflexivity).
Qed.

Lemma for_each_traverse {A B : Type} (read : A -> option B) (ok : B -> bool)
      (o : outcome) (f : A -> M unit) :
  (forall a b t, read a = Some b ->
                 exists t', f a t = ((if ok b then Ret tt else Exit o), t')
                            /\ posts t' = posts t) ->
  forall l bs t, traverse read l = Some bs ->
                 exists t', for_each l f t
                            = ((if forallb ok bs then Ret tt else Exit o), t')
                            /\ posts t' = posts t.
Proof.
  intros Hf. induction l as [|a l IH]; simpl; intros bs t H.
  - inversion H. exists t. split; reflexivity.
  - read_chain H. inversion H; subst bs.
    destruct (Hf a x t R) as (t1 & E1 & P1).
    unfold bind at 1. rewrite E1. simpl forallb.
    destruct (ok x); simpl.
    + destruct (IH x0 t1 R0) as (t2 & E2 & P2).
      exists t2. split; [exact E2 | congruence].
    + exists t1. split; [reflexivity | exact P1].
Qed.

Lemma link_of_item disk link :
  link_of disk = Some link -> item disk "@odata.id" = Some (JStr link).
Proof.
  unfold link_of. destruct (item disk "@odata.id") as [[]|]; try discriminate.
  intros H. inversion H. reflexivity.
Qed.

(** One turn of the loop of [lock_virtual_disk] over the member drives. *)
Lemma run_ability rf disk a t :
  read_ability rf disk = Some a ->
  exists t',
    (drive_link <- py_item disk "@odata.id" ;;
     drive_link <- as_uri drive_link ;;
     drive_resp <- invoke_request rf GET drive_link None ;;
     encryption_ability <- py_get (json_data drive_resp) "EncryptionAbility" ;;
     when (negb (eq_str encryption_ability "SelfEncryptingDrive"))
          (fail_json (Text PHYSICAL_DISK_ERR))) t
    = ((if eq_str a "SelfEncryptingDrive" then Ret tt
        else Exit (kw_msg_failed (Text PHYSICAL_DISK_ERR))), t')
    /\ posts t' = posts t.
Proof.
  unfold read_ability. intros H. read_chain H. apply link_of_item in R.
  unfold bind at 1. erewrite run_py_item by eassumption. cbv beta iota.
  unfold bind at 1. simpl as_uri. unfold ret at 1. cbv beta iota.
  mrun. eexists. split.
  - destruct (eq_str a "SelfEncryptingDrive"); reflexivity.
  - reflexivity.
Qed.

Lemma linked_drives_inv d drives :
  linked_drives d = Some drives ->
  exists links, field d "Links" = Some links
    /\ ((truthy links = true /\ field links "Drives" = Some (JArr drives))
        \/ (truthy links = false /\ drives = [])).
Proof.
  unfold linked_drives. intros H. read_chain H. exists x. split; [exact R|].
  destruct (truthy x).
  - left. read_chain H. destruct x0; try discriminate. inversion H; subst. auto.
  - right. inversion H. auto.
Qed.

Lemma lock_virtual_disk_verdict module rf s :
  requests (params module) LockVirtualDisk = true ->
  read_snapshot LockVirtualDisk (params module) rf = Some s ->
  verdict LockVirtualDisk (params module) (check_mode module) s
          (lock_virtual_disk module rf []).
Proof.
  intros Hq Hs. apply requests_command in Hq. destruct Hq as [Hc _].
  simpl in Hs.
  destruct (volume_id (params module)) as [[|v0 vs]|] eqn:Hvol; try discriminate.
  read_chain Hs. inversion Hs; subst s; clear Hs.
  rename x0 into r, x1 into drives, x2 into abl.
  destruct (run_check_id_exists rf "controller_id" _ _ [] R) as [E1 _].
  apply linked_drives_inv in R1. destruct R1 as (links & L1 & L2).
  remember (lock_virtual_disk module rf []) as res eqn:Hres.
  unfold lock_virtual_disk in Hres. rewrite Hvol in Hres.
  unfold bind at 1 in Hres. simpl py_first in Hres. unfold ret at 1 in Hres.
  cbv beta iota in Hres.
  unfold bind at 1 in Hres. rewrite E1 in Hres. cbv beta iota in Hres.
  unfold bind at 1, try_http at 1 in Hres.
  unfold bind at 1 in Hres.
  change (VOLUME_URI SYSTEM_ID (split_last ":" v0) ++ "/" ++ v0)%string
    with (volume_uri_of v0) in Hres.
  erewrite run_get in Hres by eassumption. cbv beta iota in Hres.
  unfold bind at 1 in Hres. erewrite run_py_get in Hres by eassumption.
  cbv beta iota in Hres.
  unfold bind at 1 in Hres.
  (* the loop over the member drives *)
  set (t0 := [mkRequest GET (volume_uri_of v0) None;
              mkRequest GET (CONTROLLER_URI SYSTEM_ID
                                            (fmt_opt (Some (split_last ":" v0)))) None])
    in Hres.
  assert (Loop : exists t1,
             posts t1 = [] /\
             when (truthy links)
               (links' <- py_get (json_data r) "Links" ;;
                drives <- py_get links' "Drives" ;;
                drives <- as_list drives ;;
                for_each drives (fun disk =>
                  drive_link <- py_item disk "@odata.id" ;;
                  drive_link <- as_uri drive_link ;;
                  drive_resp <- invoke_request rf GET drive_link None ;;
                  encryption_ability <-
                    py_get (json_data drive_resp) "EncryptionAbility" ;;
                  when (negb (eq_str encryption_ability "SelfEncryptingDrive"))
                       (fail_json (Text PHYSICAL_DISK_ERR)))) t0
             = ((if forallb (fun a => eq_str a "SelfEncryptingDrive") abl
                 then Ret tt
                 else Exit (kw_msg_failed (Text PHYSICAL_DISK_ERR))), t1)).
  { destruct L2 as [[Tl Dl]|[Tl ->]]; rewrite Tl; unfold when.
    - mrun. unfold bind at 1. simpl as_list. unfold ret at 1. cbv beta iota.
      match goal with
      | |- context [for_each drives ?f t0] =>
          destruct (for_each_traverse (read_ability rf)
                      (fun a => eq_str a "SelfEncryptingDrive")
                      (kw_msg_failed (Text PHYSICAL_DISK_ERR)) f)
            with (l := drives) (bs := abl) (t := t0) as (t1 & E & P);
          [ intros a b t Ha; apply run_ability; exact Ha | exact R2 | ]
      end.
      exists t1. split; [exact P | exact E].
    - simpl in R2. inversion R2. exists t0. split; reflexivity. }
  destruct Loop as (t1 & P1 & ELoop). rewrite ELoop in Hres. clear ELoop.
  unfold verdict. cbn [guards_pass].
  destruct (forallb (fun a => eq_str a "SelfEncryptingDrive") abl).
  2:{ subst res. simpl. repeat split; try discriminate; try assumption. }
  cbv beta iota in Hres.
  split; [discriminate|].
  destruct (read_lock_status (json_data r)) as [ls|] eqn:Els;
    [|repeat split; simpl; discriminate].
  unfold read_lock_status in Els. read_chain Els.
  do 4 (unfold bind at 1 in Hres; erewrite run_py_get in Hres by eassumption;
        cbv beta iota in Hres).
  simpl at_target. simpl would_change.
  assert (U : eq_str ls "Unlocked" = true -> eq_str ls "Locked" = false).
  { intros H. apply eq_str_inv in H. subst. reflexivity. }
  assert (L : eq_str ls "Locked" = true -> eq_str ls "Unlocked" = false).
  { intros H. apply eq_str_inv in H. subst. reflexivity. }
  repeat split; intros; subst res;
    repeat match goal with
           | H : eq_str ls "Unlocked" = true |- _ => rewrite H; apply U in H
           | H : eq_str ls "Locked" = true |- _ => rewrite H; apply L in H
           end;
    settle; simpl; try reflexivity; try assumption.
  all: unfold bind, ret, invoke_request, job_of_location;
    match goal with
    | |- context [?f POST ?u ?d] =>
        destruct (f POST u d) as [resp| |]; simpl;
        try destruct (assoc "Location" (headers resp)); simpl
    end;
    try discriminate; rewrite ?P1; try (eexists; reflexivity).
Qed.

Lemma run_member_name disk name t :
  read_member_name disk = Some name ->
  exists t',
    (link <- py_item disk "@odata.id" ;;
     link <- as_str link ;;
     ret (split_last "/" link)) t = (Ret name, t')
    /\ posts t' = posts t.
Proof.
  unfold read_member_name. intros H. read_chain H. inversion H; subst name.
  apply link_of_item in R.
  unfold bind at 1. erewrite run_py_item by eassumption. cbv beta iota.
  exists t. split; reflexivity.
Qed.

Lemma run_current_pd_of (r : response) drives names t :
  linked_drives (json_data r) = Some drives ->
  read_member_names drives = Some names ->
  exists t', current_pd_of r t = (Ret names, t') /\ posts t' = posts t.
Proof.
  intros L R. apply linked_drives_inv in L. destruct L as (links & L1 & L2).
  unfold current_pd_of. unfold bind at 1. erewrite run_py_get by eassumption.
  cbv beta iota.
  destruct L2 as [[Tl Dl]|[Tl ->]]; rewrite Tl.
  - mrun. unfold bind at 1. simpl as_list. unfold ret at 1. cbv beta iota.
    eapply for_collect_traverse; [|exact R].
    intros a b t1 Ha. apply run_member_name. exact Ha.
  - inversion R. exists t. split; reflexivity.
Qed.

Lemma run_oce_min_pd rt m t :
  min_increment rt = Some m -> oce_min_pd rt t = (Ret m, t).
Proof.
  destruct rt; simpl; try discriminate. intros H. unfold oce_min_pd.
  rewrite H. reflexivity.
Qed.

(* ------------------------------------------------------------------ *)
(** ** Computations that issue no request *)

Create HintDb quiet.

Lemma quiet_ret {A : Type} (a : A) : quiet (ret a).
Proof. intros t. reflexivity. Qed.

Lemma quiet_raise {A : Type} (e : exn) : quiet (@raise A e).
Proof. intros t. reflexivity. Qed.

Lemma quiet_exit_json {A : Type} (o : outcome) : quiet (@exit_json A o).
Proof. intros t. reflexivity. Qed.

Lemma quiet_bind {A B : Type} (m : M A) (k : A -> M B) :
  quiet m -> (forall a, quiet (k a)) -> quiet (bind m k).
Proof.
  intros Hm Hk t. unfold bind. specialize (Hm t).
  destruct (m t) as [[a|o|e] t']; simpl in *; subst; auto. apply Hk.
Qed.

Lemma quiet_when (c : bool) (body : M unit) : quiet body -> quiet (when c body).
Proof. intros H. destruct c; simpl; auto using quiet_ret. Qed.

Lemma quiet_if {A : Type} (c : bool) (m1 m2 : M A) :
  quiet m1 -> quiet m2 -> quiet (if c then m1 else m2).
Proof. destruct c; auto. Qed.

Lemma quiet_py_get d k : quiet (py_get d k).
Proof. destruct d; intros t; reflexivity. Qed.

Lemma quiet_py_get_default d k dflt : quiet (py_get_default d k dflt).
Proof. destruct d; intros t; reflexivity. Qed.

Lemma quiet_py_head v : quiet (py_head v).
Proof. destruct v as [| | |[|c s]|[|x l]|]; intros t; reflexivity. Qed.

Lemma quiet_py_contains c s : quiet (py_contains c s).
Proof. destruct c; intros t; reflexivity. Qed.

#[local] Hint Resolve quiet_ret quiet_raise quiet_exit_json quiet_bind quiet_when
  quiet_if quiet_py_get quiet_py_get_default quiet_py_head quiet_py_contains
  : quiet.

(** A request followed by quiet work, under a quiet handler, leaves exactly
    that request on the trace. *)
Lemma try_http_request {A : Type} rf m uri d (k : response -> M A)
      (h : json -> M A) t :
  (forall resp, quiet (k resp)) -> (forall b, quiet (h b)) ->
  snd (try_http (resp <- invoke_request rf m uri d ;; k resp) h t)
  = mkRequest m uri d :: t.
Proof.
  intros Hk Hh. unfold try_http, bind, invoke_request.
  destruct (rf m uri d) as [resp|b|u]; cbv beta iota.
  - specialize (Hk resp (mkRequest m uri d :: t)).
    destruct (k resp (mkRequest m uri d :: t)) as [[a|o|e] t']; simpl in Hk;
      subst t'; try reflexivity.
    destruct e; try reflexivity. apply Hh.
  - apply Hh.
  - reflexivity.
Qed.

Lemma snd_bind_quiet {A B : Type} (m : M A) (k : A -> M B) t :
  (forall a, quiet (k a)) -> snd (bind m k t) = snd (m t).
Proof.
  intros Hk. unfold bind. destruct (m t) as [[a|o|e] t']; try reflexivity.
  apply Hk.
Qed.

Lemma only_fails_bind {A B : Type} (m : M A) (k : A -> M B) :
  only_fails m -> (forall a, only_fails (k a)) -> only_fails (bind m k).
Proof.
  intros Hm Hk t o. unfold bind. specialize (Hm t).
  destruct (m t) as [[a|o'|e] t']; simpl in *.
  - apply Hk.
  - intros H. inversion H. subst o'. apply Hm. reflexivity.
  - discriminate.
Qed.

Lemma only_fails_py_get d k : only_fails (py_get d k).
Proof. destruct d; intros t o; discriminate. Qed.

Lemma only_fails_py_get_default d k dflt : only_fails (py_get_default d k dflt).
Proof. destruct d; intros t o; discriminate. Qed.

Lemma only_fails_py_head v : only_fails (py_head v).
Proof. destruct v as [| | |[|c s]|[|x l]|]; intros t o; discriminate. Qed.

Lemma only_fails_exit_json {A : Type} (o : outcome) :
  failed o = true -> only_fails (@exit_json A o).
Proof. intros H t o' E. inversion E. subst. exact H. Qed.

Lemma try_http_assoc {A B C : Type} (m : M A) (f : A -> M B) (g : B -> M C)
      (h : json -> M C) (t : trace) :
  try_http (bind (bind m f) g) h t
  = try_http (bind m (fun x => bind (f x) g)) h t.
Proof.
  unfold try_http, bind. destruct (m t) as [[a|o|e] t']; reflexivity.
Qed.

Lemma try_http_bind_ret {A B : Type} (m : M A) (k : A -> M B)
      (h : json -> M B) (t t' : trace) (a : A) :
  m t = (Ret a, t') ->
  try_http (bind m k) h t = try_http (k a) h t'.
Proof.
  intros H. unfold try_http, bind. rewrite H. reflexivity.
Qed.

Lemma try_http_bind_exit {A B : Type} (m : M A) (k : A -> M B)
      (h : json -> M B) (t t' : trace) (o : outcome) :
  m t = (Exit o, t') ->
  try_http (bind m k) h t = (Exit o, t').
Proof.
  intros H. unfold try_http, bind. rewrite H. reflexivity.
Qed.

(** [online_capacity_expansion] by target, run on a volume that resolves. *)
Lemma oce_by_target_run module rf v0 d ds r rt drives names :
  volume_id (params module) = Some [v0] ->
  target (params module) = Some (d :: ds) ->
  get_resp rf (volume_uri_of v0) = Some r ->
  field (json_data r) "RAIDType" = Some rt ->
  linked_drives (json_data r) = Some drives ->
  read_member_names drives = Some names ->
  let add := drives_not_in (d :: ds) names in
  let n := Z.of_nat (length add) in
  let res := online_capacity_expansion module rf [] in
  let t0 := [mkRequest GET (volume_uri_of v0) None] in
  exists t1,
    posts t1 = []
    /\ (in_strs rt ["RAID50"; "RAID60"] = true ->
        res = (Exit (kw_msg_failed (Format OCE_RAID_TYPE_ERR [rt])), t0))
    /\ (in_strs rt ["RAID50"; "RAID60"] = false -> eq_str rt "RAID1" = true ->
        res = (Exit (kw_msg_failed (Text OCE_TARGET_RAID1_ERR)), t0))
    /\ (in_strs rt ["RAID50"; "RAID60"] = false -> eq_str rt "RAID1" = false ->
        n = 0%Z -> res = (Exit no_changes, t1))
    /\ (in_strs rt ["RAID50"; "RAID60"] = false -> eq_str rt "RAID1" = false ->
        n <> 0%Z ->
        forall m, min_increment rt = Some m ->
          res = if Z.eqb (n mod m) 0
                then if check_mode module
                     then (Exit changes_found, t1)
                     else oce_submit rf (Some (oce_target_payload v0 add)) t1
                else (Exit no_changes, t1)).
Proof.
  intros Hvol Ht R R0 R1 R2 add n res t0.
  remember res as res' eqn:Hres. unfold res in Hres. clear res.
  unfold online_capacity_expansion in Hres. rewrite Hvol, Ht in Hres.
  cbn [map length hd Nat.eqb negb when] in Hres.
  unfold bind at 1 in Hres. unfold ret at 1 in Hres.
  cbv beta iota in Hres.
  unfold bind at 1 in Hres. cbn [as_str oj] in Hres. unfold ret at 1 in Hres.
  cbv beta iota in Hres.
  change (VOLUME_URI SYSTEM_ID (split_last ":" v0) ++ "/" ++ v0)%string
    with (volume_uri_of v0) in Hres.
  unfold bind at 1, try_http at 1 in Hres.
  erewrite run_get in Hres by eassumption. cbv beta iota in Hres.
  fold t0 in Hres.
  destruct (run_current_pd_of r drives names t0 R1 R2) as (t1 & Ecur & P1).
  exists t1. split; [exact P1|].
  erewrite try_http_bind_ret in Hres by (eapply run_py_get; eassumption).
  (* the validations *)
  destruct (in_strs rt ["RAID50"; "RAID60"]) eqn:E50.
  { erewrite try_http_bind_exit in Hres by reflexivity.
    repeat split; intros; try discriminate. exact Hres. }
  erewrite try_http_bind_ret in Hres by reflexivity.
  rewrite try_http_assoc in Hres.
  erewrite try_http_bind_ret in Hres by reflexivity.
  rewrite try_http_assoc in Hres.
  destruct (eq_str rt "RAID1") eqn:E1.
  { erewrite try_http_bind_exit in Hres by reflexivity.
    repeat split; intros; try discriminate. exact Hres. }
  erewrite try_http_bind_ret in Hres by reflexivity.
  rewrite try_http_assoc in Hres.
  erewrite try_http_bind_ret in Hres by exact Ecur.
  cbv zeta in Hres.
  fold add in Hres.
  rewrite try_http_assoc in Hres.
  assert (Hne : match add with [] => false | _ :: _ => true end
                = negb (Z.eqb n 0)).
  { unfold n. destruct add; reflexivity. }
  rewrite Hne in Hres. clear Hne.
  fold n in Hres.
  clearbody add n.
  split; [discriminate|]. split; [discriminate|].
  split.
  - (* nothing to add *)
    intros _ _ En. apply Z.eqb_eq in En. rewrite En in Hres.
    rewrite andb_false_r in Hres. cbn [negb] in Hres.
    erewrite try_http_bind_ret in Hres by reflexivity.
    rewrite try_http_assoc in Hres. cbv beta iota in Hres.
    rewrite try_http_assoc in Hres.
    erewrite try_http_bind_ret in Hres by reflexivity.
    erewrite try_http_bind_exit in Hres by reflexivity.
    exact Hres.
  - intros _ _ En m Em. apply Z.eqb_neq in En. rewrite En in Hres.
    cbn [negb] in Hres. rewrite andb_true_r in Hres.
    destruct (check_mode module) eqn:Ecm.
    + rewrite try_http_assoc in Hres.
      erewrite try_http_bind_ret in Hres by (apply run_oce_min_pd; exact Em).
      erewrite try_http_bind_ret in Hres by reflexivity.
      rewrite try_http_assoc in Hres.
      destruct (Z.eqb (n mod m) 0) eqn:Emod.
      * erewrite try_http_bind_exit in Hres by reflexivity. exact Hres.
      * cbv beta iota in Hres. rewrite try_http_assoc in Hres.
        rewrite try_http_assoc in Hres.
        erewrite try_http_bind_ret in Hres by (apply run_oce_min_pd; exact Em).
        erewrite try_http_bind_ret in Hres by reflexivity.
        rewrite Emod in Hres. cbn [negb] in Hres.
        erewrite try_http_bind_exit in Hres by reflexivity. exact Hres.
    + erewrite try_http_bind_ret in Hres by reflexivity.
      rewrite try_http_assoc in Hres. cbv beta iota in Hres.
      rewrite try_http_assoc in Hres. rewrite try_http_assoc in Hres.
      erewrite try_http_bind_ret in Hres by (apply run_oce_min_pd; exact Em).
      erewrite try_http_bind_ret in Hres by reflexivity.
      destruct (Z.eqb (n mod m) 0) eqn:Emod; cbn [negb] in Hres.
      * erewrite try_http_bind_ret in Hres by reflexivity.
        erewrite try_http_bind_ret in Hres by reflexivity.
        exact Hres.
      * erewrite try_http_bind_exit in Hres by reflexivity. exact Hres.
Qed.

(** Whatever the remote end answers to the expansion request, the handler
    does not report "no changes", and the request is the only POST. *)
Lemma oce_submitted rf d t :
  exit_of (fst (oce_submit rf d t)) <> Some no_changes
  /\ snd (oce_submit rf d t)
     = mkRequest POST (RAID_ACTION_URI SYSTEM_ID "OnlineCapacityExpansion") d :: t.
Proof.
  assert (Hh : forall b, only_fails (oce_http_handler b)).
  { intros b. unfold oce_http_handler.
    repeat (apply only_fails_bind; [|intros ?]);
      auto using only_fails_py_get, only_fails_py_get_default, only_fails_py_head.
    apply only_fails_exit_json. reflexivity. }
  split.
  - unfold oce_submit, try_http, bind, invoke_request, job_of_location.
    destruct (rf POST _ d) as [resp|b|u]; cbv beta iota.
    + destruct (assoc "Location" (headers resp)); discriminate.
    + specialize (Hh b (mkRequest POST
                          (RAID_ACTION_URI SYSTEM_ID "OnlineCapacityExpansion") d
                          :: t)).
      destruct (fst (oce_http_handler b _)) as [a|o|e] eqn:E;
        try discriminate.
      intros H. inversion H. subst o. specialize (Hh _ eq_refl). discriminate Hh.
    + discriminate.
  - unfold oce_submit. apply try_http_request.
    + intros resp. unfold job_of_location.
      destruct (assoc "Location" (headers resp)); auto with quiet.
    + intros b. unfold oce_http_handler. auto 10 with quiet.
Qed.

Lemma oce_by_target_verdict module rf s :
  requests (params module) OnlineCapacityExpansionByTarget = true ->
  read_snapshot OnlineCapacityExpansionByTarget (params module) rf = Some s ->
  verdict OnlineCapacityExpansionByTarget (params module) (check_mode module) s
          (online_capacity_expansion module rf []).
Proof.
  intros Hq Hs. apply requests_command in Hq. destruct Hq as [Hc Hcar].
  simpl in Hs, Hcar.
  destruct (volume_id (params module)) as [[|v0 [|]]|] eqn:Hvol; try discriminate.
  destruct (target (params module)) as [[|d ds]|] eqn:Ht; try discriminate.
  read_chain Hs. inversion Hs; subst s; clear Hs.
  rename x into r, x0 into rt, x1 into drives, x2 into names.
  destruct (oce_by_target_run module rf v0 d ds r rt drives names
              Hvol Ht R R0 R1 R2) as (t1 & P1 & G50 & G1 & Z0 & NZ).
  cbv zeta in G50, G1, Z0, NZ.
  unfold verdict. cbn [guards_pass guard_failure at_target would_change].
  unfold to_add. rewrite Ht.
  remember (drives_not_in (d :: ds) names) as add eqn:Hadd.
  remember (Z.of_nat (length add)) as n eqn:Hn.
  destruct (in_strs rt ["RAID50"; "RAID60"]) eqn:E50.
  { rewrite (G50 eq_refl). simpl. repeat split; discriminate. }
  destruct (eq_str rt "RAID1") eqn:E1.
  { rewrite (G1 eq_refl eq_refl). simpl. repeat split; discriminate. }
  cbn [negb andb]. split; [discriminate|].
  destruct (Z.eqb n 0) eqn:En.
  - apply Z.eqb_eq in En. rewrite (Z0 eq_refl eq_refl En). simpl.
    repeat split; try discriminate; assumption.
  - apply Z.eqb_neq in En. cbn [negb andb orb].
    destruct (min_increment rt) as [m|] eqn:Em;
      [|repeat split; discriminate].
    rewrite (NZ eq_refl eq_refl En m eq_refl).
    destruct (Z.eqb (n mod m) 0); cbn [negb].
    + split; [intros _ H; discriminate H|].
      split; intros _ _ Hcm; rewrite Hcm.
      * split; [reflexivity | assumption].
      * destruct (oce_submitted rf (Some (oce_target_payload v0 add)) t1)
          as [S1 S2].
        split; [exact S1|]. rewrite S2.
        cbn [posts filter is_post method_eqb req_method].
        fold (posts t1). rewrite P1. eexists. reflexivity.
    + repeat split; try discriminate; assumption.
Qed.

(* ------------------------------------------------------------------ *)
(** ** The dispatcher *)

Lemma blink_verdict ext v module rf s :
  blink_variant v = true ->
  requests (params module) v = true ->
  read_snapshot v (params module) rf = Some s ->
  verdict v (params module) (check_mode module) s
          (run (run_command ext module rf)).
Proof.
  intros Hv Hq Hs. apply requests_command in Hq. destruct Hq as [Hc Hcar].
  assert (s = Unobserved) as ->
      by (destruct v; try discriminate; simpl in Hs; congruence).
  clear Hs.
  assert (exists payload,
             target_identify_pattern module rf
             = (when (check_mode module) exit_changes_found ;;;
                invoke_request rf POST
                  (RAID_ACTION_URI SYSTEM_ID (command_name v))
                  (Some (JObj payload)))) as [payload Etip].
  { unfold target_identify_pattern. rewrite Hc. simpl fmt_opt.
    destruct v; try discriminate; simpl in Hcar;
      destruct (target (params module)) as [[|t0 ts]|];
      destruct (volume_id (params module)) as [[|v0 vs]|];
      try discriminate; eexists; reflexivity. }
  remember (run (run_command ext module rf)) as res eqn:Hres.
  unfold run, run_command in Hres. rewrite Hc in Hres.
  assert (Hres' : res =
    (resp <- target_identify_pattern module rf ;;
     when (success resp && Z.eqb (status_code resp) 200)
          (exit_json (kw_msg_changed
                        (Format JOB_COMPLETION [oj (Some (command_name v))]))) ;;;
     ret None) []).
  { destruct v; try discriminate; exact Hres. }
  clear Hres. rewrite Etip in Hres'.
  unfold verdict.
  assert (guards_pass v Unobserved = true) as -> by (destruct v; reflexivity).
  assert (at_target v (params module) Unobserved = false) as ->
      by (destruct v; reflexivity).
  assert (action_of v = command_name v) as ->
      by (destruct v; try discriminate; reflexivity).
  split; [discriminate|]. split; [discriminate|].
  split; intros _ _ Hcm; rewrite Hcm in Hres'; subst res.
  - split; reflexivity.
  - unfold bind, when, ret, invoke_request, exit_json.
    destruct (rf POST _ _) as [resp| |]; simpl;
      try (split; [discriminate | eexists; reflexivity]).
    destruct (success resp && Z.eqb (status_code resp) 200); simpl;
      (split; [discriminate | eexists; reflexivity]).
Qed.

(** The dispatcher of [main] hands the result of a handler through. *)
Lemma verdict_lift {A : Type} v p cm s (h : M A) :
  verdict v p cm s (h []) ->
  verdict v p cm s (run (r <- h ;; ret (Some r))).
Proof.
  unfold verdict, run, bind.
  destruct (h []) as [[a|o|e] t]; simpl; intros V; exact V.
Qed.

(** The handlers refine the idempotency table. *)
Lemma run_command_verdict ext v module rf s :
  dry_run_aware v = true ->
  requests (params module) v = true ->
  read_snapshot v (params module) rf = Some s ->
  verdict v (params module) (check_mode module) s
          (run (run_command ext module rf)).
Proof.
  intros Hv Hq Hs.
  destruct (requests_command _ _ Hq) as [Hc Hcar].
  destruct v; try discriminate;
    try (apply blink_verdict; [reflexivity | assumption | assumption]);
    unfold run_command; rewrite Hc;
    match goal with
    | |- verdict ?v' ?p' ?c' ?s' (run ?m) =>
        let m' := eval cbn [command_name cmd_is cmd_in existsb String.eqb Ascii.eqb
                             Bool.eqb orb andb] in m in
        change (verdict v' p' c' s' (run m'))
    end; cbv beta iota; apply verdict_lift.
  - apply ctrl_reset_config_verdict; assumption.
  - apply hot_spare_config_verdict; [reflexivity | assumption | assumption].
  - apply ctrl_key_verdict; [reflexivity | assumption | assumption].
  - apply ctrl_key_verdict; [reflexivity | assumption | assumption].
  - apply ctrl_key_verdict; [reflexivity | assumption | assumption].
  - apply hot_spare_config_verdict; [reflexivity | assumption | assumption].
  - apply ctrl_key_verdict; [reflexivity | assumption | assumption].
  - apply convert_raid_status_verdict; [reflexivity | assumption | assumption].
  - apply convert_raid_status_verdict; [reflexivity | assumption | assumption].
  - apply change_pd_status_verdict; [reflexivity | assumption | assumption].
  - apply change_pd_status_verdict; [reflexivity | assumption | assumption].
  - apply lock_virtual_disk_verdict; assumption.
  - apply oce_by_target_verdict; assumption.
Qed.

(* ------------------------------------------------------------------ *)
(** ** Claims about the idempotency evaluator *)

(** C1 (as amended).  For every NoOp-capable command and a snapshot that is
    already at the command's target state, the command issues no POST,
    whether or not check mode is on.  It exits with "No changes found to be
    applied." when the snapshot passes the validations the handler performs
    first (the controller supports encryption, every member drive of the
    volume is self-encrypting, the RAID type is not RAID1, RAID50 or
    RAID60); when one of them fails it exits with that validation's
    failure. *)
Theorem noop_at_target_state ext v p cm rf s :
  noop_capable v = true ->
  requests p v = true ->
  read_snapshot v p rf = Some s ->
  at_target v p s = true ->
  let r := run (run_command ext (mkModule p cm) rf) in
  posts (snd r) = []
  /\ (guards_pass v s = true -> exit_of (fst r) = Some no_changes)
  /\ (guards_pass v s = false -> exit_of (fst r) = Some (guard_failure v p s)).
Proof.
  intros Hn Hq Hs Ht r.
  assert (Hd : dry_run_aware v = true) by (destruct v; try discriminate; reflexivity).
  destruct (run_command_verdict ext v (mkModule p cm) rf s Hd Hq Hs)
    as (V1 & V2 & _ & _).
  fold r in V1, V2. simpl params in V1, V2.
  destruct (guards_pass v s).
  - destruct (V2 eq_refl Ht) as [E P].
    split; [exact P|]. split; [intros _; exact E | discriminate].
  - destruct (V1 eq_refl) as [E P].
    split; [exact P|]. split; [discriminate | intros _; exact E].
Qed.

Lemma set_key_again_is_noop :
  let p := request_for "SetControllerKey" (Some controller1) None None None in
  let r := run (run_command plain_ext (mkModule p true) rf_key_assigned) in
  posts (snd r) = []
  /\ (guards_pass SetControllerKey
        (Controller (JStr "SecurityKeyAssigned") (JStr "mykeyid123")) = true ->
      exit_of (fst r) = Some no_changes)
  /\ (guards_pass SetControllerKey
        (Controller (JStr "SecurityKeyAssigned") (JStr "mykeyid123")) = false ->
      exit_of (fst r)
      = Some (guard_failure SetControllerKey p
                (Controller (JStr "SecurityKeyAssigned") (JStr "mykeyid123")))).
Proof.
  exact (noop_at_target_state plain_ext SetControllerKey
           (request_for "SetControllerKey" (Some controller1) None None None)
           true rf_key_assigned
           (Controller (JStr "SecurityKeyAssigned") (JStr "mykeyid123"))
           eq_refl eq_refl eq_refl eq_refl).
Defined.

(** C1 as stated fails: a snapshot at the target state does not always end
    in "no changes".  Removing the key of a controller that cannot encrypt
    (and so has no key), locking a locked volume with a member drive that is
    not self-encrypting, and expanding a RAID1 volume by drives it already
    has all end in a failure. *)
Lemma guard_failure_at_target :
  (let p := request_for "RemoveControllerKey" (Some controller1) None None None in
   let s := Controller (JStr "EncryptionNotCapable") JNull in
   noop_capable RemoveControllerKey = true
   /\ requests p RemoveControllerKey = true
   /\ read_snapshot RemoveControllerKey p rf_not_capable = Some s
   /\ at_target RemoveControllerKey p s = true
   /\ exit_of (fst (run (run_command plain_ext (mkModule p false) rf_not_capable)))
      = Some (kw_msg_failed (Format ENCRYPT_ERR_MSG [JStr controller1]))
   /\ exit_of (fst (run (run_command plain_ext (mkModule p false) rf_not_capable)))
      <> Some no_changes)
  /\ (let p := request_for "LockVirtualDisk" None (Some [volume0]) None None in
      let s := Volume [JStr "SelfEncryptingDrive"; JStr "None"]
                      (Some (JStr "Locked")) in
      noop_capable LockVirtualDisk = true
      /\ requests p LockVirtualDisk = true
      /\ read_snapshot LockVirtualDisk p rf_locked_mixed = Some s
      /\ at_target LockVirtualDisk p s = true
      /\ exit_of (fst (run (run_command plain_ext (mkModule p true) rf_locked_mixed)))
         = Some (kw_msg_failed (Text PHYSICAL_DISK_ERR)))
  /\ (let p := request_for "OnlineCapacityExpansion" None (Some [volume0])
                           (Some [drive0; drive1]) None in
      let s := Expansion (JStr "RAID1") [drive0; drive1] in
      noop_capable OnlineCapacityExpansionByTarget = true
      /\ requests p OnlineCapacityExpansionByTarget = true
      /\ read_snapshot OnlineCapacityExpansionByTarget p rf_raid1 = Some s
      /\ at_target OnlineCapacityExpansionByTarget p s = true
      /\ exit_of (fst (run (run_command plain_ext (mkModule p false) rf_raid1)))
         = Some (kw_msg_failed (Text OCE_TARGET_RAID1_ERR))).
Proof.
  vm_compute. repeat split; discriminate.
Qed.

(** C2 (as amended).  For every command whose handler consults check mode
    (all but OnlineCapacityExpansion by size and SecureErase), with check
    mode on, a snapshot that passes the handler's validations and is in the
    state for which the table prescribes a change: no POST is issued and
    the module exits with "Changes found to be applied." and
    [changed=true]. *)
Theorem dry_run_reports_changes ext v p rf s :
  dry_run_aware v = true ->
  requests p v = true ->
  read_snapshot v p rf = Some s ->
  guards_pass v s = true ->
  would_change v p s = true ->
  let r := run (run_command ext (mkModule p true) rf) in
  posts (snd r) = []
  /\ exit_of (fst r) = Some changes_found
  /\ changed changes_found = true.
Proof.
  intros Hd Hq Hs Hg Hw r.
  destruct (run_command_verdict ext v (mkModule p true) rf s Hd Hq Hs)
    as (_ & _ & V3 & _).
  destruct (V3 Hg Hw eq_refl) as [E P].
  split; [exact P|]. split; [exact E | reflexivity].
Qed.

Lemma assign_spare_dry_run :
  let p := request_for "AssignSpare" None None (Some [drive0]) None in
  let r := run (run_command plain_ext (mkModule p true) (rf_drive "None" "Ready")) in
  posts (snd r) = []
  /\ exit_of (fst r) = Some changes_found
  /\ changed changes_found = true.
Proof.
  exact (dry_run_reports_changes plain_ext AssignSpare
           (request_for "AssignSpare" None None (Some [drive0]) None)
           (rf_drive "None" "Ready") (Drive (JStr "None"))
           eq_refl eq_refl eq_refl eq_refl eq_refl).
Defined.

(** C2 as stated fails: with check mode on and a snapshot that is not at
    the target state, a POST is issued for an expansion by size and for
    SecureErase (which have no dry-run branch), for AssignSpare on a drive
    whose hot-spare type is none of None, Dedicated, Global, for
    ConvertToRAID on a drive that is neither Ready nor NonRAID, and for
    LockVirtualDisk on a volume whose lock status is neither Locked nor
    Unlocked. *)
Lemma check_mode_submits :
  (let p := request_for "OnlineCapacityExpansion" None (Some [volume0]) None
                        (Some 362785%Z) in
   requests p OnlineCapacityExpansionBySize = true
   /\ read_snapshot OnlineCapacityExpansionBySize p rf_raid10
      = Some (Capacity (JStr "RAID10") (JNum 379584512000))
   /\ at_target OnlineCapacityExpansionBySize p
                (Capacity (JStr "RAID10") (JNum 379584512000)) = false
   /\ posts (snd (run (run_command plain_ext (mkModule p true) rf_raid10)))
      = [mkRequest POST (action_path "OnlineCapacityExpansion")
                   (Some (JObj [("TargetFQDD", JStr volume0);
                                ("Size", JNum 362785)]))])
  /\ (let p := request_for "SecureErase" (Some controller1) None
                           (Some [drive0]) None in
      requests p SecureErase = true
      /\ at_target SecureErase p Unobserved = false
      /\ posts (snd (run (run_command plain_ext (mkModule p true) rf_erasable)))
         = [mkRequest POST erase_path (Some (JStr "{}"))])
  /\ (let p := request_for "AssignSpare" None None (Some [drive0]) None in
      requests p AssignSpare = true
      /\ read_snapshot AssignSpare p (rf_drive "Chassis" "Online")
         = Some (Drive (JStr "Chassis"))
      /\ at_target AssignSpare p (Drive (JStr "Chassis")) = false
      /\ posts (snd (run (run_command plain_ext (mkModule p true)
                                      (rf_drive "Chassis" "Online"))))
         = [mkRequest POST (action_path "AssignSpare")
                      (Some (JObj [("TargetFQDD", JStr drive0)]))])
  /\ (let p := request_for "ConvertToRAID" None None (Some [drive0]) None in
      requests p ConvertToRAID = true
      /\ read_snapshot ConvertToRAID p (rf_drive "None" "Online")
         = Some (DriveStates [JStr "Online"])
      /\ at_target ConvertToRAID p (DriveStates [JStr "Online"]) = false
      /\ posts (snd (run (run_command plain_ext (mkModule p true)
                                      (rf_drive "None" "Online"))))
         = [mkRequest POST (action_path "ConvertToRAID")
                      (Some (JObj [("PDArray", JArr [JStr drive0])]))])
  /\ (let p := request_for "LockVirtualDisk" None (Some [volume0]) None None in
      let s := Volume [JStr "SelfEncryptingDrive"; JStr "SelfEncryptingDrive"]
                      (Some (JStr "Unknown")) in
      requests p LockVirtualDisk = true
      /\ read_snapshot LockVirtualDisk p (rf_volume "Unknown") = Some s
      /\ at_target LockVirtualDisk p s = false
      /\ posts (snd (run (run_command plain_ext (mkModule p true)
                                      (rf_volume "Unknown"))))
         = [mkRequest POST (action_path "LockVirtualDisk")
                      (Some (JObj [("TargetFQDD", JStr volume0)]))]).
Proof.
  vm_compute. repeat split.
Qed.

(** C8 (as amended).  ReKey, BlinkTarget and UnBlinkTarget never report "no
    changes".  BlinkTarget and UnBlinkTarget always, and ReKey on a
    controller whose security status is not EncryptionNotCapable: with check
    mode on they exit with "Changes found to be applied." and [changed=true]
    without a POST; with check mode off they issue the action POST.  ReKey on
    a controller whose security status is EncryptionNotCapable fails with the
    does-not-support-encryption error and issues no POST. *)
Theorem always_mutating_commands ext v p cm rf s :
  always_mutating v = true ->
  requests p v = true ->
  read_snapshot v p rf = Some s ->
  let r := run (run_command ext (mkModule p cm) rf) in
  exit_of (fst r) <> Some no_changes
  /\ (guards_pass v s = true -> cm = true ->
      exit_of (fst r) = Some changes_found
      /\ changed changes_found = true
      /\ posts (snd r) = [])
  /\ (guards_pass v s = true -> cm = false ->
      exists d, posts (snd r)
                = [mkRequest POST (RAID_ACTION_URI SYSTEM_ID (command_name v)) d])
  /\ (guards_pass v s = false ->
      v = ReKey
      /\ exit_of (fst r)
         = Some (kw_msg_failed (Format ENCRYPT_ERR_MSG [oj (controller_id p)]))
      /\ posts (snd r) = []).
Proof.
  intros Ha Hq Hs r.
  assert (Hd : dry_run_aware v = true) by (destruct v; try discriminate; reflexivity).
  assert (Hact : action_of v = command_name v)
    by (destruct v; try discriminate; reflexivity).
  assert (Hw : would_change v p s = true).
  { destruct v; try discriminate; simpl in Hs.
    - read_chain Hs. inversion Hs. reflexivity.
    - inversion Hs. reflexivity.
    - inversion Hs. reflexivity. }
  destruct (run_command_verdict ext v (mkModule p cm) rf s Hd Hq Hs)
    as (V1 & _ & V3 & V4).
  fold r in V1, V3, V4. simpl check_mode in V3, V4. simpl params in V1, V3, V4.
  rewrite Hact in V4.
  destruct (guards_pass v s) eqn:Hg.
  - destruct cm.
    + destruct (V3 eq_refl Hw eq_refl) as [E P].
      split; [rewrite E; discriminate|].
      split; [intros _ _; repeat split; assumption|].
      split; discriminate.
    + destruct (V4 eq_refl Hw eq_refl) as [E P].
      split; [exact E|]. split; [discriminate|].
      split; [intros _ _; exact P | discriminate].
  - destruct (V1 eq_refl) as [E P].
    assert (Hv : v = ReKey).
    { destruct v; try discriminate; try reflexivity;
        simpl in Hs; inversion Hs; subst s; discriminate Hg. }
    subst v. simpl guard_failure in E.
    assert (E' : exit_of (fst r)
                 = Some (kw_msg_failed
                           (Format ENCRYPT_ERR_MSG [oj (controller_id p)]))).
    { rewrite E. simpl in Hs. read_chain Hs. inversion Hs. reflexivity. }
    split; [rewrite E'; discriminate|].
    split; [discriminate|]. split; [discriminate|].
    intros _. repeat split; assumption.
Qed.

Lemma rekey_real_run_posts :
  let p := request_for "ReKey" (Some controller1) None None None in
  let r := run (run_command plain_ext (mkModule p false) rf_key_assigned) in
  exit_of (fst r) <> Some no_changes
  /\ exists d, posts (snd r)
               = [mkRequest POST (RAID_ACTION_URI SYSTEM_ID "ReKey") d].
Proof.
  assert (H := always_mutating_commands plain_ext ReKey
           (request_for "ReKey" (Some controller1) None None None)
           false rf_key_assigned
           (Controller (JStr "SecurityKeyAssigned") (JStr "mykeyid123"))
           eq_refl eq_refl eq_refl).
  exact (conj (proj1 H) (proj1 (proj2 (proj2 H)) eq_refl eq_refl)).
Defined.

(** C8 as stated fails for ReKey: on a controller whose security status is
    EncryptionNotCapable a dry run exits with a failure instead of "changes
    found", and a real run issues no POST. *)
Lemma rekey_not_capable :
  let p := request_for "ReKey" (Some controller1) None None None in
  requests p ReKey = true
  /\ read_snapshot ReKey p rf_not_capable
     = Some (Controller (JStr "EncryptionNotCapable") JNull)
  /\ exit_of (fst (run (run_command plain_ext (mkModule p true) rf_not_capable)))
     = Some (kw_msg_failed (Format ENCRYPT_ERR_MSG [JStr controller1]))
  /\ exit_of (fst (run (run_command plain_ext (mkModule p true) rf_not_capable)))
     <> Some changes_found
  /\ posts (snd (run (run_command plain_ext (mkModule p false) rf_not_capable)))
     = [].
Proof.
  vm_compute. repeat split; discriminate.
Qed.

(** C10.  LockVirtualDisk checks the member drives before the lock status:
    for a volume with at least one member drive whose EncryptionAbility is
    not SelfEncryptingDrive the module fails with "Volume is not encryption
    capable." and issues no POST, whatever the lock status (Locked
    included) and whether or not check mode is on; in particular it does
    not report "no changes". *)
Theorem lock_checks_drives_first ext p cm rf abilities lock :
  requests p LockVirtualDisk = true ->
  read_snapshot LockVirtualDisk p rf = Some (Volume abilities lock) ->
  existsb (fun a => negb (eq_str a "SelfEncryptingDrive")) abilities = true ->
  let r := run (run_command ext (mkModule p cm) rf) in
  exit_of (fst r) = Some (kw_msg_failed (Text PHYSICAL_DISK_ERR))
  /\ exit_of (fst r) <> Some no_changes
  /\ posts (snd r) = [].
Proof.
  intros Hq Hs Hex r.
  destruct (run_command_verdict ext LockVirtualDisk (mkModule p cm) rf _
              eq_refl Hq Hs) as (V1 & _).
  fold r in V1.
  assert (Hg : guards_pass LockVirtualDisk (Volume abilities lock) = false).
  { simpl. clear - Hex. induction abilities as [|a l IH]; [discriminate|].
    simpl in *. destruct (eq_str a "SelfEncryptingDrive"); simpl in *.
    - apply IH. exact Hex.
    - reflexivity. }
  destruct (V1 Hg) as [E P]. simpl guard_failure in E.
  split; [exact E|]. split; [rewrite E; discriminate | exact P].
Qed.

Lemma locked_mixed_volume_fails :
  let p := request_for "LockVirtualDisk" None (Some [volume0]) None None in
  let r := run (run_command plain_ext (mkModule p false) rf_locked_mixed) in
  exit_of (fst r) = Some (kw_msg_failed (Text PHYSICAL_DISK_ERR))
  /\ exit_of (fst r) <> Some no_changes
  /\ posts (snd r) = [].
Proof.
  exact (lock_checks_drives_first plain_ext
           (request_for "LockVirtualDisk" None (Some [volume0]) None None)
           false rf_locked_mixed
           [JStr "SelfEncryptingDrive"; JStr "None"] (Some (JStr "Locked"))
           eq_refl eq_refl eq_refl).
Defined.

(* ------------------------------------------------------------------ *)
(** ** Online capacity expansion *)

(** What the trace and the exit of a computation show once the dispatcher
    has handed a handler's result through. *)
Lemma run_lift {A : Type} (h : M A) :
  exit_of (fst (run (r <- h ;; ret (Some r)))) = exit_of (fst (h []))
  /\ snd (run (r <- h ;; ret (Some r))) = snd (h []).
Proof.
  unfold run, bind. destruct (h []) as [[a|o|e] t]; split; reflexivity.
Qed.

Lemma run_command_oce ext module rf :
  command (params module) = Some "OnlineCapacityExpansion" ->
  run_command ext module rf
  = (r <- online_capacity_expansion module rf ;; ret (Some r)).
Proof.
  intros H. unfold run_command. rewrite H. reflexivity.
Qed.

Lemma min_increment_inv rt m :
  min_increment rt = Some m ->
  in_strs rt ["RAID50"; "RAID60"] = false /\ eq_str rt "RAID1" = false
  /\ (m = 1 \/ m = 2)%Z.
Proof.
  destruct rt; simpl; try discriminate.
  unfold OCE_MIN_PD_RAID_MAPPING. cbn [assoc].
  destruct (String.eqb s "RAID0") eqn:E0;
    [apply String.eqb_eq in E0; subst; intros H; inversion H; auto|].
  destruct (String.eqb s "RAID5") eqn:E5;
    [apply String.eqb_eq in E5; subst; intros H; inversion H; auto|].
  destruct (String.eqb s "RAID6") eqn:E6;
    [apply String.eqb_eq in E6; subst; intros H; inversion H; auto|].
  destruct (String.eqb s "RAID10") eqn:E10;
    [apply String.eqb_eq in E10; subst; intros H; inversion H; auto|].
  discriminate.
Qed.

(** C3.  OnlineCapacityExpansion by target, on a volume whose RAID type has
    a minimum member increment [m] (1 for RAID0, RAID5 and RAID6, 2 for
    RAID10): the drives to add are the requested targets that are not
    member drives of the volume.  When there is none, or their number is not
    divisible by [m], the command exits with "No changes found to be
    applied." and issues no POST, in check mode or not.  Otherwise it
    submits the expansion of the volume by exactly these drives (and in
    check mode reports "Changes found to be applied." instead). *)
Theorem expansion_by_target ext p cm rf rt current_pd m :
  requests p OnlineCapacityExpansionByTarget = true ->
  read_snapshot OnlineCapacityExpansionByTarget p rf
  = Some (Expansion rt current_pd) ->
  min_increment rt = Some m ->
  let add := drives_to_add p current_pd in
  let n := Z.of_nat (length add) in
  let r := run (run_command ext (mkModule p cm) rf) in
  OCE_MIN_PD_RAID_MAPPING
  = [("RAID0", 1%Z); ("RAID5", 1%Z); ("RAID6", 1%Z); ("RAID10", 2%Z)]
  /\ (add = [] \/ (n mod m <> 0)%Z ->
      exit_of (fst r) = Some no_changes /\ posts (snd r) = [])
  /\ (add <> [] -> (n mod m = 0)%Z ->
      (cm = false ->
       exit_of (fst r) <> Some no_changes
       /\ posts (snd r)
          = [mkRequest POST (RAID_ACTION_URI SYSTEM_ID "OnlineCapacityExpansion")
                       (Some (oce_target_payload (volume_of p) add))])
      /\ (cm = true ->
          exit_of (fst r) = Some changes_found /\ posts (snd r) = [])).
Proof.
  intros Hq Hs Hm add n r.
  split; [reflexivity|].
  destruct (requests_command _ _ Hq) as [Hc Hcar].
  simpl in Hs, Hcar.
  destruct (volume_id p) as [[|v0 [|]]|] eqn:Hvol; try discriminate.
  destruct (target p) as [[|d ds]|] eqn:Ht; try discriminate.
  read_chain Hs. inversion Hs; subst x0 x2; clear Hs.
  rename x into resp, x1 into drives.
  destruct (min_increment_inv _ _ Hm) as (G50 & G1 & Hm12).
  destruct (oce_by_target_run (mkModule p cm) rf v0 d ds resp rt drives
              current_pd Hvol Ht R R0 R1 R2) as (t1 & P1 & _ & _ & Z0 & NZ).
  cbv zeta in Z0, NZ. simpl check_mode in NZ.
  specialize (Z0 G50 G1). specialize (NZ G50 G1).
  assert (Hadd : add = drives_not_in (d :: ds) current_pd)
    by (unfold add, drives_to_add; rewrite Ht; reflexivity).
  assert (Hvol' : volume_of p = v0) by (unfold volume_of; rewrite Hvol; reflexivity).
  rewrite Hvol'. clear Hvol'.
  rewrite <- Hadd in Z0, NZ. fold n in Z0, NZ.
  destruct (run_lift (online_capacity_expansion (mkModule p cm) rf)) as [L1 L2].
  rewrite <- (run_command_oce ext) in L1, L2 by exact Hc.
  fold r in L1, L2. rewrite L1, L2. clear L1 L2.
  assert (Hn0 : n = 0%Z <-> add = []).
  { unfold n. destruct add; simpl; split; intros H; try reflexivity;
      try discriminate; lia. }
  split.
  - intros [Hnone | Hrem].
    + rewrite (Z0 (proj2 Hn0 Hnone)). split; [reflexivity | exact P1].
    + assert (Hn : n <> 0%Z).
      { intros E. apply Hrem. rewrite E. apply Z.mod_0_l. lia. }
      rewrite (NZ Hn m Hm).
      apply Z.eqb_neq in Hrem. rewrite Hrem. split; [reflexivity | exact P1].
  - intros Hsome Hrem.
    assert (Hn : n <> 0%Z) by (intros E; apply Hsome, Hn0, E).
    rewrite (NZ Hn m Hm). apply Z.eqb_eq in Hrem. rewrite Hrem.
    split; intros ->.
    + destruct (oce_submitted rf (Some (oce_target_payload v0 add)) t1)
        as [S1 S2].
      split; [exact S1|]. rewrite S2.
      cbn [posts filter is_post method_eqb req_method].
      fold (posts t1). rewrite P1. reflexivity.
    + split; [reflexivity | exact P1].
Qed.

(** RAID10 with one drive to add is a NoOp. *)
Lemma raid10_one_drive_noop :
  let p := request_for "OnlineCapacityExpansion" None (Some [volume0])
                       (Some [drive0; drive2]) None in
  let r := run (run_command plain_ext (mkModule p false) rf_raid10) in
  drives_to_add p [drive0; drive1] = [drive2]
  /\ exit_of (fst r) = Some no_changes /\ posts (snd r) = [].
Proof.
  split; [reflexivity|].
  refine (proj1 (proj2 (expansion_by_target plain_ext
           (request_for "OnlineCapacityExpansion" None (Some [volume0])
                        (Some [drive0; drive2]) None)
           false rf_raid10 (JStr "RAID10") [drive0; drive1] 2%Z
           eq_refl eq_refl eq_refl)) _).
  right. vm_compute. discriminate.
Defined.

(** RAID10 with two drives to add is applied. *)
Example raid10_two_drives_applied :
  let p := request_for "OnlineCapacityExpansion" None (Some [volume0])
                       (Some [drive2; drive3]) None in
  let r := run (run_command plain_ext (mkModule p false) rf_raid10) in
  posts (snd r)
  = [mkRequest POST (action_path "OnlineCapacityExpansion")
               (Some (JObj [("TargetFQDD", JStr volume0);
                            ("PDArray", JArr [JStr drive2; JStr drive3])]))]
  /\ fst r = Ret (Some (mkResponse true 202 (JObj []) [("Location", job_location)],
                        job_location, "JID_123456789012")).
Proof. vm_compute. split; reflexivity. Qed.

(** [online_capacity_expansion] by size, run on a volume that resolves. *)
Lemma oce_by_size_run module rf v0 sz r rt cap :
  volume_id (params module) = Some [v0] ->
  target (params module) = None ->
  size (params module) = Some sz ->
  get_resp rf (volume_uri_of v0) = Some r ->
  field (json_data r) "RAIDType" = Some rt ->
  field (json_data r) "CapacityBytes" = Some (JNum cap) ->
  in_strs rt ["RAID50"; "RAID60"] = false ->
  let t0 := [mkRequest GET (volume_uri_of v0) None] in
  online_capacity_expansion module rf []
  = if Z.eqb sz 0 then oce_submit rf None t0
    else if Z.ltb (sz - cap / MB) 100
         then (Exit (kw_msg_failed (Format OCE_SIZE_100MB [JNum (cap / MB)])), t0)
         else oce_submit rf (Some (oce_size_payload v0 sz)) t0.
Proof.
  intros Hvol Ht Hsz R R0 R1 E50 t0.
  unfold online_capacity_expansion. rewrite Hvol, Ht, Hsz.
  cbn [map length hd Nat.eqb negb when].
  unfold bind at 1. unfold ret at 1. cbv beta iota.
  unfold bind at 1. cbn [as_str oj]. unfold ret at 1. cbv beta iota.
  change (VOLUME_URI SYSTEM_ID (split_last ":" v0) ++ "/" ++ v0)%string
    with (volume_uri_of v0).
  unfold bind at 1, try_http at 1.
  erewrite run_get by eassumption. cbv beta iota. fold t0.
  erewrite try_http_bind_ret by (eapply run_py_get; eassumption).
  rewrite E50.
  erewrite try_http_bind_ret by reflexivity.
  destruct (Z.eqb sz 0); cbn [negb].
  - erewrite try_http_bind_ret by reflexivity. reflexivity.
  - rewrite try_http_assoc.
    erewrite try_http_bind_ret by (eapply run_py_get; eassumption).
    rewrite try_http_assoc. cbn [as_int].
    erewrite try_http_bind_ret by reflexivity.
    rewrite try_http_assoc.
    change (1024 * 1024)%Z with MB.
    destruct (Z.ltb (sz - cap / MB) 100).
    + erewrite try_http_bind_exit by reflexivity. reflexivity.
    + erewrite try_http_bind_ret by reflexivity.
      erewrite try_http_bind_ret by reflexivity. reflexivity.
Qed.

(** X25.  OnlineCapacityExpansion by a non-zero size: with the current size
    in MB the volume's CapacityBytes floor-divided by 1024*1024, a requested
    size that exceeds it by less than 100 is rejected with a failure and no
    POST; one that exceeds it by at least 100 is submitted, in check mode or
    not. *)
Lemma expansion_by_nonzero_size ext p cm rf rt cap sz :
  requests p OnlineCapacityExpansionBySize = true ->
  read_snapshot OnlineCapacityExpansionBySize p rf
  = Some (Capacity rt (JNum cap)) ->
  guards_pass OnlineCapacityExpansionBySize (Capacity rt (JNum cap)) = true ->
  size p = Some sz ->
  sz <> 0%Z ->
  let r := run (run_command ext (mkModule p cm) rf) in
  let current := (cap / MB)%Z in
  ((sz - current < 100)%Z ->
   exit_of (fst r)
   = Some (kw_msg_failed (Format OCE_SIZE_100MB [JNum current]))
   /\ failed (kw_msg_failed (Format OCE_SIZE_100MB [JNum current])) = true
   /\ posts (snd r) = [])
  /\ ((sz - current >= 100)%Z ->
      posts (snd r)
      = [mkRequest POST (RAID_ACTION_URI SYSTEM_ID "OnlineCapacityExpansion")
                   (Some (oce_size_payload (volume_of p) sz))]).
Proof.
  intros Hq Hs Hg Hsz Hnz r current.
  destruct (requests_command _ _ Hq) as [Hc Hcar].
  simpl in Hs, Hcar.
  destruct (volume_id p) as [[|v0 [|]]|] eqn:Hvol; try discriminate.
  destruct (target p) as [tgt|] eqn:Ht; try discriminate.
  read_chain Hs. inversion Hs; subst x0 x1; clear Hs.
  simpl in Hg. apply negb_true_iff in Hg.
  pose proof (oce_by_size_run (mkModule p cm) rf v0 sz x rt cap
                Hvol Ht Hsz R R0 R1 Hg) as Run.
  cbv zeta in Run. apply Z.eqb_neq in Hnz. rewrite Hnz in Run.
  assert (Hvol' : volume_of p = v0) by (unfold volume_of; rewrite Hvol; reflexivity).
  rewrite Hvol'.
  destruct (run_lift (online_capacity_expansion (mkModule p cm) rf)) as [L1 L2].
  rewrite <- (run_command_oce ext) in L1, L2 by exact Hc.
  fold r in L1, L2. rewrite L1, L2, Run. clear L1 L2.
  fold current.
  split; intros H.
  - apply Z.ltb_lt in H. rewrite H. repeat split.
  - assert (H' : Z.ltb (sz - current) 100 = false) by (apply Z.ltb_ge; lia).
    rewrite H'.
    destruct (oce_submitted rf (Some (oce_size_payload v0 sz))
                [mkRequest GET (volume_uri_of v0) None]) as [_ S2].
    rewrite S2. reflexivity.
Qed.

(** The examples of the specification: 362,000 MB at present; 362,050 MB is
    rejected and 362,785 MB is accepted. *)
Example expansion_by_size_examples :
  let rejected := request_for "OnlineCapacityExpansion" None (Some [volume0])
                              None (Some 362050%Z) in
  let accepted := request_for "OnlineCapacityExpansion" None (Some [volume0])
                              None (Some 362785%Z) in
  (379584512000 / MB = 362000)%Z
  /\ run (run_command plain_ext (mkModule rejected false) rf_raid10)
     = (Exit (kw_msg_failed (Format OCE_SIZE_100MB [JNum 362000])),
        [mkRequest GET (volume_uri_of volume0) None])
  /\ posts (snd (run (run_command plain_ext (mkModule accepted false) rf_raid10)))
     = [mkRequest POST (action_path "OnlineCapacityExpansion")
                  (Some (oce_size_payload volume0 362785))].
Proof. vm_compute. repeat split. Qed.

(** C4 fails at a requested size of zero.  The request is by size (no
    target is given) and the size exceeds the current one by less than 100
    MB, yet the handler does not reject it: it takes the zero for "no size",
    skips the comparison and posts the action without a payload. *)
Theorem expansion_by_size_zero_is_submitted :
  let p := request_for "OnlineCapacityExpansion" None (Some [volume0]) None
                       (Some 0%Z) in
  let r := run (run_command plain_ext (mkModule p false) rf_raid10) in
  requests p OnlineCapacityExpansionBySize = true
  /\ read_snapshot OnlineCapacityExpansionBySize p rf_raid10
     = Some (Capacity (JStr "RAID10") (JNum 379584512000))
  /\ (0 - 379584512000 / MB < 100)%Z
  /\ posts (snd r)
     = [mkRequest POST (action_path "OnlineCapacityExpansion") None]
  /\ exit_of (fst r) = None.
Proof. vm_compute. repeat split. Qed.

(* ------------------------------------------------------------------ *)
(** ** Attribute settings *)

(** The apply-time directive for an apply time that names no maintenance
    window. *)
Lemma run_plain_apply_time module rf a supported t :
  supported <> [] ->
  str_contains "Maintenance" a = false ->
  get_redfish_apply_time module rf a (JArr supported) t
  = (Ret [("ApplyTime", JStr a)], t).
Proof.
  intros Hne Hc. unfold get_redfish_apply_time.
  destruct supported; [contradiction Hne; reflexivity|].
  cbn [truthy]. rewrite Hc. reflexivity.
Qed.

(** Once the apply-time directive is settled, the settings-apply request is
    the one PATCH of the invocation, whatever the remote end answers. *)
Lemma settings_patch_sent module rf pending time_settings time_set t :
  patches t = [] ->
  get_redfish_apply_time module rf (apply_time (params module)) time_settings []
  = (Ret time_set, t) ->
  patches (snd (run (apply_attributes module rf pending time_settings)))
  = [mkRequest PATCH
       (SETTINGS_URI SYSTEM_ID (fmt_opt (controller_id (params module))))
       (Some (settings_payload pending time_set))].
Proof.
  intros Ht Hts. unfold run, apply_attributes. unfold bind at 1.
  rewrite Hts. cbv beta iota.
  rewrite snd_bind_quiet.
  - fold (settings_payload pending time_set).
    rewrite try_http_request.
    + cbn [patches filter is_patch method_eqb req_method]. fold (patches t).
      rewrite Ht. reflexivity.
    + intros resp. auto 10 with quiet.
    + intros b. auto with quiet.
  - intros resp. destruct (assoc "Location" (headers resp)); auto with quiet.
Qed.

Lemma run_set_attributes_reads module rf doc curr t :
  read_attributes rf (controller_id (params module)) = Some (doc, curr) ->
  forall inp, attributes (params module) = Some inp ->
  set_attributes module rf t
  = (when (hba_rule_trips inp) (exit_json (kw_msg_failed (Text HBA_MODE))) ;;;
     pending <- check_attr_exists module (JObj curr) inp ;;
     settings <- py_get_default doc "@Redfish.Settings" (JObj []) ;;
     time_settings <- py_get_default settings "SupportedApplyTimes" (JArr []) ;;
     apply_attributes module rf pending time_settings)
      (mkRequest GET (CONTROLLERS_URI SYSTEM_ID
                        (fmt_opt (controller_id (params module)))) None :: t).
Proof.
  unfold read_attributes. intros H inp Hinp. read_chain H.
  destruct x2; try discriminate. inversion H; subst doc curr. clear H.
  unfold set_attributes, get_attributes.
  unfold bind at 1, try_http at 1. unfold bind at 1.
  erewrite run_get by eassumption. cbv beta iota.
  unfold ret at 1. cbv beta iota.
  mrun. rewrite Hinp. unfold bind at 1. unfold ret at 1. cbv beta iota.
  reflexivity.
Qed.

(** The ControllerMode rule as the source tests it: a truthy ControllerMode
    value together with any other attribute fails before the diff is
    computed and before anything is sent. *)
Lemma hba_mode_conflict module rf doc curr inp t :
  read_attributes rf (controller_id (params module)) = Some (doc, curr) ->
  attributes (params module) = Some inp ->
  hba_rule_trips inp = true ->
  set_attributes module rf t
  = (Exit (kw_msg_failed (Text HBA_MODE)),
     mkRequest GET (CONTROLLERS_URI SYSTEM_ID
                      (fmt_opt (controller_id (params module)))) None :: t).
Proof.
  intros R Hinp Hh. rewrite (run_set_attributes_reads _ _ _ _ _ R _ Hinp).
  rewrite Hh. reflexivity.
Qed.

Lemma run_check_attr_loop curr inp names acc t :
  exists pending diff,
    check_attr_loop (JObj curr) inp names acc t
    = (Ret (fst (fst acc)
            ++ filter (fun k => negb (given (assoc k curr))) names,
            pending, diff), t).
Proof.
  revert acc. induction names as [|each rest IH]; intros [[inv pend] diff].
  - exists pend, diff. cbn. rewrite app_nil_r. reflexivity.
  - cbn [check_attr_loop filter]. unfold bind at 1. cbn [not_in_keys].
    unfold ret at 1. cbv beta iota.
    destruct (assoc each curr) as [cur|] eqn:E; cbn [given negb].
    + unfold bind at 1. cbn [py_item]. rewrite E. unfold ret at 1.
      cbv beta iota.
      destruct (negb (py_eq cur (dict_get inp each))).
      * destruct (IH (inv, dict_set pend each (dict_get inp each), true))
          as (p' & d' & EQ). rewrite EQ. eauto.
      * destruct (IH (inv, pend, diff)) as (p' & d' & EQ). rewrite EQ. eauto.
    + destruct (IH (inv ++ [each], pend, diff)) as (p' & d' & EQ).
      rewrite EQ. cbn [fst]. rewrite <- app_assoc. eauto.
Qed.

(** C6 (as amended).  For every attributes request that names one or more
    attributes absent from the controller's current attribute map, the
    module fails before any settings-apply request is sent.  The failure is
    the invalid-attribute error, which lists every such name in the order of
    the request, unless the request trips the ControllerMode rule, which is
    checked first and fails with its own message. *)
Theorem invalid_attributes_are_listed module rf doc curr inp :
  read_attributes rf (controller_id (params module)) = Some (doc, curr) ->
  attributes (params module) = Some inp ->
  absent_names curr inp <> [] ->
  let r := run (set_attributes module rf) in
  patches (snd r) = []
  /\ (hba_rule_trips inp = false ->
      fst r = Exit (kw_msg_failed
                      (Format INVALID_ATTRIBUTES
                              [JArr (map JStr (absent_names curr inp))])))
  /\ (hba_rule_trips inp = true ->
      fst r = Exit (kw_msg_failed (Text HBA_MODE))).
Proof.
  intros R Hinp Habs r.
  destruct (hba_rule_trips inp) eqn:Hh.
  - unfold r, run. rewrite (hba_mode_conflict _ _ _ _ _ _ R Hinp Hh).
    repeat split; try discriminate.
  - assert (E : r = (Exit (kw_msg_failed
                             (Format INVALID_ATTRIBUTES
                                     [JArr (map JStr (absent_names curr inp))])),
                     [mkRequest GET (CONTROLLERS_URI SYSTEM_ID
                                       (fmt_opt (controller_id (params module))))
                                None])).
    { unfold r, run.
      rewrite (run_set_attributes_reads _ _ _ _ _ R _ Hinp).
      rewrite Hh. unfold when at 1. unfold bind at 1. unfold ret at 1.
      cbv beta iota.
      unfold bind at 1. unfold check_attr_exists. unfold bind at 1.
      destruct (run_check_attr_loop curr inp (map fst inp) ([], [], false)
                  [mkRequest GET (CONTROLLERS_URI SYSTEM_ID
                                    (fmt_opt (controller_id (params module)))) None])
        as (pending & diff & EQ).
      rewrite EQ. cbn [fst app]. cbv beta iota.
      fold (absent_names curr inp).
      destruct (absent_names curr inp) as [|a l]; [contradiction Habs; reflexivity|].
      reflexivity. }
    rewrite E. repeat split; try discriminate.
Qed.

Lemma bogus_names_reported :
  let p := settings_for controller1
             [("CopybackMode", JStr "Off"); ("Bogus1", JNum 1);
              ("LoadBalanceMode", JStr "Disabled")] "Immediate" None in
  let r := run (set_attributes (mkModule p false)
                               (rf_settings all_apply_times "Completed")) in
  patches (snd r) = []
  /\ fst r = Exit (kw_msg_failed
                     (Format INVALID_ATTRIBUTES
                             [JArr [JStr "Bogus1"; JStr "LoadBalanceMode"]])).
Proof.
  assert (H := invalid_attributes_are_listed
            (mkModule (settings_for controller1
                         [("CopybackMode", JStr "Off"); ("Bogus1", JNum 1);
                          ("LoadBalanceMode", JStr "Disabled")] "Immediate" None)
                      false)
            (rf_settings all_apply_times "Completed")
            (attributes_doc all_apply_times)
            [("ControllerMode", JStr "RAID"); ("CopybackMode", JStr "On")]
            [("CopybackMode", JStr "Off"); ("Bogus1", JNum 1);
             ("LoadBalanceMode", JStr "Disabled")]
            eq_refl eq_refl
            ltac:(vm_compute; discriminate)).
  exact (conj (proj1 H) (proj1 (proj2 H) eq_refl)).
Defined.

(** C6 as stated fails: a request that names an absent attribute next to
    ControllerMode fails with the ControllerMode conflict, not with the
    invalid-attribute error. *)
Lemma conflict_masks_invalid_names :
  let inp := [("ControllerMode", JStr "HBA"); ("Bogus", JStr "x")] in
  let p := settings_for controller1 inp "Immediate" None in
  let rf := rf_settings all_apply_times "Completed" in
  absent_names [("ControllerMode", JStr "RAID"); ("CopybackMode", JStr "On")] inp
  = ["Bogus"]
  /\ fst (run (set_attributes (mkModule p false) rf))
     = Exit (kw_msg_failed (Text HBA_MODE))
  /\ fst (run (main plain_ext (mkModule p false) rf))
     = Exit (kw_msg_failed (Text HBA_MODE))
  /\ fst (run (main plain_ext (mkModule p false) rf))
     <> Exit (kw_msg_failed (Format INVALID_ATTRIBUTES [JArr [JStr "Bogus"]])).
Proof.
  vm_compute. repeat split; discriminate.
Qed.

(** C5 fails when the requested ControllerMode value is falsy (here the
    empty string): ControllerMode is among the requested names together with
    CopybackMode, yet no conflict is reported and both are sent in one
    settings-apply request. *)
Theorem controller_mode_conflict_missed :
  let inp := [("ControllerMode", JStr ""); ("CopybackMode", JStr "Off")] in
  let p := settings_for controller1 inp "Immediate" None in
  let r := run (main plain_ext (mkModule p false)
                     (rf_settings all_apply_times "Completed")) in
  controller_mode_with_others inp = true
  /\ hba_rule_trips inp = false
  /\ patches (snd r)
     = [mkRequest PATCH (SETTINGS_URI SYSTEM_ID controller1)
          (Some (JObj [("Oem", JObj [("Dell", JObj [("DellStorageController",
                                                     JObj inp)])]);
                       ("@Redfish.SettingsApplyTime",
                        JObj [("ApplyTime", JStr "Immediate")])]))]
  /\ fst r = Exit (kw_job (Text JOB_SUBMISSION_ATTRIBUTES)
                          ("JID_123456789012", JOB_URI_OEM "JID_123456789012")
                          (job_doc "Completed") false false).
Proof. vm_compute. repeat split. Qed.

(** With a truthy ControllerMode value the conflict is reported, as in the
    example of the specification. *)
Example hba_conflict_example :
  let inp := [("ControllerMode", JStr "HBA"); ("CopybackMode", JStr "Off")] in
  let p := settings_for controller1 inp "Immediate" None in
  run (main plain_ext (mkModule p false) (rf_settings all_apply_times "Completed"))
  = (Exit (kw_msg_failed (Text HBA_MODE)),
     [mkRequest GET (CONTROLLERS_URI SYSTEM_ID controller1) None;
      mkRequest GET (CONTROLLER_URI SYSTEM_ID controller1) None]).
Proof. vm_compute. reflexivity. Qed.

Lemma maintenance_contains a :
  maintenance_apply_time a = true -> str_contains "Maintenance" a = true.
Proof.
  unfold maintenance_apply_time. intros H. apply orb_prop in H.
  destruct H as [H|H]; apply String.eqb_eq in H; subst; reflexivity.
Qed.

Lemma run_get_current_time rf now off t :
  read_clock rf = Some (now, off) ->
  get_current_time rf t
  = (Ret (JStr now, JStr off), mkRequest GET MANAGER_URI None :: t).
Proof.
  unfold read_clock. intros H. read_chain H.
  destruct x0; try discriminate. destruct x1; try discriminate.
  inversion H; subst. unfold get_current_time, try_any.
  unfold bind at 1. erewrite run_get by eassumption. cbv beta iota.
  unfold bind at 1. erewrite run_py_get by eassumption. cbv beta iota.
  unfold bind at 1. erewrite run_py_get by eassumption. cbv beta iota.
  reflexivity.
Qed.

(** C7 (as amended).  When the remote system advertises a non-empty set of
    supported apply times: an apply time that names a maintenance window
    (AtMaintenanceWindowStart or InMaintenanceWindowOnReset) and is not in
    the set is rejected; for one that is in the set, a start time that does
    not end with the remote system's reported offset is rejected, and so is
    one that compares lower than the remote system's reported current time.
    Each rejection is the corresponding failure and happens before any
    settings-apply request is sent.  Immediate and OnReset are not compared
    with the set: the settings-apply request is sent with them. *)
Theorem apply_time_is_validated module rf pending supported :
  supported <> [] ->
  let a := apply_time (params module) in
  let r := run (apply_attributes module rf pending (JArr supported)) in
  (maintenance_apply_time a = true -> py_in (JStr a) supported = false ->
   fst r = Exit (kw_status_msg_failed (Format UNSUPPORTED_APPLY_TIME [JStr a]))
   /\ patches (snd r) = [])
  /\ (maintenance_apply_time a = true -> py_in (JStr a) supported = true ->
      forall start duration now off,
        maintenance_window (params module) = Some (start, duration) ->
        read_clock rf = Some (now, off) ->
        (endswith start off = false ->
         fst r = Exit (kw_status_msg_failed
                         (Format MAINTENANCE_OFFSET [JStr off]))
         /\ patches (snd r) = [])
        /\ (endswith start off = true -> String.ltb start now = true ->
            fst r = Exit (kw_status_msg_failed (Text MAINTENANCE_TIME))
            /\ patches (snd r) = []))
  /\ (a = "Immediate" \/ a = "OnReset" ->
      patches (snd r)
      = [mkRequest PATCH
           (SETTINGS_URI SYSTEM_ID (fmt_opt (controller_id (params module))))
           (Some (settings_payload pending [("ApplyTime", JStr a)]))]).
Proof.
  intros Hne a r.
  assert (Ht : truthy (JArr supported) = true)
    by (destruct supported; [contradiction Hne; reflexivity | reflexivity]).
  split; [|split].
  - intros Hm Hin.
    pose proof (maintenance_contains _ Hm) as Hc. fold a in Hc.
    remember r as res eqn:Hres. unfold r, run in Hres. clear r.
    unfold apply_attributes in Hres. unfold bind at 1 in Hres.
    unfold get_redfish_apply_time in Hres. rewrite Ht in Hres.
    fold a in Hres. rewrite Hc in Hres.
    unfold bind at 1 in Hres. cbn [py_contains] in Hres.
    unfold ret at 1 in Hres. cbv beta iota in Hres.
    rewrite Hin in Hres. cbn [negb] in Hres.
    subst res. split; reflexivity.
  - intros Hm Hin start duration now off Hw Hclk.
    pose proof (maintenance_contains _ Hm) as Hc. fold a in Hc.
    remember r as res eqn:Hres. unfold r, run in Hres. clear r.
    unfold apply_attributes in Hres. unfold bind at 1 in Hres.
    unfold get_redfish_apply_time in Hres. rewrite Ht in Hres.
    fold a in Hres. rewrite Hc in Hres.
    unfold bind at 1 in Hres. cbn [py_contains] in Hres.
    unfold ret at 1 in Hres. cbv beta iota in Hres.
    rewrite Hin in Hres.
    cbn [negb] in Hres. rewrite Hw in Hres.
    unfold bind at 1 in Hres. unfold ret at 1 in Hres. cbv beta iota in Hres.
    unfold bind at 1 in Hres. unfold validate_time in Hres.
    unfold bind at 1 in Hres.
    rewrite (run_get_current_time _ _ _ _ Hclk) in Hres.
    cbv beta iota in Hres. cbn [fst] in Hres.
    unfold bind at 1 in Hres. unfold ret at 1 in Hres. cbv beta iota in Hres.
    split.
    + intros He. rewrite He in Hres. cbn [negb when] in Hres.
      subst res. split; reflexivity.
    + intros He Hl. rewrite He in Hres. cbn [negb when] in Hres.
      unfold bind at 1 in Hres. unfold ret at 1 in Hres. cbv beta iota in Hres.
      unfold bind at 1 in Hres. unfold ret at 1 in Hres. cbv beta iota in Hres.
      rewrite Hl in Hres. cbn [when] in Hres.
      subst res. split; reflexivity.
  - intros Ha. unfold r.
    apply (settings_patch_sent module rf pending (JArr supported)
             [("ApplyTime", JStr a)] []); [reflexivity|].
    apply run_plain_apply_time; [exact Hne|].
    destruct Ha as [-> | ->]; reflexivity.
Qed.

Lemma past_window_rejected :
  let p := settings_for controller1 [("CopybackMode", JStr "Off")]
                        "AtMaintenanceWindowStart"
                        (Some ("2022-09-30T05:15:40-05:00", 1200%Z)) in
  let r := run (apply_attributes (mkModule p false)
                  (rf_settings all_apply_times "Completed")
                  [("CopybackMode", JStr "Off")]
                  (JArr (map JStr all_apply_times))) in
  endswith "2022-09-30T05:15:40-05:00" "-05:00" = true
  /\ fst r = Exit (kw_status_msg_failed (Text MAINTENANCE_TIME))
  /\ patches (snd r) = [].
Proof.
  split; [reflexivity|].
  refine (proj2 (proj1 (proj2 (apply_time_is_validated
            (mkModule (settings_for controller1 [("CopybackMode", JStr "Off")]
                         "AtMaintenanceWindowStart"
                         (Some ("2022-09-30T05:15:40-05:00", 1200%Z))) false)
            (rf_settings all_apply_times "Completed")
            [("CopybackMode", JStr "Off")]
            (map JStr all_apply_times) _)) eq_refl eq_refl
            "2022-09-30T05:15:40-05:00" 1200%Z
            "2022-09-30T06:00:00-05:00" "-05:00" eq_refl eq_refl)
            eq_refl eq_refl).
  discriminate.
Defined.

(** C7 as stated fails: an apply time that names no maintenance window is
    not compared with the advertised set (OnReset is sent although the remote
    system advertises Immediate only), and when the remote system advertises
    no apply times nothing is validated (a maintenance window in the past,
    with a foreign offset, is not rejected and the request is sent). *)
Lemma on_reset_not_checked :
  (let inp := [("CopybackMode", JStr "Off")] in
   let p := settings_for controller1 inp "OnReset" None in
   let r := run (main plain_ext (mkModule p false)
                      (rf_settings ["Immediate"] "Scheduled")) in
   py_in (JStr "OnReset") [JStr "Immediate"] = false
   /\ patches (snd r)
      = [mkRequest PATCH (SETTINGS_URI SYSTEM_ID controller1)
                   (Some (settings_payload inp [("ApplyTime", JStr "OnReset")]))]
   /\ fst r = Exit (kw_job (Text JOB_SUBMISSION_ATTRIBUTES)
                           ("JID_123456789012", JOB_URI_OEM "JID_123456789012")
                           (job_doc "Scheduled") false false))
  /\ (let inp := [("CopybackMode", JStr "Off")] in
      let p := settings_for controller1 inp "AtMaintenanceWindowStart"
                            (Some ("2021-01-01T00:00:00+02:00", 900%Z)) in
      let r := run (main plain_ext (mkModule p false) rf_no_apply_times) in
      endswith "2021-01-01T00:00:00+02:00" "-05:00" = false
      /\ String.ltb "2021-01-01T00:00:00+02:00" "2022-09-30T06:00:00-05:00" = true
      /\ patches (snd r)
         = [mkRequest PATCH (SETTINGS_URI SYSTEM_ID controller1)
                      (Some (settings_payload inp []))]).
Proof. vm_compute. repeat split. Qed.

(* ------------------------------------------------------------------ *)
(** ** Job outcome *)

(** C9.  When [job_wait] is set and the command's job has been polled, the
    module exits with the completion message, the job handle (id and uri)
    and the job's status payload; [failed] is true exactly when the job's
    JobState is Failed, and [changed] is its negation: a failed job gives
    [failed=true, changed=false], a completed one [changed=true,
    failed=false]. *)
Theorem job_wait_outcome ext p cm rf resp job_uri job_id t wresp wmsg t' state :
  attributes_given p = false ->
  validate_inputs (mkModule p cm) [] = (Ret tt, []) ->
  run_command ext (mkModule p cm) rf [] = (Ret (Some (resp, job_uri, job_id)), t) ->
  job_wait p = true ->
  wait_for_job_completion ext rf (JOB_URI_OEM job_id) true (job_wait_timeout p) t
  = (Ret (wresp, wmsg), t') ->
  item (strip_substr_dict ext (json_data wresp)) "JobState" = Some state ->
  exists o,
    fst (run (main ext (mkModule p cm) rf)) = Exit o
    /\ msg o = Some (Format JOB_COMPLETION [oj (command p)])
    /\ task o = Some (job_id, JOB_URI_OEM job_id)
    /\ status o = Some (strip_substr_dict ext (json_data wresp))
    /\ failed o = eq_str state "Failed"
    /\ changed o = negb (eq_str state "Failed")
    /\ (failed o = true /\ changed o = false <-> state = JStr "Failed").
Proof.
  intros Ha Hv Hc Hw Hpoll Hstate.
  exists (kw_job (Format JOB_COMPLETION [oj (command p)])
                 (job_id, JOB_URI_OEM job_id)
                 (strip_substr_dict ext (json_data wresp))
                 (negb (eq_str state "Failed")) (eq_str state "Failed")).
  split.
  - unfold run, main. simpl params. rewrite Ha. cbn [negb when].
    unfold bind at 1. rewrite Hv. cbv beta iota.
    unfold main_handlers, main_body. unfold bind at 1. rewrite Hc.
    cbv beta iota. simpl params. rewrite Ha. cbn [when].
    unfold bind at 1. unfold ret at 1. cbv beta iota.
    unfold report_job. unfold bind at 1. unfold ret at 1. cbv beta iota.
    simpl params. rewrite Hw.
    unfold bind at 1. unfold bind at 1. rewrite Hpoll. cbv beta iota.
    unfold bind at 1. unfold job_flags. unfold bind at 1.
    erewrite run_py_item by eassumption. cbv beta iota.
    destruct (eq_str state "Failed"); reflexivity.
  - cbn [msg task status failed changed kw_job].
    repeat split; try reflexivity.
    + intros [H _]. apply eq_str_inv. exact H.
    + subst state. reflexivity.
    + subst state. reflexivity.
Qed.

Lemma failed_job_reported :
  let p := waiting (request_for "SetControllerKey" (Some controller1)
                                None None None) in
  exists o,
    fst (run (main plain_ext (mkModule p false) (rf_job "Failed"))) = Exit o
    /\ msg o = Some (Format JOB_COMPLETION [JStr "SetControllerKey"])
    /\ task o = Some ("JID_123456789012", JOB_URI_OEM "JID_123456789012")
    /\ status o = Some (job_doc "Failed")
    /\ failed o = true
    /\ changed o = false
    /\ (failed o = true /\ changed o = false <-> JStr "Failed" = JStr "Failed").
Proof.
  exact (job_wait_outcome plain_ext
           (waiting (request_for "SetControllerKey" (Some controller1)
                                 None None None))
           false (rf_job "Failed")
           (mkResponse true 202 (JObj []) [("Location", job_location)])
           job_location "JID_123456789012"
           [mkRequest POST (action_path "SetControllerKey")
              (Some (JObj [("TargetFQDD", JStr controller1);
                           ("Key", JNull); ("Keyid", JNull)]));
            mkRequest GET (CONTROLLER_URI SYSTEM_ID controller1) None;
            mkRequest GET (CONTROLLER_URI SYSTEM_ID controller1) None]
           (mkResponse true 200 (job_doc "Failed") []) ""
           (mkRequest GET (JOB_URI_OEM "JID_123456789012") None ::
            [mkRequest POST (action_path "SetControllerKey")
               (Some (JObj [("TargetFQDD", JStr controller1);
                            ("Key", JNull); ("Keyid", JNull)]));
             mkRequest GET (CONTROLLER_URI SYSTEM_ID controller1) None;
             mkRequest GET (CONTROLLER_URI SYSTEM_ID controller1) None])
           (JStr "Failed")
           eq_refl eq_refl eq_refl eq_refl eq_refl eq_refl).
Defined.

(** A job that completed is reported as a change. *)
Example job_wait_completed :
  let p := waiting (request_for "SetControllerKey" (Some controller1)
                                None None None) in
  fst (run (main plain_ext (mkModule p false) (rf_job "Completed")))
  = Exit (kw_job (Format JOB_COMPLETION [JStr "SetControllerKey"])
                 ("JID_123456789012", JOB_URI_OEM "JID_123456789012")
                 (job_doc "Completed") true false).
Proof. vm_compute. reflexivity. Qed.

Lemma controller_command_inv p :
  controller_command p = true ->
  exists v, (v = ResetConfig \/ key_variant v = true)
            /\ command p = Some (command_name v).
Proof.
  unfold controller_command, cmd_in, cmd_is. destruct (command p) as [c|];
    [|discriminate].
  cbn [existsb]. rewrite orb_false_r. intros H.
  repeat (apply orb_prop in H; destruct H as [H|H]);
    apply String.eqb_eq in H; subst c.
  - exists ResetConfig. auto.
  - exists SetControllerKey. auto.
  - exists ReKey. auto.
  - exists RemoveControllerKey. auto.
  - exists EnableControllerEncryption. auto.
Qed.

(** The handlers of the controller commands begin with the lookup of the
    controller: when it does not return, neither does the command. *)
Lemma run_command_lookup ext module rf t :
  controller_command (params module) = true ->
  match check_id_exists rf "controller_id" (controller_id (params module))
                        CONTROLLER_URI t with
  | (Ret _, _) => True
  | (Exit o, t') => run_command ext module rf t = (Exit o, t')
  | (Raise e, t') => run_command ext module rf t = (Raise e, t')
  end.
Proof.
  intros H. apply controller_command_inv in H. destruct H as (v & Hv & Hc).
  destruct (check_id_exists rf "controller_id" (controller_id (params module))
                            CONTROLLER_URI t) as [[u|o|e] t'] eqn:E;
    [exact I| |];
    unfold run_command; rewrite Hc;
    (destruct Hv as [-> | Hv]; [|destruct v; try discriminate]);
    cbn [command_name cmd_is cmd_in existsb String.eqb Ascii.eqb Bool.eqb orb andb];
    unfold ctrl_reset_config, ctrl_key; unfold bind at 1; unfold bind at 1;
    rewrite E; reflexivity.
Qed.

(** X1.  A controller command on a controller that the remote system does
    not have fails after the lookup, with the lookup as its only request:
    when the lookup is answered with an HTTP error the failure carries the
    decoded error body, when it is answered without success it carries the
    message alone. *)
Theorem missing_controller_fails ext module rf :
  controller_command (params module) = true ->
  let uri := controller_uri_of (params module) in
  let m := controller_not_found (controller_id (params module)) in
  let r := run (run_command ext module rf) in
  (forall body, rf GET uri None = HTTPFail body ->
     r = (Exit (kw_msg_error_failed m body), [mkRequest GET uri None]))
  /\ (forall resp, rf GET uri None = Resp resp -> success resp = false ->
        r = (Exit (kw_msg_failed m), [mkRequest GET uri None])).
Proof.
  intros H uri m r.
  pose proof (run_command_lookup ext module rf [] H) as L.
  unfold check_id_exists, try_http, bind, invoke_request in L.
  fold (controller_uri_of (params module)) in L. fold uri in L.
  split.
  - intros body Hb. rewrite Hb in L. exact L.
  - intros resp Hr Hs. rewrite Hr, Hs in L. exact L.
Qed.

Lemma missing_controller_example :
  let p := request_for "ResetConfig" (Some controller1) None None None in
  run (run_command plain_ext (mkModule p false) (rf_drive "None" "Ready"))
  = (Exit (kw_msg_error_failed (controller_not_found (Some controller1))
                               (JObj [])),
     [mkRequest GET (CONTROLLER_URI SYSTEM_ID controller1) None]).
Proof.
  exact (proj1 (missing_controller_fails plain_ext
           (mkModule (request_for "ResetConfig" (Some controller1) None None None)
                     false)
           (rf_drive "None" "Ready") eq_refl) (JObj []) eq_refl).
Defined.



(* ------------------------------------------------------------------ *)
(** ** Validation of the request *)

Lemma cmd_in_inv c l :
  cmd_in c l = true -> exists s, In s l /\ c = Some s.
Proof.
  unfold cmd_in, cmd_is. destruct c as [c|].
  - induction l as [|a l IH]; simpl; [discriminate|].
    intros H. apply orb_prop in H. destruct H as [H|H].
    + apply String.eqb_eq in H. subst. eauto.
    + destruct (IH H) as (s & Hs & E). eauto.
  - intros H. exfalso. induction l as [|a l IH]; simpl in H;
      [discriminate|auto].
Qed.

(** Splits a membership in a list of literals into its cases. *)
Ltac cmd_cases H :=
  apply cmd_in_inv in H;
  let s := fresh "c" in
  let Hin := fresh "Hin" in
  let Hc := fresh "Hc" in
  destruct H as (s & Hin & Hc); simpl in Hin;
  repeat (destruct Hin as [Hin|Hin]; [subst s|]); [..|contradiction Hin].

(** X3.  A command that acts on a single drive is rejected when more than
    one target is given, and for the spare, blink and lock commands also when
    more than one volume is given; the rejection precedes every request. *)
Theorem several_targets_rejected ext module rf :
  attributes_given (params module) = false ->
  let p := params module in
  let r := run (main ext module rf) in
  (single_target_command p = true -> more_than_one (target p) = true ->
   r = (Exit (kw_msg_failed (Format TARGET_ERR_MSG [JStr "physical disk"])), []))
  /\ (single_volume_command p = true -> more_than_one (target p) = false ->
      more_than_one (volume_id p) = true ->
      r = (Exit (kw_msg_failed (Format TARGET_ERR_MSG [JStr "virtual drive"])),
           [])).
Proof.
  intros Ha p r. subst p r. unfold run, main. rewrite Ha. cbn [negb when].
  unfold validate_inputs. split.
  - intros Hc Hm. unfold single_target_command in Hc. cmd_cases Hc;
      rewrite Hc0;
      cbn [cmd_is cmd_in existsb String.eqb Ascii.eqb Bool.eqb orb andb];
      rewrite Hm; reflexivity.
  - intros Hc Hm Hv. unfold single_volume_command in Hc. cmd_cases Hc;
      rewrite Hc0;
      cbn [cmd_is cmd_in existsb String.eqb Ascii.eqb Bool.eqb orb andb];
      rewrite Hm, Hv; reflexivity.
Qed.

Lemma two_spares_rejected :
  let p := request_for "AssignSpare" None None (Some [drive0; drive1]) None in
  run (main plain_ext (mkModule p false) (rf_drive "None" "Ready"))
  = (Exit (kw_msg_failed (Format TARGET_ERR_MSG [JStr "physical disk"])), []).
Proof.
  exact (proj1 (several_targets_rejected plain_ext
           (mkModule (request_for "AssignSpare" None None
                                  (Some [drive0; drive1]) None) false)
           (rf_drive "None" "Ready") eq_refl) eq_refl eq_refl).
Defined.

(** X4.  With local key management (mode LKM) ReKey needs key, key_id and
    old_key, and EnableControllerEncryption needs key and key_id; a value
    that is missing or empty fails the request before anything is sent.  In
    any other mode nothing is required of them. *)
Theorem key_material_required ext module rf :
  attributes_given (params module) = false ->
  let p := params module in
  let r := run (main ext module rf) in
  (command p = Some "ReKey" -> mode p = "LKM" ->
   truthy_opt (key p) && truthy_opt (key_id p) && truthy_opt (old_key p) = false ->
   r = (Exit (kw_msg_failed
                (Format "All of the following: key, key_id and old_key are required for '{0}' operation."
                        [JStr "ReKey"])), []))
  /\ (command p = Some "EnableControllerEncryption" -> mode p = "LKM" ->
      truthy_opt (key p) && truthy_opt (key_id p) = false ->
      r = (Exit (kw_msg_failed
                   (Format "All of the following: key, key_id are required for '{0}' operation."
                           [JStr "EnableControllerEncryption"])), []))
  /\ ((command p = Some "ReKey" \/ command p = Some "EnableControllerEncryption") ->
      mode p <> "LKM" -> validate_inputs module [] = (Ret tt, [])).
Proof.
  intros Ha p r. subst p r. unfold run, main. rewrite Ha. cbn [negb when].
  unfold validate_inputs. repeat split.
  - intros Hc Hm Hk. rewrite Hc, Hm.
    cbn [cmd_is String.eqb Ascii.eqb Bool.eqb andb]. rewrite Hk. reflexivity.
  - intros Hc Hm Hk. rewrite Hc, Hm.
    cbn [cmd_is String.eqb Ascii.eqb Bool.eqb andb]. rewrite Hk. reflexivity.
  - intros Hc Hm. apply String.eqb_neq in Hm.
    destruct Hc as [Hc|Hc]; rewrite Hc, Hm; reflexivity.
Qed.

Lemma rekey_without_old_key :
  let p := mkParams None (Some "ReKey") (Some controller1) None None
                    (Some "NewPassphrase1") (Some "mykeyid123") None
                    "LKM" "Immediate" None false 120 None in
  run (main plain_ext (mkModule p false) rf_key_assigned)
  = (Exit (kw_msg_failed
             (Format "All of the following: key, key_id and old_key are required for '{0}' operation."
                     [JStr "ReKey"])), []).
Proof.
  exact (proj1 (key_material_required plain_ext
           (mkModule (mkParams None (Some "ReKey") (Some controller1) None None
                               (Some "NewPassphrase1") (Some "mykeyid123") None
                               "LKM" "Immediate" None false 120 None) false)
           rf_key_assigned eq_refl) eq_refl eq_refl eq_refl).
Defined.

(* ------------------------------------------------------------------ *)
(** ** Empty lists *)

(** X5.  [validate_inputs] lets an empty target list through.  A command
    that reads its first target then raises IndexError before any request;
    none of the [except] clauses of [main] handles it. *)
Theorem empty_target_list_raises ext module rf :
  attributes_given (params module) = false ->
  first_target_command (params module) = true ->
  target (params module) = Some [] ->
  more_than_one (volume_id (params module)) = false ->
  run (main ext module rf) = (Raise (IndexError "list index out of range"), []).
Proof.
  intros Ha Hc Ht Hv. unfold run, main. rewrite Ha. cbn [negb when].
  unfold validate_inputs, main_handlers, main_body, run_command.
  unfold first_target_command in Hc. cmd_cases Hc; rewrite Hc0;
    cbn [cmd_is cmd_in existsb String.eqb Ascii.eqb Bool.eqb orb andb];
    rewrite Ht; try rewrite Hv; cbn [more_than_one length Nat.leb negb when];
    unfold hot_spare_config, target_identify_pattern, change_pd_status,
      secure_erase, validate_secure_erase;
    rewrite Ht; try (destruct (volume_id (params module))); reflexivity.
Qed.

Lemma unassign_nothing_raises :
  let p := request_for "UnassignSpare" None None (Some []) None in
  run (main plain_ext (mkModule p false) (rf_drive "None" "Ready"))
  = (Raise (IndexError "list index out of range"), []).
Proof.
  exact (empty_target_list_raises plain_ext
           (mkModule (request_for "UnassignSpare" None None (Some []) None) false)
           (rf_drive "None" "Ready") eq_refl eq_refl eq_refl eq_refl).
Defined.

(** X6.  A conversion of no drives reads nothing and changes nothing: with
    an empty target list ConvertToRAID and ConvertToNonRAID exit with "No
    changes found to be applied." without a single request, in check mode or
    not. *)
Theorem convert_nothing_is_noop ext module rf :
  attributes_given (params module) = false ->
  convert_command (params module) = true ->
  target (params module) = Some [] ->
  run (main ext module rf) = (Exit no_changes, []).
Proof.
  intros Ha Hc Ht. unfold run, main. rewrite Ha. cbn [negb when].
  unfold validate_inputs, main_handlers, main_body, run_command.
  unfold convert_command in Hc. cmd_cases Hc; rewrite Hc0;
    cbn [cmd_is cmd_in existsb String.eqb Ascii.eqb Bool.eqb orb andb];
    destruct (String.eqb (mode (params module)) "LKM");
    unfold convert_raid_status; rewrite Ht, Hc0;
    destruct (check_mode module); reflexivity.
Qed.

Lemma convert_nothing_example :
  let p := request_for "ConvertToRAID" None None (Some []) None in
  run (main plain_ext (mkModule p true) (rf_drive "None" "NonRAID"))
  = (Exit no_changes, []).
Proof.
  exact (convert_nothing_is_noop plain_ext
           (mkModule (request_for "ConvertToRAID" None None (Some []) None) true)
           (rf_drive "None" "NonRAID") eq_refl eq_refl eq_refl).
Defined.

(* ------------------------------------------------------------------ *)
(** ** Secure erase *)

Lemma run_match_id_in_list id members urls t :
  traverse link_of members = Some urls ->
  match_id_in_list (Some id) members t
  = (Ret (match find (str_contains id) urls with
          | Some u => JStr u
          | None => JNull
          end), t).
Proof.
  revert urls. induction members as [|disk rest IH]; intros urls H.
  - inversion H. reflexivity.
  - cbn [traverse] in H. read_chain H. inversion H; subst urls.
    apply link_of_item in R.
    cbn [match_id_in_list]. unfold bind at 1.
    erewrite run_py_item by eassumption. cbv beta iota.
    unfold bind at 1. cbn [py_contains]. unfold ret at 1. cbv beta iota.
    cbn [find]. destruct (str_contains id x); [reflexivity|].
    apply IH. exact R0.
Qed.

(** X7.  [match_id_in_list] returns the first member link that contains the
    identifier, and [None] when no link does.  A member without a link that
    comes before any match raises KeyError. *)
Theorem match_id_in_list_first id t :
  (forall members urls,
      traverse link_of members = Some urls ->
      match_id_in_list (Some id) members t
      = (Ret (match find (str_contains id) urls with
              | Some u => JStr u
              | None => JNull
              end), t))
  /\ (forall before urls kv after,
         traverse link_of before = Some urls ->
         find (str_contains id) urls = None ->
         assoc "@odata.id" kv = None ->
         match_id_in_list (Some id) (before ++ JObj kv :: after) t
         = (Raise (KeyError "@odata.id"), t)).
Proof.
  split.
  - intros members urls H. apply run_match_id_in_list. exact H.
  - induction before as [|disk rest IH]; intros urls kv after H Hf Hk.
    + cbn [app match_id_in_list]. unfold bind at 1. cbn [py_item].
      rewrite Hk. reflexivity.
    + cbn [traverse] in H. read_chain H. inversion H; subst urls.
      cbn [find] in Hf. cbn [app]. apply link_of_item in R.
      cbn [match_id_in_list]. unfold bind at 1.
      erewrite run_py_item by eassumption. cbv beta iota.
      unfold bind at 1. cbn [py_contains]. unfold ret at 1. cbv beta iota.
      destruct (str_contains id x); [discriminate|].
      apply (IH x0); assumption.
Qed.

Lemma second_controller_found :
  match_id_in_list (Some "RAID.Slot.1-1")
    [member "/redfish/v1/Systems/System.Embedded.1/Storage/AHCI.Embedded.1-1";
     member "/redfish/v1/Systems/System.Embedded.1/Storage/RAID.Slot.1-1"] []
  = (Ret (JStr "/redfish/v1/Systems/System.Embedded.1/Storage/RAID.Slot.1-1"),
     []).
Proof.
  exact (proj1 (match_id_in_list_first "RAID.Slot.1-1" [])
           [member "/redfish/v1/Systems/System.Embedded.1/Storage/AHCI.Embedded.1-1";
            member "/redfish/v1/Systems/System.Embedded.1/Storage/RAID.Slot.1-1"]
           ["/redfish/v1/Systems/System.Embedded.1/Storage/AHCI.Embedded.1-1";
            "/redfish/v1/Systems/System.Embedded.1/Storage/RAID.Slot.1-1"]
           eq_refl).
Defined.

Lemma run_py_get_default d k dflt v t :
  field_default d k dflt = Some v -> py_get_default d k dflt t = (Ret v, t).
Proof.
  destruct d; simpl; intros H; inversion H; reflexivity.
Qed.

Section SecureEraseLookup.

Variables (ext : collaborators) (module : module_t) (rf : remote).
Variables (drive_id cid : string) (more : list string).
Variables (uri err storage storage_uri : json).
Variables (members : list json) (controllers : list string).
Variables (t0 t1 t2 t3 : trace).

Hypothesis Htarget : target (params module) = Some (drive_id :: more).
Hypothesis Hcid : controller_id (params module) = Some cid.
Hypothesis Hsystem :
  validate_and_get_first_resource_id_uri ext module rf SYSTEMS_URI t0
  = (Ret (uri, err), t1).
Hypothesis Herr : truthy err = false.
Hypothesis Hstorage :
  get_dynamic_uri ext rf uri (Some "Storage") t1 = (Ret storage, t2).
Hypothesis Hstorage_uri : item storage "@odata.id" = Some storage_uri.
Hypothesis Hmembers :
  get_dynamic_uri ext rf storage_uri (Some "Members") t2
  = (Ret (JArr members), t3).
Hypothesis Hcontrollers : traverse link_of members = Some controllers.

(** [validate_secure_erase] up to the lookup of the controller. *)
Lemma run_erase_lookup :
  validate_secure_erase ext module rf t0
  = (let controller_uri :=
       match find (str_contains cid) controllers with
       | Some u => JStr u
       | None => JNull
       end in
     when (is_none controller_uri)
          (exit_json (kw_msg_failed (Format CNTRL_ERROR_MSG [JStr cid]))) ;;;
     drives_list <- get_dynamic_uri ext rf controller_uri (Some "Drives") ;;
     drives_list <- as_list drives_list ;;
     drive_uri <- match_id_in_list (Some drive_id) drives_list ;;
     when (is_none drive_uri)
          (exit_json (kw_msg (Format PD_ERROR_MSG [JStr drive_id; JBool true]))) ;;;
     drive_detail <- get_dynamic_uri ext rf drive_uri None ;;
     firm_ver <- get_idrac_firmware_version ext rf ;;
     when (LooseVersion_ge ext firm_ver "3.0")
          (oem <- py_get_default drive_detail "Oem" (JObj []) ;;
           dell_oem <- py_get_default oem "Dell" (JObj []) ;;
           dell_disk <- (fun t =>
                           match py_item dell_oem "DellPhysicalDisk" t with
                           | (Raise (KeyError _), t') =>
                               py_get_default dell_oem "DellPCIeSSD" (JObj []) t'
                           | other => other
                           end) ;;
           drive_ready <- py_get_default dell_disk "RaidStatus" (JObj []) ;;
           when (negb (eq_str drive_ready "Ready"))
                (exit_json (kw_msg_skipped (Format DRIVE_NOT_READY [JStr drive_id]))) ;;;
           capable <- py_get_default dell_disk "SystemEraseCapability" (JObj []) ;;
           when (negb (eq_str capable "CryptographicErasePD"))
                (exit_json (kw_msg_skipped
                              (Format DRIVE_NOT_SECURE_ERASE [JStr drive_id])))) ;;;
     ret (drive_uri, "RealTimeNoRebootConfiguration")) t3.
Proof.
  unfold validate_secure_erase. rewrite Htarget, Hcid.
  unfold bind at 1. cbn [py_first]. unfold ret at 1. cbv beta iota.
  unfold bind at 1. rewrite Hsystem. cbv beta iota.
  rewrite Herr. unfold bind at 1. cbn [when]. unfold ret at 1. cbv beta iota.
  unfold bind at 1. rewrite Hstorage. cbv beta iota.
  unfold bind at 1. erewrite run_py_item by eassumption. cbv beta iota.
  unfold bind at 1. rewrite Hmembers. cbv beta iota.
  unfold bind at 1. cbn [as_list]. unfold ret at 1. cbv beta iota.
  unfold bind at 1. rewrite (run_match_id_in_list _ _ _ _ Hcontrollers).
  cbv beta iota zeta. cbn [oj]. reflexivity.
Qed.

(** X8.  SecureErase looks the controller up among the members of the
    storage collection and the drive among the drives of that controller.
    An unknown controller is a failure.  An unknown drive ends the module
    with the "Unable to locate the physical disk" message, but not as a
    failure: the [failed] flag is given to [str.format], not to
    [exit_json]. *)
Theorem erase_lookup_outcomes :
  (find (str_contains cid) controllers = None ->
   validate_secure_erase ext module rf t0
   = (Exit (kw_msg_failed (Format CNTRL_ERROR_MSG [JStr cid])), t3))
  /\ (forall controller drives links t4,
         find (str_contains cid) controllers = Some controller ->
         get_dynamic_uri ext rf (JStr controller) (Some "Drives") t3
         = (Ret (JArr drives), t4) ->
         traverse link_of drives = Some links ->
         find (str_contains drive_id) links = None ->
         exists o,
           validate_secure_erase ext module rf t0 = (Exit o, t4)
           /\ msg o = Some (Format PD_ERROR_MSG [JStr drive_id; JBool true])
           /\ failed o = false).
Proof.
  rewrite run_erase_lookup. split.
  - intros H. rewrite H. reflexivity.
  - intros controller drives links t4 H Hd Hl Hf. rewrite H.
    cbv zeta. cbn [is_none when]. unfold bind at 1. unfold ret at 1.
    cbv beta iota.
    unfold bind at 1. rewrite Hd. cbv beta iota.
    unfold bind at 1. cbn [as_list]. unfold ret at 1. cbv beta iota.
    unfold bind at 1. rewrite (run_match_id_in_list _ _ _ _ Hl). rewrite Hf.
    cbv beta iota. cbn [is_none when].
    eexists. split; [reflexivity|]. split; reflexivity.
Qed.

Variables (controller : string) (drives : list json) (links : list string).
Variables (link : string) (drive_detail : json) (firm_ver : string).
Variables (t4 t5 t6 : trace).

Hypothesis Hcontroller : find (str_contains cid) controllers = Some controller.
Hypothesis Hdrives :
  get_dynamic_uri ext rf (JStr controller) (Some "Drives") t3
  = (Ret (JArr drives), t4).
Hypothesis Hlinks : traverse link_of drives = Some links.
Hypothesis Hlink : find (str_contains drive_id) links = Some link.
Hypothesis Hdetail :
  get_dynamic_uri ext rf (JStr link) None t4 = (Ret drive_detail, t5).
Hypothesis Hversion : get_idrac_firmware_version ext rf t5 = (Ret firm_ver, t6).

(** [validate_secure_erase] once the drive is found. *)
Lemma run_erase_found :
  validate_secure_erase ext module rf t0
  = (when (LooseVersion_ge ext firm_ver "3.0")
          (oem <- py_get_default drive_detail "Oem" (JObj []) ;;
           dell_oem <- py_get_default oem "Dell" (JObj []) ;;
           dell_disk <- (fun t =>
                           match py_item dell_oem "DellPhysicalDisk" t with
                           | (Raise (KeyError _), t') =>
                               py_get_default dell_oem "DellPCIeSSD" (JObj []) t'
                           | other => other
                           end) ;;
           drive_ready <- py_get_default dell_disk "RaidStatus" (JObj []) ;;
           when (negb (eq_str drive_ready "Ready"))
                (exit_json (kw_msg_skipped (Format DRIVE_NOT_READY [JStr drive_id]))) ;;;
           capable <- py_get_default dell_disk "SystemEraseCapability" (JObj []) ;;
           when (negb (eq_str capable "CryptographicErasePD"))
                (exit_json (kw_msg_skipped
                              (Format DRIVE_NOT_SECURE_ERASE [JStr drive_id])))) ;;;
     ret (JStr link, "RealTimeNoRebootConfiguration")) t6.
Proof.
  rewrite run_erase_lookup.
  rewrite Hcontroller. cbv zeta. cbn [is_none when].
  unfold bind at 1. unfold ret at 1. cbv beta iota.
  unfold bind at 1. rewrite Hdrives. cbv beta iota.
  unfold bind at 1. cbn [as_list]. unfold ret at 1. cbv beta iota.
  unfold bind at 1. rewrite (run_match_id_in_list _ _ _ _ Hlinks). rewrite Hlink.
  cbv beta iota. cbn [is_none when].
  unfold bind at 1. unfold ret at 1. cbv beta iota.
  unfold bind at 1. rewrite Hdetail. cbv beta iota.
  unfold bind at 1. rewrite Hversion. cbv beta iota.
  reflexivity.
Qed.

(** X9.  Once the drive is found, firmware from 3.0 on is asked whether the
    drive can be erased: the drive must be in the Ready state and support
    cryptographic erase, as its DellPhysicalDisk entry says, or its
    DellPCIeSSD entry when it has no DellPhysicalDisk entry.  A drive that
    is not ready is skipped with "is not in ready state", whatever its erase
    capability; a ready drive that lacks the capability is skipped with
    "does not support secure erase operation".  Older firmware is not asked
    at all. *)
Theorem erase_readiness :
  let r := validate_secure_erase ext module rf t0 in
  let found := (Ret (JStr link, "RealTimeNoRebootConfiguration"), t6) in
  (LooseVersion_ge ext firm_ver "3.0" = false -> r = found)
  /\ (LooseVersion_ge ext firm_ver "3.0" = true ->
      forall disk ready capable,
        erase_disk_of drive_detail = Some disk ->
        field_default disk "RaidStatus" (JObj []) = Some ready ->
        field_default disk "SystemEraseCapability" (JObj []) = Some capable ->
        r = if negb (eq_str ready "Ready")
            then (Exit (kw_msg_skipped (Format DRIVE_NOT_READY [JStr drive_id])),
                  t6)
            else if negb (eq_str capable "CryptographicErasePD")
                 then (Exit (kw_msg_skipped
                               (Format DRIVE_NOT_SECURE_ERASE [JStr drive_id])),
                       t6)
                 else found).
Proof.
  intros r found. subst r found. split.
  - intros Hv. rewrite run_erase_found, Hv. reflexivity.
  - intros Hv disk ready capable Hdisk Hready Hcap.
    rewrite run_erase_found, Hv.
    unfold erase_disk_of in Hdisk. read_chain Hdisk.
    cbn [when].
    unfold bind at 1. unfold bind at 1.
    erewrite run_py_get_default by eassumption. cbv beta iota.
    unfold bind at 1.
    erewrite run_py_get_default by eassumption. cbv beta iota.
    assert (Hd : (fun t =>
                    match py_item x0 "DellPhysicalDisk" t with
                    | (Raise (KeyError _), t') =>
                        py_get_default x0 "DellPCIeSSD" (JObj []) t'
                    | other => other
                    end) t6 = (Ret disk, t6)).
    { cbv beta. destruct x0; try discriminate. cbn [item] in Hdisk.
      cbn [py_item]. destruct (assoc "DellPhysicalDisk" kv).
      - inversion Hdisk. reflexivity.
      - cbn [raise]. apply run_py_get_default. exact Hdisk. }
    unfold bind at 1. rewrite Hd. cbv beta iota.
    unfold bind at 1.
    erewrite run_py_get_default by eassumption. cbv beta iota.
    destruct (eq_str ready "Ready"); cbn [negb when]; [|reflexivity].
    unfold bind at 1. unfold ret at 1. cbv beta iota.
    unfold bind at 1.
    erewrite run_py_get_default by eassumption. cbv beta iota.
    destruct (eq_str capable "CryptographicErasePD"); reflexivity.
Qed.

End SecureEraseLookup.

Lemma unknown_drive_not_failed :
  let p := request_for "SecureErase" (Some controller1) None (Some [drive1])
                       None in
  exists o,
    validate_secure_erase plain_ext (mkModule p false) rf_erasable []
    = (Exit o, [mkRequest GET (storage_path ++ "/" ++ controller1) None;
                mkRequest GET storage_path None;
                mkRequest GET (SYSTEMS_URI ++ SYSTEM_ID) None])
    /\ msg o = Some (Format PD_ERROR_MSG [JStr drive1; JBool true])
    /\ failed o = false.
Proof.
  exact (proj2 (erase_lookup_outcomes plain_ext
             (mkModule (request_for "SecureErase" (Some controller1) None
                                    (Some [drive1]) None) false)
             rf_erasable drive1 controller1 []
             (JStr (SYSTEMS_URI ++ SYSTEM_ID)) (JStr "")
             (member storage_path) (JStr storage_path)
             [member (storage_path ++ "/" ++ controller1)]
             [(storage_path ++ "/" ++ controller1)%string]
             [] [] [mkRequest GET (SYSTEMS_URI ++ SYSTEM_ID) None]
             [mkRequest GET storage_path None;
              mkRequest GET (SYSTEMS_URI ++ SYSTEM_ID) None]
             eq_refl eq_refl eq_refl eq_refl eq_refl eq_refl eq_refl eq_refl)
            (storage_path ++ "/" ++ controller1)%string
            [member (drive_path drive0)] [drive_path drive0]
            [mkRequest GET (storage_path ++ "/" ++ controller1) None;
             mkRequest GET storage_path None;
             mkRequest GET (SYSTEMS_URI ++ SYSTEM_ID) None]
            eq_refl eq_refl eq_refl eq_refl).
Defined.

Lemma unready_drive_skipped :
  let p := request_for "SecureErase" (Some controller1) None (Some [drive0])
                       None in
  validate_secure_erase plain_ext (mkModule p false) rf_not_ready []
  = (Exit (kw_msg_skipped (Format DRIVE_NOT_READY [JStr drive0])),
     [mkRequest GET (drive_path drive0) None;
      mkRequest GET (storage_path ++ "/" ++ controller1) None;
      mkRequest GET storage_path None;
      mkRequest GET (SYSTEMS_URI ++ SYSTEM_ID) None]).
Proof.
  exact (proj2 (erase_readiness plain_ext
             (mkModule (request_for "SecureErase" (Some controller1) None
                                    (Some [drive0]) None) false)
             rf_not_ready drive0 controller1 []
             (JStr (SYSTEMS_URI ++ SYSTEM_ID)) (JStr "")
             (member storage_path) (JStr storage_path)
             [member (storage_path ++ "/" ++ controller1)]
             [(storage_path ++ "/" ++ controller1)%string]
             [] [] [mkRequest GET (SYSTEMS_URI ++ SYSTEM_ID) None]
             [mkRequest GET storage_path None;
              mkRequest GET (SYSTEMS_URI ++ SYSTEM_ID) None]
             eq_refl eq_refl eq_refl eq_refl eq_refl eq_refl eq_refl eq_refl
             (storage_path ++ "/" ++ controller1)%string
             [member (drive_path drive0)] [drive_path drive0]
             (drive_path drive0)
             (JObj [("Oem", JObj [("Dell", JObj [("DellPCIeSSD",
                       JObj [("RaidStatus", JStr "Online");
                             ("SystemEraseCapability", JStr "None")])])]);
                    ("Actions", JObj [("#Drive.SecureErase",
                                       JObj [("target", JStr erase_path)])])])
             "6.10.00.00"
             [mkRequest GET (storage_path ++ "/" ++ controller1) None;
              mkRequest GET storage_path None;
              mkRequest GET (SYSTEMS_URI ++ SYSTEM_ID) None]
             [mkRequest GET (drive_path drive0) None;
              mkRequest GET (storage_path ++ "/" ++ controller1) None;
              mkRequest GET storage_path None;
              mkRequest GET (SYSTEMS_URI ++ SYSTEM_ID) None]
             [mkRequest GET (drive_path drive0) None;
              mkRequest GET (storage_path ++ "/" ++ controller1) None;
              mkRequest GET storage_path None;
              mkRequest GET (SYSTEMS_URI ++ SYSTEM_ID) None]
             eq_refl eq_refl eq_refl eq_refl eq_refl eq_refl)
           eq_refl
           (JObj [("RaidStatus", JStr "Online");
                  ("SystemEraseCapability", JStr "None")])
           (JStr "Online") (JStr "None") eq_refl eq_refl eq_refl).
Defined.

(** X10.  SecureErase has no dry run.  Once the drive has passed the
    validation, a job that is already scheduled ends the module with the
    "another job already exists" message and nothing is sent; otherwise the
    erase is posted to the target the drive advertises for its SecureErase
    action, with the body [{}], in check mode as in a real run. *)
Theorem erase_submission ext module rf drive_uri job_type scheduled t0 t1 t2 :
  validate_secure_erase ext module rf t0 = (Ret (drive_uri, job_type), t1) ->
  get_scheduled_job_resp ext rf job_type t1 = (Ret scheduled, t2) ->
  let r := secure_erase ext module rf t0 in
  (truthy scheduled = true ->
   r = (Exit (kw_msg (Text JOB_EXISTS)), t2)
   /\ changed (kw_msg (Text JOB_EXISTS)) = false
   /\ failed (kw_msg (Text JOB_EXISTS)) = false)
  /\ (truthy scheduled = false ->
      forall actions target t3,
        get_dynamic_uri ext rf drive_uri (Some "Actions") t2 = (Ret actions, t3) ->
        erase_target_of actions = Some target ->
        snd r = mkRequest POST target (Some (JStr "{}")) :: t3
        /\ (forall resp location,
               rf POST target (Some (JStr "{}")) = Resp resp ->
               assoc "Location" (headers resp) = Some location ->
               fst r = Ret (resp, location, split_last "/" location))).
Proof.
  intros Hv Hs r.
  assert (E : r = (when (truthy scheduled) (exit_json (kw_msg (Text JOB_EXISTS))) ;;;
                   action_uri <- get_dynamic_uri ext rf drive_uri (Some "Actions") ;;
                   erase <- py_get action_uri "#Drive.SecureErase" ;;
                   secure_erase_uri <- py_get erase "target" ;;
                   secure_erase_uri <- as_uri secure_erase_uri ;;
                   resp <- invoke_request rf POST secure_erase_uri
                             (Some (JStr "{}")) ;;
                   job_of_location resp) t2).
  { unfold r, secure_erase. unfold bind at 1. rewrite Hv. cbv beta iota.
    unfold bind at 1. rewrite Hs. reflexivity. }
  split.
  - intros Ht. rewrite E, Ht. repeat split.
  - intros Ht actions target t3 Ha Htarget.
    assert (E' : r = (resp <- invoke_request rf POST target (Some (JStr "{}")) ;;
                      job_of_location resp) t3).
    { rewrite E, Ht.
      unfold erase_target_of in Htarget. read_chain Htarget.
      destruct x0; try discriminate. inversion Htarget; subst s.
      cbn [when]. unfold bind at 1. unfold ret at 1. cbv beta iota.
      unfold bind at 1. rewrite Ha. cbv beta iota.
      mrun. unfold bind at 1. cbn [as_uri]. unfold ret at 1. cbv beta iota.
      reflexivity. }
    rewrite E'. unfold bind, invoke_request, job_of_location.
    split.
    + destruct (rf POST target (Some (JStr "{}"))) as [resp|b|u];
        try reflexivity.
      destruct (assoc "Location" (headers resp)); reflexivity.
    + intros resp location Hr Hl. rewrite Hr, Hl. reflexivity.
Qed.

Lemma erase_posted_in_check_mode :
  let p := request_for "SecureErase" (Some controller1) None (Some [drive0])
                       None in
  snd (secure_erase plain_ext (mkModule p true) rf_erasable [])
  = [mkRequest POST erase_path (Some (JStr "{}"));
     mkRequest GET (drive_path drive0) None;
     mkRequest GET (drive_path drive0) None;
     mkRequest GET (storage_path ++ "/" ++ controller1) None;
     mkRequest GET storage_path None;
     mkRequest GET (SYSTEMS_URI ++ SYSTEM_ID) None].
Proof.
  refine (proj1 (proj2 (erase_submission plain_ext
             (mkModule (request_for "SecureErase" (Some controller1) None
                                    (Some [drive0]) None) true)
             rf_erasable (JStr (drive_path drive0))
             "RealTimeNoRebootConfiguration" (JObj [])
             []
             [mkRequest GET (drive_path drive0) None;
              mkRequest GET (storage_path ++ "/" ++ controller1) None;
              mkRequest GET storage_path None;
              mkRequest GET (SYSTEMS_URI ++ SYSTEM_ID) None]
             [mkRequest GET (drive_path drive0) None;
              mkRequest GET (storage_path ++ "/" ++ controller1) None;
              mkRequest GET storage_path None;
              mkRequest GET (SYSTEMS_URI ++ SYSTEM_ID) None]
             eq_refl eq_refl) eq_refl
           (JObj [("#Drive.SecureErase", JObj [("target", JStr erase_path)])])
           erase_path
           [mkRequest GET (drive_path drive0) None;
            mkRequest GET (drive_path drive0) None;
            mkRequest GET (storage_path ++ "/" ++ controller1) None;
            mkRequest GET storage_path None;
            mkRequest GET (SYSTEMS_URI ++ SYSTEM_ID) None]
           eq_refl eq_refl)).
Defined.

(* ------------------------------------------------------------------ *)
(** ** The attribute diff *)

Lemma dict_set_fresh {A : Type} (kv : list (string * A)) k v :
  ~ In k (map fst kv) -> dict_set kv k v = kv ++ [(k, v)].
Proof.
  induction kv as [|[k' v'] kv IH]; simpl; intros H; [reflexivity|].
  destruct (String.eqb k k') eqn:E.
  - apply String.eqb_eq in E. subst. exfalso. apply H. left. reflexivity.
  - rewrite IH; [reflexivity|]. intros Hin. apply H. right. exact Hin.
Qed.

Lemma assoc_nodup {A : Type} (kv : list (string * A)) k v :
  NoDup (map fst kv) -> In (k, v) kv -> assoc k kv = Some v.
Proof.
  induction kv as [|[k' v'] kv IH]; simpl; intros Hn Hin; [contradiction|].
  inversion Hn; subst.
  destruct Hin as [Heq|Hin].
  - inversion Heq; subst. rewrite String.eqb_refl. reflexivity.
  - destruct (String.eqb k k') eqn:E.
    + apply String.eqb_eq in E. subst k'. exfalso. apply H1.
      apply (in_map fst) in Hin. exact Hin.
    + apply IH; assumption.
Qed.

(** The loop of [check_attr_exists] over names that the controller has
    collects the entries that differ. *)
Lemma run_check_attr_diff curr inp rest :
  forall invalid pending diff t,
    (forall k v, In (k, v) rest -> assoc k inp = Some v) ->
    (forall k, In k (map fst rest) -> given (assoc k curr) = true) ->
    NoDup (map fst pending ++ map fst rest) ->
    check_attr_loop (JObj curr) inp (map fst rest) (invalid, pending, diff) t
    = (Ret (invalid, pending ++ differing curr rest,
            diff || match differing curr rest with [] => false | _ => true end),
       t).
Proof.
  induction rest as [|[k v] rest IH]; intros invalid pending diff t Hinp Hcur Hnd.
  - cbn. rewrite app_nil_r, orb_false_r. reflexivity.
  - cbn [map fst check_attr_loop]. unfold bind at 1. cbn [not_in_keys].
    unfold ret at 1. cbv beta iota.
    pose proof (Hcur k (or_introl eq_refl)) as Hk.
    destruct (assoc k curr) as [cur|] eqn:E; [|discriminate].
    unfold bind at 1. cbn [py_item]. rewrite E. unfold ret at 1. cbv beta iota.
    assert (Hv : dict_get inp k = v).
    { unfold dict_get. rewrite (Hinp k v (or_introl eq_refl)). reflexivity. }
    rewrite Hv.
    assert (Hd : differing curr ((k, v) :: rest)
                 = if negb (py_eq cur v) then (k, v) :: differing curr rest
                   else differing curr rest).
    { unfold differing. cbn [filter fst snd]. unfold dict_get. rewrite E.
      reflexivity. }
    rewrite Hd.
    assert (Hnd' : ~ In k (map fst pending) /\ NoDup (map fst pending ++ map fst rest)).
    { cbn [map fst] in Hnd. split.
      - intros Hin. apply NoDup_remove_2 in Hnd. apply Hnd.
        apply in_or_app. left. exact Hin.
      - apply NoDup_remove_1 in Hnd. exact Hnd. }
    destruct Hnd' as [Hfresh Hnd'].
    destruct (negb (py_eq cur v)).
    + rewrite IH.
      * rewrite (dict_set_fresh pending k v Hfresh). rewrite <- app_assoc.
        cbn [app]. rewrite orb_true_r. reflexivity.
      * intros k' v' Hin. apply Hinp. right. exact Hin.
      * intros k' Hin. apply Hcur. right. exact Hin.
      * rewrite (dict_set_fresh pending k v Hfresh).
        rewrite map_app. cbn [map fst]. rewrite <- app_assoc. exact Hnd.
    + rewrite IH; [reflexivity| | |exact Hnd'].
      * intros k' v' Hin. apply Hinp. right. exact Hin.
      * intros k' Hin. apply Hcur. right. exact Hin.
Qed.

Lemma absent_none curr inp :
  absent_names curr inp = [] ->
  forall k, In k (map fst inp) -> given (assoc k curr) = true.
Proof.
  unfold absent_names. intros H k Hin.
  destruct (given (assoc k curr)) eqn:E; [reflexivity|].
  assert (In k (filter (fun k => negb (given (assoc k curr))) (map fst inp))).
  { apply filter_In. split; [exact Hin|]. rewrite E. reflexivity. }
  rewrite H in H0. contradiction.
Qed.

(** [check_attr_exists] on a request all of whose names the controller has. *)
Lemma run_check_attr_exists module curr inp t :
  NoDup (map fst inp) ->
  absent_names curr inp = [] ->
  check_attr_exists module (JObj curr) inp t
  = match differing curr inp with
    | [] => (Exit no_changes, t)
    | _ => if check_mode module then (Exit changes_found, t)
           else (Ret (differing curr inp), t)
    end.
Proof.
  intros Hnd Habs. unfold check_attr_exists. unfold bind at 1.
  rewrite (run_check_attr_diff curr inp inp [] [] false t).
  - cbv beta iota. cbn [app orb when].
    destruct (differing curr inp) as [|e l]; cbn [negb andb].
    + reflexivity.
    + destruct (check_mode module); reflexivity.
  - intros k v Hin. apply assoc_nodup; assumption.
  - apply absent_none. exact Habs.
  - exact Hnd.
Qed.

(** [set_attributes] up to the settings-apply request, on a request all of
    whose names the controller has. *)
Lemma run_set_attributes_diff module rf doc curr inp :
  read_attributes rf (controller_id (params module)) = Some (doc, curr) ->
  attributes (params module) = Some inp ->
  NoDup (map fst inp) ->
  hba_rule_trips inp = false ->
  absent_names curr inp = [] ->
  let read := [mkRequest GET (attributes_uri_of (params module)) None] in
  run (set_attributes module rf)
  = match differing curr inp with
    | [] => (Exit no_changes, read)
    | _ => if check_mode module then (Exit changes_found, read)
           else (settings <- py_get_default doc "@Redfish.Settings" (JObj []) ;;
                 time_settings <- py_get_default settings
                                    "SupportedApplyTimes" (JArr []) ;;
                 apply_attributes module rf (differing curr inp) time_settings)
                  read
    end.
Proof.
  intros R Hinp Hnd Hh Habs read. subst read. unfold run.
  rewrite (run_set_attributes_reads _ _ _ _ _ R _ Hinp). rewrite Hh.
  unfold when at 1. unfold bind at 1. unfold ret at 1. cbv beta iota.
  unfold bind at 1. rewrite (run_check_attr_exists _ _ _ _ Hnd Habs).
  unfold attributes_uri_of.
  destruct (differing curr inp); [reflexivity|].
  destruct (check_mode module); reflexivity.
Qed.

(** [apply_attributes] once the apply-time directive is settled. *)
Lemma run_apply_attributes module rf pending time_settings time_set t0 t :
  get_redfish_apply_time module rf (apply_time (params module)) time_settings t0
  = (Ret time_set, t) ->
  apply_attributes module rf pending time_settings t0
  = (resp <-
       try_http
         (resp <- invoke_request rf PATCH (settings_uri_of (params module))
                    (Some (settings_payload pending time_set)) ;;
          has_error <- (if Z.eqb (status_code resp) 202
                        then py_contains (json_data resp) "error"
                        else ret false) ;;
          when has_error
               (e <- py_get (json_data resp) "error" ;;
                info <- py_get_default e "@Message.ExtendedInfo" (JArr [JObj []]) ;;
                first <- py_head info ;;
                msg_err_id <- py_get first "MessageId" ;;
                created <- py_contains msg_err_id "Created" ;;
                when (negb created)
                     (exit_json (kw_msg_error_failed (Text ERR_MSG)
                                                     (json_data resp)))) ;;;
          ret resp)
         (fun body =>
            err <- py_get body "error" ;;
            exit_json (kw_msg_error_failed (Text ERR_MSG) err)) ;;
     match assoc "Location" (headers resp) with
     | Some loc => ret (split_last "/" loc, time_set)
     | None => raise (KeyError "Location")
     end) t.
Proof.
  intros H. unfold apply_attributes. unfold bind at 1. rewrite H. reflexivity.
Qed.

(** The settings-apply request is the one request [apply_attributes] adds
    once the directive is settled. *)
Lemma apply_attributes_trace module rf pending time_settings time_set t0 t :
  get_redfish_apply_time module rf (apply_time (params module)) time_settings t0
  = (Ret time_set, t) ->
  snd (apply_attributes module rf pending time_settings t0)
  = mkRequest PATCH (settings_uri_of (params module))
              (Some (settings_payload pending time_set)) :: t.
Proof.
  intros H. rewrite (run_apply_attributes _ _ _ _ _ _ _ H).
  rewrite snd_bind_quiet.
  - rewrite try_http_request; [reflexivity| |].
    + intros resp. auto 10 with quiet.
    + intros b. auto with quiet.
  - intros resp. destruct (assoc "Location" (headers resp)); auto with quiet.
Qed.

(** X11.  Attribute settings are idempotent.  When every requested
    attribute exists on the controller and the ControllerMode rule does not
    trip: a request whose values all equal the current ones ends with "No
    changes found to be applied.", in check mode or not; a request with a
    differing value ends, in check mode, with "Changes found to be
    applied.".  Neither sends a settings-apply request. *)
Theorem attributes_idempotent module rf doc curr inp :
  read_attributes rf (controller_id (params module)) = Some (doc, curr) ->
  attributes (params module) = Some inp ->
  NoDup (map fst inp) ->
  hba_rule_trips inp = false ->
  absent_names curr inp = [] ->
  let r := run (set_attributes module rf) in
  let read := [mkRequest GET (attributes_uri_of (params module)) None] in
  (differing curr inp = [] -> r = (Exit no_changes, read))
  /\ (differing curr inp <> [] -> check_mode module = true ->
      r = (Exit changes_found, read)).
Proof.
  intros R Hinp Hnd Hh Habs r read. subst r read.
  rewrite (run_set_attributes_diff _ _ _ _ _ R Hinp Hnd Hh Habs). split.
  - intros Hd. rewrite Hd. reflexivity.
  - intros Hd Hcm.
    destruct (differing curr inp); [contradiction Hd; reflexivity|].
    rewrite Hcm. reflexivity.
Qed.

Lemma same_attributes_are_noop :
  let p := settings_for controller1
             [("CopybackMode", JStr "On")] "Immediate" None in
  run (set_attributes (mkModule p false) (rf_settings all_apply_times "Completed"))
  = (Exit no_changes, [mkRequest GET (CONTROLLERS_URI SYSTEM_ID controller1) None]).
Proof.
  refine (proj1 (attributes_idempotent
            (mkModule (settings_for controller1
                         [("CopybackMode", JStr "On")] "Immediate" None) false)
            (rf_settings all_apply_times "Completed")
            (attributes_doc all_apply_times)
            [("ControllerMode", JStr "RAID"); ("CopybackMode", JStr "On")]
            [("CopybackMode", JStr "On")]
            eq_refl eq_refl _ eq_refl eq_refl) eq_refl).
  repeat constructor; simpl; intuition discriminate.
Defined.

(** X12.  A real run sends one settings-apply request, and it carries
    exactly the requested attributes whose value differs from the current
    one, in the order of the request, with the apply time as directive.
    Attributes that already have the requested value are left out. *)
Theorem only_differing_attributes_sent module rf doc curr inp supported :
  read_attributes rf (controller_id (params module)) = Some (doc, curr) ->
  attributes (params module) = Some inp ->
  NoDup (map fst inp) ->
  hba_rule_trips inp = false ->
  absent_names curr inp = [] ->
  differing curr inp <> [] ->
  check_mode module = false ->
  supported_apply_times doc = Some (JArr supported) ->
  supported <> [] ->
  let a := apply_time (params module) in
  a = "Immediate" \/ a = "OnReset" ->
  snd (run (set_attributes module rf))
  = [mkRequest PATCH (settings_uri_of (params module))
               (Some (settings_payload (differing curr inp)
                                       [("ApplyTime", JStr a)]));
     mkRequest GET (attributes_uri_of (params module)) None].
Proof.
  intros R Hinp Hnd Hh Habs Hd Hcm Hs Hne a Ha.
  rewrite (run_set_attributes_diff _ _ _ _ _ R Hinp Hnd Hh Habs).
  destruct (differing curr inp) as [|e l] eqn:Ed; [contradiction Hd; reflexivity|].
  rewrite Hcm. unfold supported_apply_times in Hs. read_chain Hs.
  unfold bind at 1. erewrite run_py_get_default by eassumption. cbv beta iota.
  unfold bind at 1. erewrite run_py_get_default by eassumption. cbv beta iota.
  apply apply_attributes_trace. apply run_plain_apply_time; [exact Hne|].
  fold a. destruct Ha as [-> | ->]; reflexivity.
Qed.

Lemma changed_attribute_sent :
  let p := settings_for controller1
             [("CopybackMode", JStr "Off")] "OnReset" None in
  snd (run (set_attributes (mkModule p false)
                           (rf_settings all_apply_times "Scheduled")))
  = [mkRequest PATCH (SETTINGS_URI SYSTEM_ID controller1)
               (Some (settings_payload [("CopybackMode", JStr "Off")]
                                       [("ApplyTime", JStr "OnReset")]));
     mkRequest GET (CONTROLLERS_URI SYSTEM_ID controller1) None].
Proof.
  refine (only_differing_attributes_sent
            (mkModule (settings_for controller1
                         [("CopybackMode", JStr "Off")] "OnReset" None) false)
            (rf_settings all_apply_times "Scheduled")
            (attributes_doc all_apply_times)
            [("ControllerMode", JStr "RAID"); ("CopybackMode", JStr "On")]
            [("CopybackMode", JStr "Off")]
            (map JStr all_apply_times)
            eq_refl eq_refl _ eq_refl eq_refl _ eq_refl eq_refl _
            (or_intror eq_refl)).
  - repeat constructor; simpl; intuition discriminate.
  - discriminate.
  - discriminate.
Defined.

(* ------------------------------------------------------------------ *)
(** ** The settings-apply request and its answer *)

Lemma run_py_head v x t : head_of v = Some x -> py_head v t = (Ret x, t).
Proof.
  destruct v as [| | |[|c s]|[|y l]|]; simpl; intros H; inversion H; reflexivity.
Qed.

Lemma run_has_error resp b t :
  has_error_of resp = Some b ->
  (if Z.eqb (status_code resp) 202
   then py_contains (json_data resp) "error"
   else ret false) t = (Ret b, t).
Proof.
  unfold has_error_of. destruct (Z.eqb (status_code resp) 202).
  - destruct (json_data resp) as [| | | | |kv]; intros H; inversion H;
      try reflexivity.
  - intros H. inversion H. reflexivity.
Qed.

(** A settings-apply request that is accepted gives the job id. *)
Lemma run_settings_accepted module rf pending time_settings time_set t0 t resp :
  get_redfish_apply_time module rf (apply_time (params module)) time_settings t0
  = (Ret time_set, t) ->
  rf PATCH (settings_uri_of (params module))
     (Some (settings_payload pending time_set)) = Resp resp ->
  has_error_of resp = Some false ->
  apply_attributes module rf pending time_settings t0
  = (match assoc "Location" (headers resp) with
     | Some loc => Ret (split_last "/" loc, time_set)
     | None => Raise (KeyError "Location")
     end,
     mkRequest PATCH (settings_uri_of (params module))
               (Some (settings_payload pending time_set)) :: t).
Proof.
  intros H Hr He. rewrite (run_apply_attributes _ _ _ _ _ _ _ H).
  unfold bind at 1, try_http at 1, bind at 1, invoke_request at 1.
  rewrite Hr. unfold bind at 1.
  rewrite (run_has_error _ _ _ He). cbn [when].
  unfold bind at 1, ret at 1, ret at 1.
  destruct (assoc "Location" (headers resp)); reflexivity.
Qed.

(** X13.  What the remote system answers to the settings-apply request
    decides how [apply_attributes] ends.  An HTTP error ends the module with
    "Unable to configure the controller attribute(s) settings." and the
    [error] member of the decoded body.  So does a 202 response whose body
    has an [error] member, unless the message id of its first extended
    information contains "Created"; then the failure carries the whole
    body.  Any other response gives the job id, the last segment of its
    Location header; without that header KeyError is raised. *)
Theorem settings_answer_decides module rf pending time_settings time_set t0 t :
  get_redfish_apply_time module rf (apply_time (params module)) time_settings t0
  = (Ret time_set, t) ->
  let uri := settings_uri_of (params module) in
  let body := Some (settings_payload pending time_set) in
  let r := apply_attributes module rf pending time_settings t0 in
  let sent := mkRequest PATCH uri body :: t in
  let job (resp : response) :=
    match assoc "Location" (headers resp) with
    | Some loc => (Ret (split_last "/" loc, time_set), sent)
    | None => (Raise (KeyError "Location"), sent)
    end in
  (forall b e, rf PATCH uri body = HTTPFail b -> field b "error" = Some e ->
               r = (Exit (kw_msg_error_failed (Text ERR_MSG) e), sent))
  /\ (forall resp, rf PATCH uri body = Resp resp ->
                   has_error_of resp = Some false -> r = job resp)
  /\ (forall resp id, rf PATCH uri body = Resp resp ->
                      has_error_of resp = Some true ->
                      message_id_of (json_data resp) = Some (JStr id) ->
                      r = if str_contains "Created" id then job resp
                          else (Exit (kw_msg_error_failed (Text ERR_MSG)
                                                          (json_data resp)),
                                sent)).
Proof.
  intros H uri body r sent job.
  assert (E : r = apply_attributes module rf pending time_settings t0)
    by reflexivity.
  rewrite (run_apply_attributes _ _ _ _ _ _ _ H) in E.
  fold uri body in E. clearbody r.
  unfold bind at 1, try_http at 1, bind at 1, invoke_request at 1 in E.
  fold sent in E.
  split; [|split].
  - intros b e Hb He. rewrite Hb in E. unfold bind at 1 in E.
    erewrite run_py_get in E by eassumption. exact E.
  - intros resp Hr He. rewrite Hr in E. unfold bind at 1 in E.
    rewrite (run_has_error _ _ _ He) in E. cbn [when] in E.
    unfold bind at 1, ret at 1, ret at 1 in E. subst r. unfold job.
    destruct (assoc "Location" (headers resp)); reflexivity.
  - intros resp id Hr He Hid. rewrite Hr in E. unfold bind at 1 in E.
    rewrite (run_has_error _ _ _ He) in E. cbn [when] in E.
    unfold message_id_of in Hid. read_chain Hid.
    unfold bind at 1, bind at 1 in E.
    erewrite run_py_get in E
      by (destruct (json_data resp); try discriminate; cbn [item] in R;
          cbn [field]; unfold dict_get; rewrite R; reflexivity).
    unfold bind at 1 in E. erewrite run_py_get_default in E by eassumption.
    unfold bind at 1 in E. erewrite run_py_head in E by eassumption.
    unfold bind at 1 in E. erewrite run_py_get in E by eassumption.
    unfold bind at 1 in E. cbn [py_contains] in E. unfold ret at 1 in E.
    subst r. unfold job.
    destruct (str_contains "Created" id); cbn [negb when]; [|reflexivity].
    unfold ret at 1. unfold ret at 1.
    destruct (assoc "Location" (headers resp)); reflexivity.
Qed.

Lemma settings_accepted_example :
  let p := settings_for controller1 [("CopybackMode", JStr "Off")]
                        "Immediate" None in
  apply_attributes (mkModule p false) (rf_settings all_apply_times "Completed")
                   [("CopybackMode", JStr "Off")]
                   (JArr (map JStr all_apply_times)) []
  = (Ret ("JID_123456789012", [("ApplyTime", JStr "Immediate")]),
     [mkRequest PATCH (SETTINGS_URI SYSTEM_ID controller1)
                (Some (settings_payload [("CopybackMode", JStr "Off")]
                                        [("ApplyTime", JStr "Immediate")]))]).
Proof.
  exact (proj1 (proj2 (settings_answer_decides
           (mkModule (settings_for controller1 [("CopybackMode", JStr "Off")]
                                   "Immediate" None) false)
           (rf_settings all_apply_times "Completed")
           [("CopybackMode", JStr "Off")] (JArr (map JStr all_apply_times))
           [("ApplyTime", JStr "Immediate")] [] [] eq_refl))
           (mkResponse true 202 (JObj []) [("Location", job_location)])
           eq_refl eq_refl).
Defined.

(* ------------------------------------------------------------------ *)
(** ** Maintenance windows *)

Lemma run_window_apply_time module rf a supported start duration now off t :
  supported <> [] ->
  maintenance_apply_time a = true ->
  py_in (JStr a) supported = true ->
  maintenance_window (params module) = Some (start, duration) ->
  read_clock rf = Some (now, off) ->
  endswith start off = true ->
  String.ltb start now = false ->
  get_redfish_apply_time module rf a (JArr supported) t
  = (Ret [("ApplyTime", JStr a); ("MaintenanceWindowStartTime", JStr start);
          ("MaintenanceWindowDurationInSeconds", JNum duration)],
     mkRequest GET MANAGER_URI None :: t).
Proof.
  intros Hne Hm Hin Hw Hclk He Hl.
  pose proof (maintenance_contains _ Hm) as Hc.
  unfold get_redfish_apply_time.
  destruct supported as [|s0 sup]; [contradiction Hne; reflexivity|].
  cbn [truthy]. rewrite Hc.
  unfold bind at 1. cbn [py_contains]. unfold ret at 1. cbv beta iota.
  rewrite Hin. cbn [negb]. rewrite Hw.
  unfold bind at 1. unfold ret at 1. cbv beta iota.
  unfold bind at 1. unfold validate_time.
  unfold bind at 1. rewrite (run_get_current_time _ _ _ _ Hclk).
  cbv beta iota. cbn [fst snd].
  unfold bind at 1. unfold ret at 1. cbv beta iota.
  rewrite He. cbn [negb when].
  unfold bind at 1. unfold ret at 1. cbv beta iota.
  unfold bind at 1. unfold ret at 1. cbv beta iota.
  rewrite Hl. cbn [when]. unfold ret at 1. cbv beta iota.
  reflexivity.
Qed.

(** X14.  A maintenance window that the remote system supports, whose
    start time ends with the remote system's offset and does not compare
    lower than its current time, is accepted: after the clock has been
    read, the settings-apply request goes out with the apply time, the
    start time and the duration of the window as its directive. *)
Theorem maintenance_window_scheduled module rf pending supported start duration
        now off :
  supported <> [] ->
  let a := apply_time (params module) in
  maintenance_apply_time a = true ->
  py_in (JStr a) supported = true ->
  maintenance_window (params module) = Some (start, duration) ->
  read_clock rf = Some (now, off) ->
  endswith start off = true ->
  String.ltb start now = false ->
  snd (run (apply_attributes module rf pending (JArr supported)))
  = [mkRequest PATCH (settings_uri_of (params module))
       (Some (settings_payload pending
                [("ApplyTime", JStr a);
                 ("MaintenanceWindowStartTime", JStr start);
                 ("MaintenanceWindowDurationInSeconds", JNum duration)]));
     mkRequest GET MANAGER_URI None].
Proof.
  intros Hne a Hm Hin Hw Hclk He Hl. unfold run.
  apply apply_attributes_trace.
  apply (run_window_apply_time module rf a supported start duration now off []);
    assumption.
Qed.

Lemma future_window_scheduled :
  let p := settings_for controller1 [("CopybackMode", JStr "Off")]
                        "AtMaintenanceWindowStart"
                        (Some ("2022-09-30T07:15:40-05:00", 1200%Z)) in
  snd (run (apply_attributes (mkModule p false)
              (rf_settings all_apply_times "Scheduled")
              [("CopybackMode", JStr "Off")] (JArr (map JStr all_apply_times))))
  = [mkRequest PATCH (SETTINGS_URI SYSTEM_ID controller1)
       (Some (settings_payload [("CopybackMode", JStr "Off")]
                [("ApplyTime", JStr "AtMaintenanceWindowStart");
                 ("MaintenanceWindowStartTime", JStr "2022-09-30T07:15:40-05:00");
                 ("MaintenanceWindowDurationInSeconds", JNum 1200)]));
     mkRequest GET MANAGER_URI None].
Proof.
  refine (maintenance_window_scheduled
            (mkModule (settings_for controller1 [("CopybackMode", JStr "Off")]
                         "AtMaintenanceWindowStart"
                         (Some ("2022-09-30T07:15:40-05:00", 1200%Z))) false)
            (rf_settings all_apply_times "Scheduled")
            [("CopybackMode", JStr "Off")] (map JStr all_apply_times)
            "2022-09-30T07:15:40-05:00" 1200%Z
            "2022-09-30T06:00:00-05:00" "-05:00"
            _ eq_refl eq_refl eq_refl eq_refl eq_refl eq_refl).
  discriminate.
Defined.



(* ------------------------------------------------------------------ *)
(** ** The attribute branch of [main] *)

(** [main] on a request for attribute settings, up to [set_attributes]. *)
Lemma run_main_settings ext module rf cid r0 :
  attributes_given (params module) = true ->
  command (params module) = None ->
  controller_id (params module) = Some cid ->
  controller_found rf (Some cid) = Some r0 ->
  run (main ext module rf)
  = main_handlers ('(job_id, time_set) <- set_attributes module rf ;;
                   report_settings_job ext module rf job_id time_set ;;;
                   report_job ext module rf None)
      [mkRequest GET (controller_uri_of (params module)) None].
Proof.
  intros Ha Hc Hcid Hf.
  unfold run, main. rewrite Ha. cbn [negb when].
  unfold bind at 1. unfold ret at 1. cbv beta iota.
  unfold main_handlers.
  assert (E : main_body ext module rf []
              = ('(job_id, time_set) <- set_attributes module rf ;;
                 report_settings_job ext module rf job_id time_set ;;;
                 report_job ext module rf None)
                  [mkRequest GET (controller_uri_of (params module)) None]).
  { unfold main_body, run_command. rewrite Hc. cbn [cmd_is cmd_in existsb orb].
    unfold bind at 1. unfold ret at 1. cbv beta iota.
    rewrite Ha. cbn [when]. unfold bind at 1. unfold run_attributes.
    rewrite Hcid. cbn [when]. unfold bind at 1. unfold ret at 1. cbv beta iota.
    unfold bind at 1.
    rewrite (proj1 (run_check_id_exists rf "controller_id" (Some cid) r0 [] Hf)).
    cbv beta iota. unfold controller_uri_of. rewrite Hcid.
    unfold report_settings_job, bind.
    destruct (set_attributes module rf
                [mkRequest GET (CONTROLLER_URI SYSTEM_ID (fmt_opt (Some cid))) None])
      as [[[job_id time_set]|o|e] t']; reflexivity. }
  rewrite E. reflexivity.
Qed.

(** X16.  Attribute settings need a controller: without [controller_id]
    the module fails before any request, and with the id of a controller
    that the remote system does not have it fails after the lookup, with
    the decoded error body. *)
Theorem settings_need_controller ext module rf :
  attributes_given (params module) = true ->
  command (params module) = None ->
  let r := run (main ext module rf) in
  (controller_id (params module) = None ->
   r = (Exit (kw_msg_failed (Text CONTROLLER_ID_REQUIRED)), []))
  /\ (forall cid body,
         controller_id (params module) = Some cid ->
         rf GET (CONTROLLER_URI SYSTEM_ID cid) None = HTTPFail body ->
         r = (Exit (kw_msg_error_failed (controller_not_found (Some cid)) body),
              [mkRequest GET (CONTROLLER_URI SYSTEM_ID cid) None])).
Proof.
  intros Ha Hc r. subst r. unfold run, main. rewrite Ha. cbn [negb when].
  unfold bind at 1. unfold ret at 1. cbv beta iota.
  unfold main_handlers, main_body, run_command. rewrite Hc.
  cbn [cmd_is cmd_in existsb orb].
  unfold bind at 1. unfold ret at 1. cbv beta iota.
  rewrite Ha. cbn [when]. unfold run_attributes. split.
  - intros Hn. rewrite Hn. reflexivity.
  - intros cid body Hcid Hb. rewrite Hcid. cbn [when].
    unfold check_id_exists, try_http, bind, invoke_request. cbn [fmt_opt ret].
    rewrite Hb. reflexivity.
Qed.

Lemma settings_without_controller :
  let p := mkParams (Some [("CopybackMode", JStr "Off")]) None None None None
                    None None None "LKM" "Immediate" None false 120 None in
  run (main plain_ext (mkModule p false) (rf_settings all_apply_times "Completed"))
  = (Exit (kw_msg_failed (Text CONTROLLER_ID_REQUIRED)), []).
Proof.
  exact (proj1 (settings_need_controller plain_ext
           (mkModule (mkParams (Some [("CopybackMode", JStr "Off")]) None None
                               None None None None None "LKM" "Immediate" None
                               false 120 None) false)
           (rf_settings all_apply_times "Completed") eq_refl eq_refl) eq_refl).
Defined.

Lemma run_no_apply_time module rf a ts t :
  truthy ts = false ->
  get_redfish_apply_time module rf a ts t = (Ret [], t).
Proof.
  intros H. unfold get_redfish_apply_time. rewrite H. reflexivity.
Qed.

(** The directive [apply_attributes] returns is the one it was given. *)
Lemma apply_attributes_time_set module rf pending time_settings time_set t0 t
      job_id ts t' :
  get_redfish_apply_time module rf (apply_time (params module)) time_settings t0
  = (Ret time_set, t) ->
  apply_attributes module rf pending time_settings t0 = (Ret (job_id, ts), t') ->
  ts = time_set.
Proof.
  intros H. rewrite (run_apply_attributes _ _ _ _ _ _ _ H).
  unfold bind at 1.
  match goal with
  | |- context [try_http ?b ?h t] => destruct (try_http b h t) as [[resp|o|e] t1]
  end; try discriminate.
  destruct (assoc "Location" (headers resp)); [|discriminate].
  intros E. inversion E. reflexivity.
Qed.

Lemma snd_main_handlers {A : Type} (body : M A) t :
  snd (main_handlers body t) = snd (body t).
Proof.
  unfold main_handlers. destruct (body t) as [[a|o|e] t']; try reflexivity.
  destruct e; reflexivity.
Qed.

(** X17.  When the controller advertises no apply times (the list is empty
    or missing), nothing about the apply time is validated and the
    settings-apply request goes out without a directive.  [main] then looks
    the apply time up in the empty directive: once the request has been
    accepted, the module ends in a failure whose message is the missing key,
    although the settings have been submitted. *)
Theorem settings_without_apply_times ext module rf cid r0 doc curr inp ts :
  attributes_given (params module) = true ->
  command (params module) = None ->
  controller_id (params module) = Some cid ->
  controller_found rf (Some cid) = Some r0 ->
  read_attributes rf (Some cid) = Some (doc, curr) ->
  attributes (params module) = Some inp ->
  NoDup (map fst inp) ->
  hba_rule_trips inp = false ->
  absent_names curr inp = [] ->
  differing curr inp <> [] ->
  check_mode module = false ->
  supported_apply_times doc = Some ts ->
  truthy ts = false ->
  let r := run (main ext module rf) in
  let patch := mkRequest PATCH (settings_uri_of (params module))
                         (Some (settings_payload (differing curr inp) [])) in
  snd r = [patch; mkRequest GET (attributes_uri_of (params module)) None;
           mkRequest GET (controller_uri_of (params module)) None]
  /\ (forall resp location,
         rf PATCH (settings_uri_of (params module))
            (Some (settings_payload (differing curr inp) [])) = Resp resp ->
         has_error_of resp = Some false ->
         assoc "Location" (headers resp) = Some location ->
         fst r = Exit (kw_msg_failed (Text "'ApplyTime'"))).
Proof.
  intros Ha Hc Hcid Hf R Hinp Hnd Hh Habs Hd Hcm Hs Hts r patch.
  set (t1 := [mkRequest GET (controller_uri_of (params module)) None]).
  set (t2 := mkRequest GET (attributes_uri_of (params module)) None :: t1).
  assert (Hset : set_attributes module rf t1
                 = apply_attributes module rf (differing curr inp) ts t2).
  { rewrite <- Hcid in R.
    rewrite (run_set_attributes_reads _ _ _ _ _ R _ Hinp). rewrite Hh.
    unfold when at 1. unfold bind at 1. unfold ret at 1. cbv beta iota.
    unfold bind at 1. rewrite (run_check_attr_exists _ _ _ _ Hnd Habs).
    destruct (differing curr inp) as [|e l] eqn:Ed;
      [contradiction Hd; reflexivity|].
    rewrite Hcm. cbv beta iota.
    unfold supported_apply_times in Hs. read_chain Hs.
    unfold bind at 1. erewrite run_py_get_default by eassumption. cbv beta iota.
    unfold bind at 1. erewrite run_py_get_default by eassumption. cbv beta iota.
    reflexivity. }
  pose proof (run_no_apply_time module rf (apply_time (params module)) ts t2 Hts)
    as Hdir.
  pose proof (apply_attributes_trace module rf (differing curr inp) ts [] t2 t2
                Hdir) as Htr.
  assert (E : r = main_handlers
                    ('(job_id, time_set) <- set_attributes module rf ;;
                     report_settings_job ext module rf job_id time_set ;;;
                     report_job ext module rf None) t1)
    by (apply (run_main_settings ext module rf cid r0); assumption).
  clearbody r. subst r.
  split.
  - rewrite snd_main_handlers. unfold bind at 1. rewrite Hset.
    destruct (apply_attributes module rf (differing curr inp) ts t2)
      as [[[job_id time_set]|o|e] t'] eqn:Eap; cbn [snd] in Htr; subst t';
      try reflexivity.
    rewrite (apply_attributes_time_set _ _ _ _ _ _ _ _ _ _ Hdir Eap).
    reflexivity.
  - intros resp location Hr He Hl.
    pose proof (run_settings_accepted module rf (differing curr inp) ts [] t2 t2
                  resp Hdir Hr He) as Hok.
    rewrite Hl in Hok.
    unfold main_handlers. unfold bind at 1. rewrite Hset, Hok. reflexivity.
Qed.

Lemma no_apply_times_example :
  let p := settings_for controller1 [("CopybackMode", JStr "Off")]
                        "Immediate" None in
  run (main plain_ext (mkModule p false) rf_no_apply_times)
  = (Exit (kw_msg_failed (Text "'ApplyTime'")),
     [mkRequest PATCH (SETTINGS_URI SYSTEM_ID controller1)
                (Some (settings_payload [("CopybackMode", JStr "Off")] []));
      mkRequest GET (CONTROLLERS_URI SYSTEM_ID controller1) None;
      mkRequest GET (CONTROLLER_URI SYSTEM_ID controller1) None]).
Proof.
  assert (H := settings_without_apply_times plain_ext
            (mkModule (settings_for controller1 [("CopybackMode", JStr "Off")]
                                    "Immediate" None) false)
            rf_no_apply_times controller1
            (mkResponse true 200 (controller_doc "EncryptionCapable" JNull) [])
            (JObj [("Oem", JObj [("Dell", JObj [("DellStorageController",
                      JObj [("ControllerMode", JStr "RAID");
                            ("CopybackMode", JStr "On")])])])])
            [("ControllerMode", JStr "RAID"); ("CopybackMode", JStr "On")]
            [("CopybackMode", JStr "Off")] (JArr [])
            eq_refl eq_refl eq_refl eq_refl eq_refl eq_refl
            ltac:(repeat constructor; simpl; intuition discriminate)
            eq_refl eq_refl ltac:(discriminate) eq_refl eq_refl eq_refl).
  cbv zeta in H. destruct H as [H1 H2].
  specialize (H2 (mkResponse true 202 (JObj []) [("Location", job_location)])
                 job_location eq_refl eq_refl eq_refl).
  apply injective_projections; [exact H2 | exact H1].
Defined.

(* ------------------------------------------------------------------ *)
(** ** The job of a settings-apply request *)

(** X18.  The job of a settings-apply request is waited for only when the
    apply time is Immediate and [job_wait] is set; the module then reports
    "Successfully applied the controller attributes.", as a failure exactly
    when the job's JobState is Failed and as a change otherwise.  In every
    other case the job is read once without waiting, and the module reports
    "Successfully submitted the job that configures the controller
    attributes." with [changed=false].  Both outcomes carry the job id, the
    OEM job URI built from it, and the job's status. *)
Theorem settings_job_outcome ext module rf cid r0 job_id time_set a t :
  attributes_given (params module) = true ->
  command (params module) = None ->
  controller_id (params module) = Some cid ->
  controller_found rf (Some cid) = Some r0 ->
  set_attributes module rf [mkRequest GET (controller_uri_of (params module)) None]
  = (Ret (job_id, time_set), t) ->
  assoc "ApplyTime" time_set = Some a ->
  let p := params module in
  let r := run (main ext module rf) in
  let uri := JOB_URI_OEM job_id in
  (eq_str a "Immediate" && job_wait p = true ->
   forall wresp wmsg t' state,
     wait_for_job_completion ext rf uri true (job_wait_timeout p) t
     = (Ret (wresp, wmsg), t') ->
     item (strip_substr_dict ext (json_data wresp)) "JobState" = Some state ->
     r = (Exit (kw_job (Text JOB_COMPLETION_ATTRIBUTES) (job_id, uri)
                       (strip_substr_dict ext (json_data wresp))
                       (negb (eq_str state "Failed")) (eq_str state "Failed")),
          t'))
  /\ (eq_str a "Immediate" && job_wait p = false ->
      forall wresp wmsg t',
        wait_for_job_completion ext rf uri false (job_wait_timeout p) t
        = (Ret (wresp, wmsg), t') ->
        r = (Exit (kw_job (Text JOB_SUBMISSION_ATTRIBUTES) (job_id, uri)
                          (strip_substr_dict ext (json_data wresp))
                          false false),
             t')).
Proof.
  intros Ha Hc Hcid Hf Hset Hat p r uri.
  assert (E : r = main_handlers
                    ('(job_id, time_set) <- set_attributes module rf ;;
                     report_settings_job ext module rf job_id time_set ;;;
                     report_job ext module rf None)
                    [mkRequest GET (controller_uri_of (params module)) None])
    by (apply (run_main_settings ext module rf cid r0); assumption).
  clearbody r. subst r. subst p uri.
  split.
  - intros Hw wresp wmsg t' state Hpoll Hstate.
    unfold main_handlers. unfold bind at 1. rewrite Hset. cbv beta iota.
    unfold bind at 1. unfold report_settings_job.
    unfold bind at 1. cbn [py_item]. rewrite Hat. unfold ret at 1.
    cbv beta iota.
    rewrite Hw. apply andb_prop in Hw. destruct Hw as [_ Hw]. rewrite Hw.
    unfold bind at 1. unfold bind at 1. rewrite Hpoll. cbv beta iota.
    unfold bind at 1. unfold job_flags. unfold bind at 1.
    erewrite run_py_item by eassumption. cbv beta iota.
    destruct (eq_str state "Failed"); reflexivity.
  - intros Hw wresp wmsg t' Hpoll.
    unfold main_handlers. unfold bind at 1. rewrite Hset. cbv beta iota.
    unfold bind at 1. unfold report_settings_job.
    unfold bind at 1. cbn [py_item]. rewrite Hat. unfold ret at 1.
    cbv beta iota.
    rewrite Hw.
    unfold bind at 1. unfold bind at 1. rewrite Hpoll. reflexivity.
Qed.

Lemma on_reset_job_not_waited_for :
  let p := waiting (settings_for controller1 [("CopybackMode", JStr "Off")]
                                 "OnReset" None) in
  run (main plain_ext (mkModule p false) (rf_settings all_apply_times "Scheduled"))
  = (Exit (kw_job (Text JOB_SUBMISSION_ATTRIBUTES)
                  ("JID_123456789012", JOB_URI_OEM "JID_123456789012")
                  (job_doc "Scheduled") false false),
     [mkRequest GET (JOB_URI_OEM "JID_123456789012") None;
      mkRequest PATCH (SETTINGS_URI SYSTEM_ID controller1)
                (Some (settings_payload [("CopybackMode", JStr "Off")]
                                        [("ApplyTime", JStr "OnReset")]));
      mkRequest GET (CONTROLLERS_URI SYSTEM_ID controller1) None;
      mkRequest GET (CONTROLLER_URI SYSTEM_ID controller1) None]).
Proof.
  exact (proj2 (settings_job_outcome plain_ext
           (mkModule (waiting (settings_for controller1
                                 [("CopybackMode", JStr "Off")] "OnReset" None))
                     false)
           (rf_settings all_apply_times "Scheduled") controller1
           (mkResponse true 200 (controller_doc "EncryptionCapable" JNull) [])
           "JID_123456789012" [("ApplyTime", JStr "OnReset")] (JStr "OnReset")
           [mkRequest PATCH (SETTINGS_URI SYSTEM_ID controller1)
                      (Some (settings_payload [("CopybackMode", JStr "Off")]
                                              [("ApplyTime", JStr "OnReset")]));
            mkRequest GET (CONTROLLERS_URI SYSTEM_ID controller1) None;
            mkRequest GET (CONTROLLER_URI SYSTEM_ID controller1) None]
           eq_refl eq_refl eq_refl eq_refl eq_refl eq_refl)
           eq_refl
           (mkResponse true 200 (job_doc "Scheduled") []) ""
           [mkRequest GET (JOB_URI_OEM "JID_123456789012") None;
            mkRequest PATCH (SETTINGS_URI SYSTEM_ID controller1)
                      (Some (settings_payload [("CopybackMode", JStr "Off")]
                                              [("ApplyTime", JStr "OnReset")]));
            mkRequest GET (CONTROLLERS_URI SYSTEM_ID controller1) None;
            mkRequest GET (CONTROLLER_URI SYSTEM_ID controller1) None]
           eq_refl).
Defined.

(* ------------------------------------------------------------------ *)
(** ** The job of a command *)

(** X19.  Without [job_wait] the job of a command is read once, without
    waiting, and the module reports "Successfully submitted the job that
    performs the ... operation." with the job id, the OEM job URI built from
    it and the job's status; the outcome is not marked as changed. *)
Theorem job_submission_outcome ext p cm rf resp job_uri job_id t wresp wmsg t' :
  attributes_given p = false ->
  validate_inputs (mkModule p cm) [] = (Ret tt, []) ->
  run_command ext (mkModule p cm) rf [] = (Ret (Some (resp, job_uri, job_id)), t) ->
  job_wait p = false ->
  wait_for_job_completion ext rf (JOB_URI_OEM job_id) false (job_wait_timeout p) t
  = (Ret (wresp, wmsg), t') ->
  run (main ext (mkModule p cm) rf)
  = (Exit (kw_job (Format JOB_SUBMISSION [oj (command p)])
                  (job_id, JOB_URI_OEM job_id)
                  (strip_substr_dict ext (json_data wresp)) false false), t')
  /\ changed (kw_job (Format JOB_SUBMISSION [oj (command p)])
                     (job_id, JOB_URI_OEM job_id)
                     (strip_substr_dict ext (json_data wresp)) false false)
     = false.
Proof.
  intros Ha Hv Hc Hw Hpoll. split; [|reflexivity].
  unfold run, main. simpl params. rewrite Ha. cbn [negb when].
  unfold bind at 1. rewrite Hv. cbv beta iota.
  unfold main_handlers, main_body. unfold bind at 1. rewrite Hc.
  cbv beta iota. simpl params. rewrite Ha. cbn [when].
  unfold bind at 1. unfold ret at 1. cbv beta iota.
  unfold report_job. unfold bind at 1. unfold ret at 1. cbv beta iota.
  simpl params. rewrite Hw.
  unfold bind at 1. unfold bind at 1. rewrite Hpoll. reflexivity.
Qed.

Lemma set_key_job_submitted :
  let p := request_for "SetControllerKey" (Some controller1) None None None in
  fst (run (main plain_ext (mkModule p false) (rf_job "Scheduled")))
  = Exit (kw_job (Format JOB_SUBMISSION [JStr "SetControllerKey"])
                 ("JID_123456789012", JOB_URI_OEM "JID_123456789012")
                 (job_doc "Scheduled") false false).
Proof.
  exact (f_equal fst (proj1 (job_submission_outcome plain_ext
           (request_for "SetControllerKey" (Some controller1) None None None)
           false (rf_job "Scheduled")
           (mkResponse true 202 (JObj []) [("Location", job_location)])
           job_location "JID_123456789012"
           [mkRequest POST (action_path "SetControllerKey")
              (Some (JObj [("TargetFQDD", JStr controller1);
                           ("Key", JNull); ("Keyid", JNull)]));
            mkRequest GET (CONTROLLER_URI SYSTEM_ID controller1) None;
            mkRequest GET (CONTROLLER_URI SYSTEM_ID controller1) None]
           (mkResponse true 200 (job_doc "Scheduled") []) ""
           (mkRequest GET (JOB_URI_OEM "JID_123456789012") None ::
            [mkRequest POST (action_path "SetControllerKey")
               (Some (JObj [("TargetFQDD", JStr controller1);
                            ("Key", JNull); ("Keyid", JNull)]));
             mkRequest GET (CONTROLLER_URI SYSTEM_ID controller1) None;
             mkRequest GET (CONTROLLER_URI SYSTEM_ID controller1) None])
           eq_refl eq_refl eq_refl eq_refl eq_refl))).
Defined.

(** X20.  A real run of BlinkTarget or UnBlinkTarget posts the action for
    the first target, or for the first volume when no target is given.  A
    response with success and status 200 ends the module with "Successfully
    performed the ... operation." and [changed=true].  Any other response
    leaves [main] without a job id: it raises UnboundLocalError, which none
    of its [except] clauses handles. *)
Theorem blink_outcome ext module rf v :
  blink_variant v = true ->
  requests (params module) v = true ->
  attributes_given (params module) = false ->
  validate_inputs module [] = (Ret tt, []) ->
  check_mode module = false ->
  let body := Some (JObj [("TargetFQDD", blink_target (params module))]) in
  let uri := RAID_ACTION_URI SYSTEM_ID (command_name v) in
  forall resp,
    rf POST uri body = Resp resp ->
    run (main ext module rf)
    = (if success resp && Z.eqb (status_code resp) 200
       then Exit (kw_msg_changed (Format JOB_COMPLETION [JStr (command_name v)]))
       else Raise (UnboundLocalError "job_id"),
       [mkRequest POST uri body]).
Proof.
  intros Hv Hq Ha Hval Hcm body uri resp Hr.
  apply requests_command in Hq. destruct Hq as [Hc Hcar].
  assert (Etip : target_identify_pattern module rf []
                 = (Ret resp, [mkRequest POST uri body])).
  { unfold target_identify_pattern. rewrite Hc, Hcm. cbn [fmt_opt when].
    subst body uri. unfold blink_target in *.
    destruct v; try discriminate; simpl in Hcar;
      destruct (target (params module)) as [[|t0 ts]|];
      destruct (volume_id (params module)) as [[|v0 vs]|];
      try discriminate;
      cbn [py_first command_name] in *; unfold bind, ret, invoke_request;
      cbv beta iota; rewrite Hr; reflexivity. }
  unfold run, main. rewrite Ha. cbn [negb when].
  unfold bind at 1. rewrite Hval. cbv beta iota.
  unfold main_handlers, main_body, run_command. rewrite Hc.
  assert (Hb : cmd_in (Some (command_name v)) ["BlinkTarget"; "UnBlinkTarget"] = true)
    by (destruct v; try discriminate; reflexivity).
  assert (H1 : cmd_is (Some (command_name v)) "ResetConfig" = false)
    by (destruct v; try discriminate; reflexivity).
  assert (H2 : cmd_in (Some (command_name v))
                 ["SetControllerKey"; "ReKey"; "RemoveControllerKey";
                  "EnableControllerEncryption"] = false)
    by (destruct v; try discriminate; reflexivity).
  assert (H3 : cmd_in (Some (command_name v)) ["AssignSpare"; "UnassignSpare"] = false)
    by (destruct v; try discriminate; reflexivity).
  rewrite H1, H2, H3, Hb.
  unfold bind at 1. unfold bind at 1. rewrite Etip. cbv beta iota.
  cbn [oj].
  destruct (success resp && Z.eqb (status_code resp) 200); cbn [when].
  - reflexivity.
  - unfold bind at 1. unfold ret at 1. cbv beta iota.
    unfold ret at 1. cbv beta iota.
    rewrite Ha. cbn [when]. reflexivity.
Qed.

Lemma blink_accepted_without_job :
  let p := request_for "BlinkTarget" None None (Some [drive0]) None in
  run (main plain_ext (mkModule p false)
         (serve [(POST, action_path "BlinkTarget", accepted job_location)]))
  = (Raise (UnboundLocalError "job_id"),
     [mkRequest POST (action_path "BlinkTarget")
                (Some (JObj [("TargetFQDD", JStr drive0)]))]).
Proof.
  exact (blink_outcome plain_ext
           (mkModule (request_for "BlinkTarget" None None (Some [drive0]) None)
                     false)
           (serve [(POST, action_path "BlinkTarget", accepted job_location)])
           BlinkTarget eq_refl eq_refl eq_refl eq_refl eq_refl
           (mkResponse true 202 (JObj []) [("Location", job_location)]) eq_refl).
Defined.

(* ------------------------------------------------------------------ *)
(** ** What the action requests carry *)

(** A request followed by the reading of its Location header adds exactly
    that request to the trace. *)
Lemma snd_submit rf uri body t :
  snd ((resp <- invoke_request rf POST uri body ;; job_of_location resp) t)
  = mkRequest POST uri body :: t.
Proof.
  unfold bind, invoke_request, job_of_location.
  destruct (rf POST uri body) as [resp|b|u]; try reflexivity.
  destruct (assoc "Location" (headers resp)); reflexivity.
Qed.

(** A real run of a key command that is due reaches its POST. *)
Lemma run_ctrl_key_posts v module rf s :
  key_variant v = true ->
  command (params module) = Some (command_name v) ->
  read_snapshot v (params module) rf = Some s ->
  guards_pass v s = true ->
  would_change v (params module) s = true ->
  check_mode module = false ->
  ctrl_key module rf []
  = (resp <- invoke_request rf POST (RAID_ACTION_URI SYSTEM_ID (command_name v))
               (Some (JObj (key_payload v (params module)))) ;;
     job_of_location resp)
      [mkRequest GET (controller_uri_of (params module)) None;
       mkRequest GET (controller_uri_of (params module)) None].
Proof.
  intros Hv Hc Hs Hg Hw Hcm.
  assert (exists r ss kid,
      s = Controller ss kid
      /\ controller_found rf (controller_id (params module)) = Some r
      /\ field (json_data r) "SecurityStatus" = Some ss
      /\ field (json_data r) "KeyID" = Some kid) as (r & ss & kid & -> & R & R1 & R2).
  { destruct v; try discriminate; simpl in Hs; read_chain Hs; inversion Hs; eauto 10. }
  clear Hs.
  destruct (run_check_id_exists rf "controller_id" _ _ [] R) as [E1 E2].
  assert (G : eq_str ss "EncryptionNotCapable" = false).
  { destruct v; try discriminate; simpl in Hg; apply negb_true_iff in Hg;
      exact Hg. }
  unfold ctrl_key. unfold bind at 1. rewrite E1. cbv beta iota.
  unfold bind at 1. erewrite run_get by eassumption. cbv beta iota.
  unfold bind at 1. erewrite run_py_get by eassumption. cbv beta iota.
  rewrite G. unfold when at 1. unfold bind at 1. unfold ret at 1.
  cbv beta iota.
  unfold bind at 1. erewrite run_py_get by eassumption. cbv beta iota.
  rewrite Hc, Hcm. unfold controller_uri_of.
  destruct v; try discriminate; simpl in Hw;
    cbn [command_name cmd_is String.eqb Ascii.eqb Bool.eqb andb orb negb
         fmt_opt when key_payload];
    try (apply negb_true_iff in Hw); try rewrite Hw;
    cbn [andb orb negb];
    try (destruct (String.eqb (mode (params module)) "LKM"));
    reflexivity.
Qed.

(** X21.  The payload of a key command.  It always names the controller.
    RemoveControllerKey carries no key material, and neither do ReKey and
    EnableControllerEncryption when the mode is not LKM: the keys given in
    the request are then not sent.  With mode LKM, ReKey sends the new key,
    the key id and the old key, and EnableControllerEncryption the key and
    the key id; SetControllerKey sends the key and the key id in every
    mode. *)
Theorem key_command_payload ext v p rf s :
  key_variant v = true ->
  requests p v = true ->
  read_snapshot v p rf = Some s ->
  guards_pass v s = true ->
  would_change v p s = true ->
  let kv := key_payload v p in
  posts (snd (run (run_command ext (mkModule p false) rf)))
  = [mkRequest POST (RAID_ACTION_URI SYSTEM_ID (command_name v)) (Some (JObj kv))]
  /\ assoc "TargetFQDD" kv = Some (oj (controller_id p))
  /\ (v = RemoveControllerKey \/ (v <> SetControllerKey /\ mode p <> "LKM") ->
      forall k, In k key_material -> assoc k kv = None)
  /\ (v = ReKey -> mode p = "LKM" ->
      assoc "NewKey" kv = Some (oj (key p))
      /\ assoc "OldKey" kv = Some (oj (old_key p))
      /\ assoc "Keyid" kv = Some (oj (key_id p)))
  /\ (v = SetControllerKey \/ (v = EnableControllerEncryption /\ mode p = "LKM") ->
      assoc "Key" kv = Some (oj (key p))
      /\ assoc "Keyid" kv = Some (oj (key_id p))).
Proof.
  intros Hv Hq Hs Hg Hw kv.
  destruct (requests_command _ _ Hq) as [Hc _].
  split; [|split; [|split; [|split]]].
  - assert (E : run (run_command ext (mkModule p false) rf)
                = (r <- ctrl_key (mkModule p false) rf ;; ret (Some r)) []).
    { unfold run, run_command. cbn [params]. rewrite Hc.
      destruct v; try discriminate; reflexivity. }
    rewrite E. rewrite snd_bind_quiet by (intros a; auto with quiet).
    rewrite (run_ctrl_key_posts v (mkModule p false) rf s Hv Hc Hs Hg Hw eq_refl).
    rewrite snd_submit. reflexivity.
  - subst kv. destruct v; try discriminate; cbn [key_payload];
      try destruct (String.eqb (mode p) "LKM"); reflexivity.
  - intros H k Hk. subst kv. unfold key_material in Hk. simpl in Hk.
    destruct H as [-> | [Hn Hm]].
    + intuition (subst; reflexivity).
    + apply String.eqb_neq in Hm.
      destruct v; try discriminate; try (contradiction Hn; reflexivity);
        cbn [key_payload]; try rewrite Hm; intuition (subst; reflexivity).
  - intros -> Hm. subst kv. cbn [key_payload]. rewrite Hm. repeat split.
  - intros [-> | [-> Hm]]; subst kv; cbn [key_payload]; try rewrite Hm;
      repeat split.
Qed.

Lemma rekey_sekm_sends_no_key :
  let p := mkParams None (Some "ReKey") (Some controller1) None None
                    (Some "NewPassphrase1") (Some "mykeyid123")
                    (Some "OldPassphrase1") "SEKM" "Immediate" None false 120
                    None in
  posts (snd (run (run_command plain_ext (mkModule p false) rf_key_assigned)))
  = [mkRequest POST (action_path "ReKey")
               (Some (JObj [("TargetFQDD", JStr controller1);
                            ("Mode", JStr "SEKM")]))].
Proof.
  exact (proj1 (key_command_payload plain_ext ReKey
           (mkParams None (Some "ReKey") (Some controller1) None None
                     (Some "NewPassphrase1") (Some "mykeyid123")
                     (Some "OldPassphrase1") "SEKM" "Immediate" None false 120
                     None)
           rf_key_assigned
           (Controller (JStr "SecurityKeyAssigned") (JStr "mykeyid123"))
           eq_refl eq_refl eq_refl eq_refl eq_refl)).
Defined.

(** A real run of a spare command that is due reaches its POST. *)
Lemma run_hot_spare_posts v module rf s :
  spare_variant v = true ->
  requests (params module) v = true ->
  read_snapshot v (params module) rf = Some s ->
  would_change v (params module) s = true ->
  check_mode module = false ->
  let d := target_of (params module) in
  hot_spare_config module rf []
  = (resp <- invoke_request rf POST (RAID_ACTION_URI SYSTEM_ID (command_name v))
               (Some (JObj (("TargetFQDD", JStr d) ::
                            match v, volume_id (params module) with
                            | AssignSpare, Some vol =>
                                [("VirtualDiskArray", JArr (map JStr vol))]
                            | _, _ => []
                            end))) ;;
     job_of_location resp)
      [mkRequest GET (PD_URI (split_last ":" d) d) None].
Proof.
  intros Hv Hq Hs Hw Hcm d0. apply requests_command in Hq. destruct Hq as [Hc _].
  assert (exists d ds r hs,
      target (params module) = Some (d :: ds) /\ s = Drive hs
      /\ get_resp rf (PD_URI (split_last ":" d) d) = Some r
      /\ field (json_data r) "HotspareType" = Some hs)
    as (d & ds & r & hs & Ht & -> & R & R1).
  { destruct v; try discriminate; simpl in Hs;
      destruct (target (params module)) as [[|d ds]|]; try discriminate;
      read_chain Hs; inversion Hs; eauto 10. }
  clear Hs. subst d0. unfold target_of. rewrite Ht.
  unfold hot_spare_config. rewrite Ht.
  unfold bind at 1. simpl py_first. unfold ret at 1. cbv beta iota.
  unfold bind at 1, try_http at 1. erewrite run_get by eassumption.
  cbv beta iota.
  unfold bind at 1. erewrite run_py_get by eassumption. cbv beta iota.
  rewrite Hc, Hcm.
  destruct v; try discriminate; simpl in Hw;
    cbn [command_name cmd_is String.eqb Ascii.eqb Bool.eqb andb orb negb fmt_opt].
  - rewrite (in_strs_none hs ["Dedicated"; "Global"] Hw eq_refl).
    rewrite ?andb_false_r. cbn [andb orb].
    destruct (volume_id (params module)); reflexivity.
  - apply negb_true_iff in Hw. rewrite Hw. rewrite ?andb_false_r.
    cbn [andb orb].
    destruct (volume_id (params module)); reflexivity.
Qed.

(** X22.  The payload of a spare command names the first target.
    AssignSpare adds the volumes of the request as VirtualDiskArray, which
    makes the spare a dedicated one; UnassignSpare never sends them, even
    when the request names volumes. *)
Theorem spare_command_payload ext v p rf s :
  spare_variant v = true ->
  requests p v = true ->
  read_snapshot v p rf = Some s ->
  would_change v p s = true ->
  exists kv,
    posts (snd (run (run_command ext (mkModule p false) rf)))
    = [mkRequest POST (RAID_ACTION_URI SYSTEM_ID (command_name v)) (Some (JObj kv))]
    /\ assoc "TargetFQDD" kv = Some (JStr (target_of p))
    /\ assoc "VirtualDiskArray" kv
       = match v, volume_id p with
         | AssignSpare, Some vol => Some (JArr (map JStr vol))
         | _, _ => None
         end.
Proof.
  intros Hv Hq Hs Hw.
  destruct (requests_command _ _ Hq) as [Hc _].
  exists (("TargetFQDD", JStr (target_of p)) ::
          match v, volume_id p with
          | AssignSpare, Some vol => [("VirtualDiskArray", JArr (map JStr vol))]
          | _, _ => []
          end).
  split; [|split].
  - assert (E : run (run_command ext (mkModule p false) rf)
                = (r <- hot_spare_config (mkModule p false) rf ;; ret (Some r)) []).
    { unfold run, run_command. cbn [params]. rewrite Hc.
      destruct v; try discriminate; reflexivity. }
    rewrite E. rewrite snd_bind_quiet by (intros a; auto with quiet).
    rewrite (run_hot_spare_posts v (mkModule p false) rf s Hv Hq Hs Hw eq_refl).
    rewrite snd_submit. reflexivity.
  - reflexivity.
  - cbn [assoc String.eqb Ascii.eqb Bool.eqb].
    destruct v; try discriminate; destruct (volume_id p); reflexivity.
Qed.

Lemma unassign_sends_no_volume :
  let p := request_for "UnassignSpare" None (Some [volume0]) (Some [drive0])
                       None in
  exists kv,
    posts (snd (run (run_command plain_ext (mkModule p false)
                       (rf_drive "Dedicated" "Ready"))))
    = [mkRequest POST (action_path "UnassignSpare") (Some (JObj kv))]
    /\ assoc "TargetFQDD" kv = Some (JStr drive0)
    /\ assoc "VirtualDiskArray" kv = None.
Proof.
  exact (spare_command_payload plain_ext UnassignSpare
           (request_for "UnassignSpare" None (Some [volume0]) (Some [drive0]) None)
           (rf_drive "Dedicated" "Ready") (Drive (JStr "Dedicated"))
           eq_refl eq_refl eq_refl eq_refl).
Defined.

(* ------------------------------------------------------------------ *)
(** ** Online capacity expansion: what precedes and follows the request *)




(** X24.  What [online_capacity_expansion] checks before it decides.  A
    request that names no volume or several is rejected before any request
    is sent.  A volume that cannot be read is rejected with "Unable to
    locate the virtual disk".  On a volume that can be read, RAID50 and
    RAID60 are rejected first, and an empty list of targets next.  All of
    these are failures and none posts the action. *)
Theorem expansion_input_checks ext p cm rf :
  command p = Some "OnlineCapacityExpansion" ->
  let r := run (run_command ext (mkModule p cm) rf) in
  (forall l, volume_id p = Some l -> length l <> 1 ->
             r = (Exit (kw_msg_failed (Format TARGET_ERR_MSG [JStr "virtual drive"])),
                  []))
  /\ (forall v0 body,
         volume_id p = Some [v0] ->
         rf GET (volume_uri_of v0) None = HTTPFail body ->
         r = (Exit (kw_msg_failed (Format VD_ERROR_MSG [JStr v0])),
              [mkRequest GET (volume_uri_of v0) None]))
  /\ (forall v0 resp rt,
         volume_id p = Some [v0] ->
         get_resp rf (volume_uri_of v0) = Some resp ->
         field (json_data resp) "RAIDType" = Some rt ->
         (in_strs rt ["RAID50"; "RAID60"] = true ->
          r = (Exit (kw_msg_failed (Format OCE_RAID_TYPE_ERR [rt])),
               [mkRequest GET (volume_uri_of v0) None]))
         /\ (in_strs rt ["RAID50"; "RAID60"] = false -> target p = Some [] ->
             r = (Exit (kw_msg_failed (Text OCE_TARGET_EMPTY)),
                  [mkRequest GET (volume_uri_of v0) None]))).
Proof.
  intros Hc r.
  assert (E : r = (x <- online_capacity_expansion (mkModule p cm) rf ;;
                   ret (Some x)) [])
    by (subst r; unfold run; rewrite (run_command_oce ext) by exact Hc;
        reflexivity).
  clearbody r. subst r.
  split; [|split].
  - intros l Hl Hlen. unfold bind at 1. unfold online_capacity_expansion. cbn [params].
    rewrite Hl. rewrite length_map.
    destruct (Nat.eqb (length l) 1) eqn:El;
      [apply Nat.eqb_eq in El; contradiction|].
    reflexivity.
  - intros v0 body Hvol Hb. unfold bind at 1. unfold online_capacity_expansion. cbn [params].
    rewrite Hvol.
    cbn [map length hd Nat.eqb negb when].
    unfold bind at 1. unfold ret at 1. cbv beta iota.
    unfold bind at 1. cbn [as_str oj]. unfold ret at 1. cbv beta iota.
    unfold volume_uri_of in *.
    unfold bind at 1, try_http at 1, bind at 1, invoke_request at 1. rewrite Hb.
    reflexivity.
  - intros v0 resp rt Hvol R R0.
    assert (E : online_capacity_expansion (mkModule p cm) rf []
                = if in_strs rt ["RAID50"; "RAID60"]
                  then (Exit (kw_msg_failed (Format OCE_RAID_TYPE_ERR [rt])),
                        [mkRequest GET (volume_uri_of v0) None])
                  else match target p with
                       | Some [] =>
                           (Exit (kw_msg_failed (Text OCE_TARGET_EMPTY)),
                            [mkRequest GET (volume_uri_of v0) None])
                       | _ => online_capacity_expansion (mkModule p cm) rf []
                       end).
    { destruct (in_strs rt ["RAID50"; "RAID60"]) eqn:E50;
        [|destruct (target p) as [[|d ds]|] eqn:Ht; try reflexivity];
        unfold online_capacity_expansion; cbn [params check_mode];
        rewrite Hvol; try rewrite Ht;
        cbn [map length hd Nat.eqb negb when];
        unfold bind at 1; unfold ret at 1; cbv beta iota;
        unfold bind at 1; cbn [as_str oj]; unfold ret at 1; cbv beta iota;
        change (VOLUME_URI SYSTEM_ID (split_last ":" v0) ++ "/" ++ v0)%string
          with (volume_uri_of v0);
        unfold bind at 1, try_http at 1;
        erewrite run_get by eassumption; cbv beta iota;
        erewrite try_http_bind_ret by (eapply run_py_get; eassumption);
        rewrite E50.
      - erewrite try_http_bind_exit by reflexivity. reflexivity.
      - erewrite try_http_bind_ret by reflexivity.
        rewrite try_http_assoc.
        erewrite try_http_bind_exit by reflexivity. reflexivity. }
    split.
    + intros H. unfold bind at 1. rewrite E, H. reflexivity.
    + intros H Ht. unfold bind at 1. rewrite E, H, Ht. reflexivity.
Qed.

Lemma two_volumes_rejected :
  let p := request_for "OnlineCapacityExpansion" None
                       (Some [volume0; "Disk.Virtual.1:RAID.Slot.1-1"])
                       (Some [drive2]) None in
  run (run_command plain_ext (mkModule p false) rf_raid10)
  = (Exit (kw_msg_failed (Format TARGET_ERR_MSG [JStr "virtual drive"])), []).
Proof.
  refine (proj1 (expansion_input_checks plain_ext
           (request_for "OnlineCapacityExpansion" None
                        (Some [volume0; "Disk.Virtual.1:RAID.Slot.1-1"])
                        (Some [drive2]) None)
           false rf_raid10 eq_refl)
           [volume0; "Disk.Virtual.1:RAID.Slot.1-1"] eq_refl _).
  discriminate.
Defined.

Lemma size_below_minimum_rejected :
  let p := request_for "OnlineCapacityExpansion" None (Some [volume0]) None
                       (Some 362050%Z) in
  let r := run (run_command plain_ext (mkModule p false) rf_raid10) in
  exit_of (fst r) = Some (kw_msg_failed (Format OCE_SIZE_100MB [JNum 362000]))
  /\ posts (snd r) = [].
Proof.
  assert (H := proj1 (expansion_by_nonzero_size plain_ext
            (request_for "OnlineCapacityExpansion" None (Some [volume0]) None
                         (Some 362050%Z))
            false rf_raid10 (JStr "RAID10") 379584512000%Z 362050%Z
            eq_refl eq_refl eq_refl eq_refl ltac:(discriminate))
            ltac:(vm_compute; reflexivity)).
  exact (conj (proj1 H) (proj2 (proj2 H))).
Defined.

(* ------------------------------------------------------------------ *)
(** ** Drives that cannot be read *)

(** A spare command or a change of the drive state on a drive that cannot be
    read. *)
Lemma run_unknown_drive ext v p cm rf body :
  drive_variant v = true ->
  requests p v = true ->
  rf GET (req_uri (drive_request (target_of p))) None = HTTPFail body ->
  run (run_command ext (mkModule p cm) rf)
  = (Exit (kw_msg_failed (Format PD_ERROR_MSG [JStr (target_of p)])),
     [drive_request (target_of p)]).
Proof.
  intros Hv Hq Hb. destruct (requests_command _ _ Hq) as [Hc Hcar].
  assert (exists d ds, target p = Some (d :: ds)) as (d & ds & Ht).
  { destruct v; try discriminate; simpl in Hcar;
      destruct (target p) as [[|d ds]|]; try discriminate; eauto. }
  unfold target_of in *. rewrite Ht in *. cbn [drive_request req_uri] in Hb.
  unfold run, run_command. cbn [params]. rewrite Hc.
  destruct v; try discriminate;
    cbn [command_name cmd_is cmd_in existsb String.eqb Ascii.eqb Bool.eqb orb andb];
    unfold hot_spare_config, change_pd_status; cbn [params]; rewrite Ht;
    unfold bind at 1; unfold bind at 1; cbn [py_first]; unfold ret at 1;
    cbv beta iota;
    unfold bind at 1, try_http at 1; try unfold bind at 1;
    unfold invoke_request at 1; rewrite Hb; reflexivity.
Qed.

(** The loop stops at the first drive that cannot be read. *)
Lemma run_convert_stops rf (before : list string) d after body :
  forall ss t,
    read_raid_statuses rf before = Some ss ->
    rf GET (req_uri (drive_request d)) None = HTTPFail body ->
    for_collect (before ++ d :: after) (fun ctrl =>
      try_http
        (pd_resp <- invoke_request rf GET (PD_URI (split_last ":" ctrl) ctrl)
                      None ;;
         raid_status_of pd_resp)
        (fun _ => fail_json (Format PD_ERROR_MSG [JStr ctrl]))) t
    = (Exit (kw_msg_failed (Format PD_ERROR_MSG [JStr d])),
       drive_request d :: rev (map drive_request before) ++ t).
Proof.
  induction before as [|b before IH]; intros ss t H Hb.
  - cbn [app for_collect]. unfold bind at 1, try_http at 1.
    unfold bind at 1, invoke_request at 1.
    cbn [drive_request req_uri] in Hb. rewrite Hb. reflexivity.
  - unfold read_raid_statuses in H. cbn [traverse] in H. read_chain H.
    cbn [app for_collect]. unfold bind at 1. unfold try_http at 1.
    rewrite (run_raid_status _ _ _ _ R). cbv beta iota.
    unfold bind at 1. rewrite (IH _ _ R0 Hb). cbv beta iota.
    cbn [map rev]. rewrite <- app_assoc. reflexivity.
Qed.

(** X26.  A drive that the remote system does not have fails the command
    with "Unable to locate the physical disk" and the id of the drive; the
    error body is dropped.  AssignSpare, UnassignSpare and the two changes
    of the drive state fail after the one request that tried to read the
    drive.  A conversion reads its drives in the order of the request and
    stops at the first one it cannot read: the drives after it are not read,
    and nothing is posted, in check mode or not. *)
Theorem unreadable_drive_fails ext p cm rf body :
  let r := run (run_command ext (mkModule p cm) rf) in
  (forall v,
      drive_variant v = true ->
      requests p v = true ->
      rf GET (req_uri (drive_request (target_of p))) None = HTTPFail body ->
      r = (Exit (kw_msg_failed (Format PD_ERROR_MSG [JStr (target_of p)])),
           [drive_request (target_of p)]))
  /\ (forall before d after states,
         convert_command p = true ->
         target p = Some (before ++ d :: after) ->
         read_raid_statuses rf before = Some states ->
         rf GET (req_uri (drive_request d)) None = HTTPFail body ->
         r = (Exit (kw_msg_failed (Format PD_ERROR_MSG [JStr d])),
              drive_request d :: rev (map drive_request before))).
Proof.
  intros r. subst r. split.
  - intros v Hv Hq Hb. apply (run_unknown_drive ext v p cm rf body); assumption.
  - intros before d after states Hc Ht Hs Hb. unfold convert_command in Hc.
    unfold run, run_command. cbn [params].
    cmd_cases Hc; rewrite Hc0;
      cbn [cmd_is cmd_in existsb String.eqb Ascii.eqb Bool.eqb orb andb];
      unfold convert_raid_status; cbn [params]; rewrite Ht;
      unfold bind at 1; unfold bind at 1; unfold ret at 1; cbv beta iota;
      unfold bind at 1;
      rewrite (run_convert_stops rf before d after body states [] Hs Hb);
      rewrite app_nil_r; reflexivity.
Qed.

Lemma second_drive_unknown :
  let p := request_for "ConvertToRAID" None None (Some [drive0; drive3; drive1])
                       None in
  run (run_command plain_ext (mkModule p false) (rf_drive "None" "NonRAID"))
  = (Exit (kw_msg_failed (Format PD_ERROR_MSG [JStr drive3])),
     [mkRequest GET (drive_path drive3) None;
      mkRequest GET (drive_path drive0) None]).
Proof.
  exact (proj2 (unreadable_drive_fails plain_ext
           (request_for "ConvertToRAID" None None (Some [drive0; drive3; drive1])
                        None)
           false (rf_drive "None" "NonRAID") (JObj []))
           [drive0] drive3 [drive1] [JStr "NonRAID"]
           eq_refl eq_refl eq_refl eq_refl).
Defined.

(* ------------------------------------------------------------------ *)
(** ** The compliance report of OpenManage Enterprise *)

(** Catching an exception only to raise it again changes nothing. *)
Lemma reraising_id {A : Type} (body : M A) t : Ome.reraising body t = body t.
Proof.
  unfold Ome.reraising. destruct (body t) as [[a|o|e] t']; try reflexivity.
  destruct e; reflexivity.
Qed.

Lemma other_inv k wanted entry :
  Ome.other k wanted entry = true ->
  exists v, item entry k = Some v /\ eq_str v wanted = false.
Proof.
  unfold Ome.other. destruct (item entry k) as [v|]; [|discriminate].
  intros H. apply negb_true_iff in H. eauto.
Qed.

Lemma run_baseline_loop_found name before b after id t :
  forallb (Ome.other "Name" name) before = true ->
  item b "Name" = Some (JStr name) ->
  item b "Id" = Some id ->
  Ome.baseline_loop (before ++ b :: after) name t = (Ret id, t).
Proof.
  intros Hb Hn Hi. induction before as [|x before IH].
  - cbn [app Ome.baseline_loop]. unfold bind at 1.
    erewrite run_py_item by eassumption. cbv beta iota.
    unfold eq_str. cbn [py_eq]. rewrite String.eqb_refl.
    apply run_py_item. exact Hi.
  - cbn [forallb] in Hb. apply andb_prop in Hb. destruct Hb as [Hx Hb].
    destruct (other_inv _ _ _ Hx) as (v & Hv & Hne).
    cbn [app Ome.baseline_loop]. unfold bind at 1.
    erewrite run_py_item by eassumption. cbv beta iota.
    rewrite Hne. apply IH. exact Hb.
Qed.

Lemma run_baseline_loop_missing name l t :
  forallb (Ome.other "Name" name) l = true ->
  Ome.baseline_loop l name t
  = (Exit (kw_msg_failed
             (Text "Specified I(baseline_name) does not exist in the system.")),
     t).
Proof.
  induction l as [|x l IH]; intros Hb; [reflexivity|].
  cbn [forallb] in Hb. apply andb_prop in Hb. destruct Hb as [Hx Hb].
  destruct (other_inv _ _ _ Hx) as (v & Hv & Hne).
  cbn [Ome.baseline_loop]. unfold bind at 1.
  erewrite run_py_item by eassumption. cbv beta iota.
  rewrite Hne. apply IH. exact Hb.
Qed.

(** X27.  [get_baseline_id_from_name] reads the baselines once.  It
    returns the id of the first baseline that has the name.  When there are
    baselines and none has the name it fails with "Specified
    I(baseline_name) does not exist in the system.", when there is no
    baseline at all with "No baseline exists in the system.".  When the
    answer is not a success the list is not looked at and the id is 0. *)
Theorem baseline_found_by_name rf p name resp :
  Ome.baseline_name p = Some name ->
  rf GET Ome.base_line_path None = Resp resp ->
  let r := Ome.get_baseline_id_from_name rf p [] in
  let t := [mkRequest GET Ome.base_line_path None] in
  (success resp = false -> r = (Ret (JNum 0), t))
  /\ (success resp = true ->
      item (json_data resp) "value" = Some (JArr []) ->
      r = (Exit (kw_msg_failed (Text "No baseline exists in the system.")), t))
  /\ (success resp = true ->
      forall before b after id,
        item (json_data resp) "value" = Some (JArr (before ++ b :: after)) ->
        forallb (Ome.other "Name" name) before = true ->
        item b "Name" = Some (JStr name) ->
        item b "Id" = Some id ->
        r = (Ret id, t))
  /\ (success resp = true ->
      forall l,
        item (json_data resp) "value" = Some (JArr l) ->
        l <> [] ->
        forallb (Ome.other "Name" name) l = true ->
        r = (Exit (kw_msg_failed
                     (Text "Specified I(baseline_name) does not exist in the system.")),
             t)).
Proof.
  intros Hn Hr r t.
  assert (E : r = (if success resp then
                     baseline_list <- py_item (json_data resp) "value" ;;
                     n <- Ome.py_len baseline_list ;;
                     if Nat.ltb 0 n then
                       baseline_list <- as_list baseline_list ;;
                       Ome.baseline_loop baseline_list name
                     else fail_json (Text "No baseline exists in the system.")
                   else ret (JNum 0)) t).
  { subst r. unfold Ome.get_baseline_id_from_name. rewrite reraising_id.
    rewrite Hn. unfold bind at 1, invoke_request at 1. rewrite Hr.
    reflexivity. }
  clearbody r. subst r.
  split; [|split; [|split]].
  - intros Hs. rewrite Hs. reflexivity.
  - intros Hs Hv. rewrite Hs. unfold bind at 1.
    erewrite run_py_item by eassumption. reflexivity.
  - intros Hs before b after id Hv Hb Hname Hid. rewrite Hs.
    unfold bind at 1. erewrite run_py_item by eassumption. cbv beta iota.
    unfold bind at 1. cbn [Ome.py_len]. unfold ret at 1. cbv beta iota.
    assert (Hl : Nat.ltb 0 (length (before ++ b :: after)) = true).
    { apply Nat.ltb_lt. rewrite length_app. simpl. lia. }
    rewrite Hl. unfold bind at 1. cbn [as_list]. unfold ret at 1.
    cbv beta iota.
    apply run_baseline_loop_found; assumption.
  - intros Hs l Hv Hne Hb. rewrite Hs.
    unfold bind at 1. erewrite run_py_item by eassumption. cbv beta iota.
    unfold bind at 1. cbn [Ome.py_len]. unfold ret at 1. cbv beta iota.
    assert (Hl : Nat.ltb 0 (length l) = true).
    { apply Nat.ltb_lt. destruct l; [contradiction Hne; reflexivity|simpl; lia]. }
    rewrite Hl. unfold bind at 1. cbn [as_list]. unfold ret at 1.
    cbv beta iota.
    apply run_baseline_loop_missing. exact Hb.
Qed.

Lemma second_baseline_found :
  Ome.get_baseline_id_from_name Ome.appliance
    (Ome.mkParams (Some "baseline2") None None None) []
  = (Ret (JNum 9), [mkRequest GET Ome.base_line_path None]).
Proof.
  exact (proj1 (proj2 (proj2 (baseline_found_by_name Ome.appliance
           (Ome.mkParams (Some "baseline2") None None None) "baseline2"
           (mkResponse true 200
              (JObj [("value", JArr [Ome.baseline "baseline1" 8;
                                     Ome.baseline "baseline2" 9])]) [])
           eq_refl eq_refl))) eq_refl
           [Ome.baseline "baseline1" 8] (Ome.baseline "baseline2" 9) []
           (JNum 9) eq_refl eq_refl eq_refl eq_refl).
Defined.

Lemma keys_update d k v : map fst (Ome.update d k v) = Ome.add_key (map fst d) k.
Proof.
  unfold Ome.add_key. induction d as [|[k' v'] d IH]; [reflexivity|].
  cbn [Ome.update map fst existsb].
  destruct (py_eq k' k); [reflexivity|]. cbn [map fst orb]. rewrite IH.
  destruct (existsb (fun k'0 => py_eq k'0 k) (map fst d)); reflexivity.
Qed.

Lemma keys_fold_update l acc :
  map fst (fold_left (fun acc kv => Ome.update acc (fst kv) (snd kv)) l acc)
  = fold_left Ome.add_key (map fst l) (map fst acc).
Proof.
  revert acc. induction l as [|[k v] l IH]; intros acc; [reflexivity|].
  cbn [fold_left map fst snd]. rewrite IH, keys_update. reflexivity.
Qed.

(** The loop of [_get_device_id_from_service_tags] over devices that have an
    id and a service tag. *)
Lemma run_service_tag_loop tags devices :
  forall pairs acc t,
    traverse Ome.read_device devices = Some pairs ->
    Ome.service_tag_loop devices (Some tags) acc t
    = (Ret (fold_left (fun acc kv => Ome.update acc (fst kv) (snd kv))
                      (filter (fun d => py_in (snd d) (map JStr tags)) pairs)
                      acc), t).
Proof.
  induction devices as [|d devices IH]; intros pairs acc t H.
  - inversion H. reflexivity.
  - cbn [traverse] in H. read_chain H. inversion H; subst pairs. clear H.
    unfold Ome.read_device in R. read_chain R.
    destruct (Ome.hashable x1) eqn:Hh; [|discriminate].
    inversion R; subst x. clear R.
    cbn [Ome.service_tag_loop filter snd]. unfold bind at 1.
    erewrite run_py_item by eassumption. cbv beta iota.
    unfold bind at 1. cbn [Ome.in_tags]. unfold ret at 1. cbv beta iota.
    destruct (py_in x2 (map JStr tags)).
    + unfold bind at 1. erewrite run_py_item by eassumption. cbv beta iota.
      unfold bind at 1. erewrite run_py_item by eassumption. cbv beta iota.
      rewrite Hh. cbn [fold_left fst snd]. apply IH. exact R0.
    + apply IH. exact R0.
Qed.

(** X28.  With service tags, the devices are read once and the report is
    asked for the ids of the devices that carry one of the tags, in the
    order of the device list and each id once; tags that no device carries
    are ignored.  When no device carries any of the tags the module fails
    with "Device details not available as the service tag(s) provided are
    invalid." and asks for no report. *)
Theorem devices_selected_by_service_tag py_str rf p tags resp devices pairs :
  Ome.device_ids p = None ->
  Ome.device_group_names p = None ->
  Ome.device_service_tags p = Some tags ->
  rf GET Ome.device_is_list_path None = Resp resp ->
  success resp = true ->
  item (json_data resp) "value" = Some (JArr devices) ->
  traverse Ome.read_device devices = Some pairs ->
  let ids := Ome.tagged_ids tags pairs in
  let r := Ome.get_baselines_report_by_device_ids py_str rf p [] in
  let read := mkRequest GET Ome.device_is_list_path None in
  let ask := mkRequest POST Ome.baselines_report_by_device_ids_path
                       (Some (JObj [("Ids", JArr ids)])) in
  (ids = [] ->
   r = (Exit (kw_msg_failed
                (Text "Device details not available as the service tag(s) provided are invalid.")),
        [read]))
  /\ (ids <> [] ->
      snd r = [ask; read]
      /\ (forall answer, rf POST (req_uri ask) (req_data ask) = Resp answer ->
                         fst r = Ret (json_data answer))).
Proof.
  intros Hi Hg Ht Hr Hs Hv Hd ids r read ask.
  assert (E : r = (if match ids with [] => false | _ => true end
                   then
                     resp <- invoke_request rf POST
                               Ome.baselines_report_by_device_ids_path
                               (Some (JObj [("Ids", JArr ids)])) ;;
                     ret (json_data resp)
                   else
                     fail_json (Text "Device details not available as the service tag(s) provided are invalid."))
                    [read]).
  { subst r. unfold Ome.get_baselines_report_by_device_ids.
    rewrite reraising_id. unfold bind at 1. unfold Ome.get_identifiers.
    rewrite Hi, Hg, Ht. unfold bind at 1.
    unfold Ome._get_device_id_from_service_tags. rewrite reraising_id.
    unfold bind at 1, invoke_request at 1. rewrite Hr, Hs.
    unfold bind at 1. erewrite run_py_item by eassumption. cbv beta iota.
    unfold bind at 1. cbn [as_list]. unfold ret at 1. cbv beta iota.
    rewrite (run_service_tag_loop tags devices pairs [] _ Hd).
    cbv beta iota. unfold ret at 1. cbv beta iota.
    rewrite keys_fold_update. cbn [map]. fold (Ome.tagged_ids tags pairs).
    fold ids. rewrite orb_false_r. reflexivity. }
  clearbody r. subst r. split.
  - intros He. rewrite He. reflexivity.
  - intros Hne. destruct ids as [|i ids'] eqn:Eids;
      [contradiction Hne; reflexivity|].
    unfold bind, invoke_request, ret. cbn [req_uri req_data ask].
    split.
    + destruct (rf POST _ _); reflexivity.
    + intros answer Ha. subst ask. cbn [req_uri req_data] in Ha.
      rewrite Ha. reflexivity.
Qed.

Lemma two_tags_one_unknown :
  let p := Ome.mkParams None (Some ["PQR8910"; "ABC0000"; "MXL1234"]) None None in
  Ome.get_baselines_report_by_device_ids Ome.plain_str Ome.appliance p []
  = (Ret (JArr [JObj [("BaselineName", JStr "baseline1")]]),
     [mkRequest POST Ome.baselines_report_by_device_ids_path
                (Some (JObj [("Ids", JArr [JNum 11603; JNum 11605])]));
      mkRequest GET Ome.device_is_list_path None]).
Proof.
  assert (H := devices_selected_by_service_tag Ome.plain_str Ome.appliance
            (Ome.mkParams None (Some ["PQR8910"; "ABC0000"; "MXL1234"]) None None)
            ["PQR8910"; "ABC0000"; "MXL1234"]
            (mkResponse true 200
               (JObj [("value",
                       JArr [Ome.device 11603 "MXL1234"; Ome.device 11604 "MXL4567";
                             Ome.device 11605 "PQR8910"])]) [])
            [Ome.device 11603 "MXL1234"; Ome.device 11604 "MXL4567";
             Ome.device 11605 "PQR8910"]
            [(JNum 11603, JStr "MXL1234"); (JNum 11604, JStr "MXL4567");
             (JNum 11605, JStr "PQR8910")]
            eq_refl eq_refl eq_refl eq_refl eq_refl eq_refl eq_refl).
  cbv zeta in H. destruct H as [_ H].
  destruct (H ltac:(vm_compute; discriminate)) as [H1 H2].
  apply injective_projections.
  - exact (H2 (mkResponse true 200
                 (JArr [JObj [("BaselineName", JStr "baseline1")]]) []) eq_refl).
  - exact H1.
Defined.

Lemma run_group_loop name groups :
  forall pairs t,
    traverse Ome.read_group groups = Some pairs ->
    Ome.group_loop groups name t
    = (Ret (match find (fun g => eq_str (fst g) name) pairs with
            | Some g => [snd g]
            | None => []
            end), t).
Proof.
  induction groups as [|g groups IH]; intros pairs t H.
  - inversion H. reflexivity.
  - cbn [traverse] in H. read_chain H. inversion H; subst pairs. clear H.
    unfold Ome.read_group in R. read_chain R. inversion R; subst x. clear R.
    cbn [Ome.group_loop find fst snd]. unfold bind at 1.
    erewrite run_py_item by eassumption. cbv beta iota.
    destruct (eq_str x1 name).
    + unfold bind at 1. erewrite run_py_item by eassumption. reflexivity.
    + apply IH. exact R0.
Qed.

Lemma run_name_loop names groups pairs :
  traverse Ome.read_group groups = Some pairs ->
  forall t, Ome.name_loop names (JArr groups) t
            = (Ret (Ome.group_ids names pairs), t).
Proof.
  intros H. induction names as [|name names IH]; intros t; [reflexivity|].
  cbn [Ome.name_loop]. unfold bind at 1. cbn [as_list]. unfold ret at 1.
  cbv beta iota.
  unfold bind at 1. rewrite (run_group_loop name groups pairs t H).
  cbv beta iota. unfold bind at 1. rewrite IH. reflexivity.
Qed.

Lemma run_device_loop devices :
  forall ids t,
    traverse (fun d => item d "Id") devices = Some ids ->
    Ome.device_loop devices t = (Ret ids, t).
Proof.
  induction devices as [|d devices IH]; intros ids t H.
  - inversion H. reflexivity.
  - cbn [traverse] in H. read_chain H. inversion H; subst ids.
    cbn [Ome.device_loop]. unfold bind at 1.
    erewrite run_py_item by eassumption. cbv beta iota.
    unfold bind at 1. rewrite (IH _ _ R0). reflexivity.
Qed.

Lemma run_group_id_loop py_str rf group_ids :
  forall members t,
    traverse (Ome.read_members py_str rf) group_ids = Some members ->
    Ome.group_id_loop py_str group_ids rf t
    = (Ret (concat members),
       rev (map (Ome.group_request py_str) group_ids) ++ t).
Proof.
  induction group_ids as [|g group_ids IH]; intros members t H.
  - inversion H. reflexivity.
  - cbn [traverse] in H. read_chain H. inversion H; subst members. clear H.
    unfold Ome.read_members in R. read_chain R.
    destruct (success x1) eqn:Hs; [|discriminate]. read_chain R.
    destruct x2; try discriminate.
    cbn [Ome.group_id_loop]. unfold bind at 1.
    erewrite run_get by eassumption. cbv beta iota. rewrite Hs.
    unfold bind at 1. unfold bind at 1.
    erewrite run_py_item by eassumption. cbv beta iota.
    unfold bind at 1. cbn [as_list]. unfold ret at 1. cbv beta iota.
    rewrite (run_device_loop _ _ _ R). cbv beta iota.
    unfold bind at 1. rewrite (IH _ _ R0). cbv beta iota.
    cbn [concat map rev]. rewrite <- app_assoc. reflexivity.
Qed.

(** X29.  With group names, the groups are read once and every name
    resolves, in the order of the request, to the first group that has it;
    a name that no group has is dropped without a word.  The devices of
    these groups are then read group by group, and the report is asked for
    all their ids, in that order.  When that leaves no device the module
    fails with "Device details not available as the group name(s) provided
    are invalid." and asks for no report. *)
Theorem devices_selected_by_group_name py_str rf p names resp groups pairs
        members :
  Ome.device_ids p = None ->
  Ome.device_group_names p = Some names ->
  rf GET Ome.group_service_path None = Resp resp ->
  success resp = true ->
  item (json_data resp) "value" = Some (JArr groups) ->
  traverse Ome.read_group groups = Some pairs ->
  traverse (Ome.read_members py_str rf) (Ome.group_ids names pairs)
  = Some members ->
  let ids := concat members in
  let r := Ome.get_baselines_report_by_device_ids py_str rf p [] in
  let reads := rev (map (Ome.group_request py_str) (Ome.group_ids names pairs))
               ++ [mkRequest GET Ome.group_service_path None] in
  let ask := mkRequest POST Ome.baselines_report_by_device_ids_path
                       (Some (JObj [("Ids", JArr ids)])) in
  (ids = [] ->
   r = (Exit (kw_msg_failed
                (Text "Device details not available as the group name(s) provided are invalid.")),
        reads))
  /\ (ids <> [] ->
      snd r = ask :: reads
      /\ (forall answer, rf POST (req_uri ask) (req_data ask) = Resp answer ->
                         fst r = Ret (json_data answer))).
Proof.
  intros Hi Hg Hr Hs Hv Hgroups Hmembers ids r reads ask.
  assert (E : r = (if match ids with [] => false | _ => true end
                   then
                     resp <- invoke_request rf POST
                               Ome.baselines_report_by_device_ids_path
                               (Some (JObj [("Ids", JArr ids)])) ;;
                     ret (json_data resp)
                   else
                     fail_json (Text "Device details not available as the group name(s) provided are invalid."))
                    reads).
  { subst r. unfold Ome.get_baselines_report_by_device_ids.
    rewrite reraising_id. unfold bind at 1. unfold Ome.get_identifiers.
    rewrite Hi, Hg. unfold bind at 1.
    unfold Ome.get_device_ids_from_group_names. rewrite reraising_id.
    unfold bind at 1, invoke_request at 1. rewrite Hr, Hs.
    unfold bind at 1. unfold bind at 1.
    erewrite run_py_item by eassumption. cbv beta iota. rewrite Hg.
    rewrite (run_name_loop names groups pairs Hgroups). cbv beta iota.
    unfold Ome.get_device_ids_from_group_ids. rewrite reraising_id.
    rewrite (run_group_id_loop py_str rf _ _ _ Hmembers). cbv beta iota.
    unfold ret at 1. cbv beta iota.
    fold ids. fold reads. rewrite orb_false_r. reflexivity. }
  clearbody r. subst r. split.
  - intros He. rewrite He. reflexivity.
  - intros Hne. destruct ids as [|i ids'] eqn:Eids;
      [contradiction Hne; reflexivity|].
    unfold bind, invoke_request, ret. cbn [req_uri req_data ask].
    split.
    + destruct (rf POST _ _); reflexivity.
    + intros answer Ha. subst ask. cbn [req_uri req_data] in Ha.
      rewrite Ha. reflexivity.
Qed.

Lemma unknown_group_is_dropped :
  let p := Ome.mkParams None None None (Some ["Chassis"; "Racks"; "Servers"]) in
  Ome.get_baselines_report_by_device_ids Ome.plain_str Ome.appliance p []
  = (Ret (JArr [JObj [("BaselineName", JStr "baseline1")]]),
     [mkRequest POST Ome.baselines_report_by_device_ids_path
                (Some (JObj [("Ids", JArr [JNum 11605; JNum 11603; JNum 11604])]));
      mkRequest GET (Ome.group_id_path "1010") None;
      mkRequest GET (Ome.group_id_path "1020") None;
      mkRequest GET Ome.group_service_path None]).
Proof.
  assert (H := devices_selected_by_group_name Ome.plain_str Ome.appliance
            (Ome.mkParams None None None (Some ["Chassis"; "Racks"; "Servers"]))
            ["Chassis"; "Racks"; "Servers"]
            (mkResponse true 200
               (JObj [("value", JArr [Ome.group "Servers" 1010;
                                      Ome.group "Chassis" 1020])]) [])
            [Ome.group "Servers" 1010; Ome.group "Chassis" 1020]
            [(JStr "Servers", JNum 1010); (JStr "Chassis", JNum 1020)]
            [[JNum 11605]; [JNum 11603; JNum 11604]]
            eq_refl eq_refl eq_refl eq_refl eq_refl eq_refl eq_refl).
  cbv zeta in H. destruct H as [_ H].
  destruct (H ltac:(vm_compute; discriminate)) as [H1 H2].
  apply injective_projections.
  - exact (H2 (mkResponse true 200
                 (JArr [JObj [("BaselineName", JStr "baseline1")]]) []) eq_refl).
  - exact H1.
Defined.

(** X30.  With a baseline name, [main] asks for the compliance reports of
    the baseline the name resolves to.  A report list that is not empty is
    the result of the module.  An empty one, or an answer that is not a
    success, ends the module with "Failed to fetch the compliance baseline
    information.".  An answer without the "value" member raises KeyError,
    which the [except] clauses of [main] do not handle. *)
Theorem baseline_report_outcome py_str rf p name id t answer :
  Ome.baseline_name p = Some name ->
  name <> "" ->
  Ome.get_baseline_id_from_name rf p [] = (Ret id, t) ->
  let path := Ome.baselines_compliance_report_path (py_str id) in
  rf GET path None = Resp answer ->
  let r := run (Ome.main py_str p rf) in
  let t' := mkRequest GET path None :: t in
  let failure :=
    Exit (kw_msg_failed
            (Text "Failed to fetch the compliance baseline information.")) in
  (success answer = false -> r = (failure, t'))
  /\ (success answer = true ->
      forall reports,
        item (json_data answer) "value" = Some reports ->
        r = (if truthy reports then Ret (Ome.BaselineComplianceInfo reports)
             else failure, t'))
  /\ (success answer = true ->
      forall kv, json_data answer = JObj kv -> assoc "value" kv = None ->
                 r = (Raise (KeyError "value"), t')).
Proof.
  intros Hn Hne Hid path Ha r t' failure.
  assert (Hv : Ome.nothing_given p = false).
  { unfold Ome.nothing_given. rewrite Hn. cbn [oj truthy].
    apply String.eqb_neq in Hne. rewrite Hne. cbn [negb].
    apply andb_false_r. }
  assert (E : r = Ome.main_handlers
                    (data <- (if success answer
                              then py_item (json_data answer) "value"
                              else ret (JArr [])) ;;
                     if truthy data then ret (Ome.BaselineComplianceInfo data)
                     else fail_json (Text "Failed to fetch the compliance baseline information."))
                    t').
  { subst r. unfold run, Ome.main, Ome.main_handlers.
    unfold bind at 1. unfold Ome.validate_inputs. rewrite Hv. cbn [when].
    unfold ret at 1. cbv beta iota. rewrite Hn.
    unfold bind at 1. unfold Ome.get_baseline_compliance_reports.
    rewrite reraising_id. unfold bind at 1. rewrite Hid. cbv beta iota zeta.
    fold path. unfold bind at 1, invoke_request at 1. rewrite Ha.
    fold t'. unfold bind at 1.
    destruct (if success answer then py_item (json_data answer) "value"
              else ret (JArr [])) as [res t2] eqn:Ed.
    destruct res; reflexivity. }
  clearbody r. subst r. unfold Ome.main_handlers.
  split; [|split].
  - intros Hs. rewrite Hs. reflexivity.
  - intros Hs reports Hr. rewrite Hs. unfold bind at 1.
    erewrite run_py_item by eassumption. cbv beta iota.
    destruct (truthy reports); reflexivity.
  - intros Hs kv Hj Hk. rewrite Hs, Hj. unfold bind at 1. cbn [py_item].
    rewrite Hk. reflexivity.
Qed.

Lemma baseline_without_reports :
  run (Ome.main Ome.plain_str (Ome.mkParams (Some "baseline2") None None None)
                Ome.appliance)
  = (Exit (kw_msg_failed
             (Text "Failed to fetch the compliance baseline information.")),
     [mkRequest GET (Ome.baselines_compliance_report_path "9") None;
      mkRequest GET Ome.base_line_path None]).
Proof.
  refine (proj1 (proj2 (baseline_report_outcome Ome.plain_str Ome.appliance
            (Ome.mkParams (Some "baseline2") None None None) "baseline2"
            (JNum 9) [mkRequest GET Ome.base_line_path None]
            (mkResponse true 200 (JObj [("value", JArr [])]) [])
            eq_refl _ eq_refl eq_refl)) eq_refl (JArr []) eq_refl).
  discriminate.
Defined.
